(** * Feed integrations: MITRE ATT&CK v2 and Unit42 v2

    A shallow embedding of the two feed integrations
    [FeedMitreAttackv2.py] and [FeedUnit42v2.py], and the properties of
    their indicator pipelines.

    Layout: the Python data model ([Py]), the date handling of the
    standard library that both integrations call ([Datetime]), then one
    module per integration ([Mitre], [Unit42]) holding the functions of
    the source file under their own names, and last the theorems. *)

From Stdlib Require Import ZArith String Ascii List Lia.
From stdpp Require Import base gmap strings list.

(** ** Python values, exceptions and dictionaries *)

Module Py.

(** The exceptions the modelled code can raise.  [TransportError] stands
    for whatever the TAXII client raises when a request fails. *)
Inductive exn :=
| AttributeError
| TypeError
| KeyError
| IndexError
| ValueError
| TransportError.

Inductive result (A : Type) :=
| Ok (a : A)
| Raise (e : exn).
Arguments Ok {A} a.
Arguments Raise {A} e.

#[global] Instance result_ret : MRet result := fun A a => Ok a.
#[global] Instance result_bind : MBind result := fun A B f m =>
  match m with
  | Ok a => f a
  | Raise e => Raise e
  end.

Definition is_ok {A} (r : result A) : bool :=
  match r with Ok _ => true | Raise _ => false end.

(** What [json.loads] produces, which is also all the Python data the two
    integrations handle: [None], booleans, integers, strings, lists and
    dictionaries with string keys.  A dictionary keeps its insertion
    order; looking a key up finds its single binding.  Strings are byte
    strings (ASCII); floating-point numbers are not represented. *)
#[warnings="-register-all"]
Inductive json :=
| JNull
| JBool (b : bool)
| JNum (n : Z)
| JStr (s : string)
| JList (l : list json)
| JObj (o : list (string * json)).

Definition obj := list (string * json).

(** Truth value of an object in a condition. *)
Definition truthy (v : json) : bool :=
  match v with
  | JNull => false
  | JBool b => b
  | JNum n => negb (n =? 0)%Z
  | JStr s => negb (String.eqb s "")
  | JList l => match l with [] => false | _ => true end
  | JObj o => match o with [] => false | _ => true end
  end.

Fixpoint assoc {A} (k : string) (d : list (string * A)) : option A :=
  match d with
  | [] => None
  | (k', v) :: d' => if String.eqb k k' then Some v else assoc k d'
  end.

(** [d.get(k)] and [d.get(k, dflt)]. *)
Definition get (k : string) (d : obj) : json := default JNull (assoc k d).
Definition get_or (k : string) (dflt : json) (d : obj) : json :=
  default dflt (assoc k d).

(** [d[k] = v]: an existing key keeps its place, a new one goes last. *)
Fixpoint dict_set {A} (k : string) (v : A) (d : list (string * A))
  : list (string * A) :=
  match d with
  | [] => [(k, v)]
  | (k', v') :: d' =>
      if String.eqb k k' then (k, v) :: d' else (k', v') :: dict_set k v d'
  end.

(** [d.update(other)]. *)
Definition dict_update {A} (d other : list (string * A)) : list (string * A) :=
  fold_left (fun acc kv => dict_set (fst kv) (snd kv) acc) other d.

(** Hashable values as set members and dictionary keys.  Python compares
    [True] and [1] (and [False] and [0]) equal, so they are one key. *)
Inductive key :=
| KNone
| KInt (n : Z)
| KStr (s : string).

#[global] Instance key_eq_dec : EqDecision key.
Proof. solve_decision. Defined.

#[global] Instance key_countable : Countable key.
Proof.
  refine (inj_countable'
    (fun k => match k with
              | KNone => inl ()
              | KInt n => inr (inl n)
              | KStr s => inr (inr s)
              end)
    (fun x => match x with
              | inl _ => KNone
              | inr (inl n) => KInt n
              | inr (inr s) => KStr s
              end) _).
  by intros [].
Defined.

(** [hash(v)]: lists and dictionaries are unhashable. *)
Definition hash_key (v : json) : result key :=
  match v with
  | JNull => Ok KNone
  | JBool b => Ok (KInt (if b then 1 else 0))
  | JNum n => Ok (KInt n)
  | JStr s => Ok (KStr s)
  | JList _ | JObj _ => Raise TypeError
  end.

Definition chars (s : string) : list json :=
  map (fun c => JStr (String c "")) (list_ascii_of_string s).

(** [iter(v)]: a list yields its items, a string its characters, a
    dictionary its keys; anything else is not iterable. *)
Definition iter (v : json) : result (list json) :=
  match v with
  | JList l => Ok l
  | JStr s => Ok (chars s)
  | JObj o => Ok (map (fun kv => JStr (fst kv)) o)
  | JNull | JBool _ | JNum _ => Raise TypeError
  end.

(** Attribute access [v.get]: only dictionaries have it. *)
Definition as_dict (v : json) : result obj :=
  match v with
  | JObj o => Ok o
  | _ => Raise AttributeError
  end.

(** Attribute access to a [str] method ([split], [startswith],
    [splitlines]). *)
Definition as_str (v : json) : result string :=
  match v with
  | JStr s => Ok s
  | _ => Raise AttributeError
  end.

Fixpoint mapM {A B} (f : A -> result B) (l : list A) : result (list B) :=
  match l with
  | [] => Ok []
  | x :: l' => y ← f x; ys ← mapM f l'; Ok (y :: ys)
  end.

(** A set of hashable values: under each key the member that has it.
    Members with the same key are equal for Python, as [True] and [1]
    are, and a set holds one of them. *)
Abbreviation pyset := (gmap key json).

(** [s.add(x)]: a member equal to [x] stays as it is. *)
Definition set_add (x : json) (s : pyset) : result pyset :=
  k ← hash_key x;
  Ok (match s !! k with
      | Some _ => s
      | None => <[k := x]> s
      end).

Fixpoint set_update (items : list json) (s : pyset) : result pyset :=
  match items with
  | [] => Ok s
  | x :: rest => s ← set_add x s; set_update rest s
  end.

(** [set(v)]. *)
Definition to_set (v : json) : result pyset :=
  items ← iter v;
  set_update items ∅.

(** [a.union(b)]: the members of [a], and those of [b] that equal none
    of them. *)
Definition set_union (a b : pyset) : pyset := a ∪ b.

(** [list(s)].  Python leaves the order open; here it is the order of
    the keys. *)
Definition members (s : pyset) : list json := map snd (map_to_list s).

Definition str_list (l : list string) : json := JList (map JStr l).

(** [sep.join(v)]: every item must be a string. *)
Fixpoint join_strs (sep : string) (l : list string) : string :=
  match l with
  | [] => ""
  | [s] => s
  | s :: l' => s +:+ sep +:+ join_strs sep l'
  end.

Definition join (sep : string) (v : json) : result string :=
  items ← iter v;
  strs ← mapM (fun x => match x with JStr s => Ok s | _ => Raise TypeError end) items;
  Ok (join_strs sep strs).

Fixpoint starts_with (p s : string) : bool :=
  match p, s with
  | EmptyString, _ => true
  | String a p', String b s' => Ascii.eqb a b && starts_with p' s'
  | String _ _, EmptyString => false
  end.

(** [p in s] for strings. *)
Fixpoint contains (p s : string) : bool :=
  starts_with p s ||
  match s with
  | EmptyString => false
  | String _ s' => contains p s'
  end.

(** [x in v] for a string [x]: substring of a string, item of a list, key
    of a dictionary. *)
Definition str_in (x : string) (v : json) : result bool :=
  match v with
  | JStr s => Ok (contains x s)
  | JList l => Ok (existsb (fun y => match y with JStr s => String.eqb x s | _ => false end) l)
  | JObj o => Ok (existsb (fun kv => String.eqb x (fst kv)) o)
  | JNull | JBool _ | JNum _ => Raise TypeError
  end.

(** [s.split('--')[0]]: the part of [s] before the first ["--"]. *)
Fixpoint before_dashes (s : string) : string :=
  match s with
  | EmptyString => EmptyString
  | String c s' =>
      if starts_with "--" s then EmptyString else String c (before_dashes s')
  end.

Definition json_eqb_str (v : json) (s : string) : bool :=
  match v with
  | JStr s' => String.eqb s' s
  | _ => false
  end.

End Py.
Export Py.

(** ** Dates: [str.splitlines], [datetime.strptime], [min]/[max] and
    [datetime.strftime], for the one format the integrations use *)

Module Datetime.

Record datetime := mk_datetime {
  year : Z;
  month : Z;
  day : Z;
  hour : Z;
  minute : Z;
  second : Z;
  microsecond : Z
}.

(** A character of a string stands for the code point of its number, so
    the strings here are those of code points below 256.  The line
    boundaries of [str.splitlines] among them: LF, CR, CR LF, VT, FF, FS,
    GS, RS and NEL (U+0085); the two others, U+2028 and U+2029, lie
    beyond. *)
Definition is_linebreak (c : ascii) : bool :=
  let n := nat_of_ascii c in
  (n =? 10) || (n =? 13) || (n =? 11) || (n =? 12) ||
  (n =? 28) || (n =? 29) || (n =? 30) || (n =? 133).

Fixpoint splitlines (s : string) : list string :=
  match s with
  | EmptyString => []
  | String c s' =>
      if is_linebreak c then
        match s' with
        | String c' s'' =>
            if (nat_of_ascii c =? 13) && (nat_of_ascii c' =? 10)
            then EmptyString :: splitlines s''
            else EmptyString :: splitlines s'
        | EmptyString => [EmptyString]
        end
      else
        match splitlines s' with
        | [] => [String c EmptyString]
        | line :: lines => String c line :: lines
        end
  end.

(** A decimal digit, as [\d] of [strptime] takes it: below code point
    256 these are [0] to [9]. *)
Definition digit_of (c : ascii) : option Z :=
  let n := nat_of_ascii c in
  if (48 <=? n) && (n <=? 57) then Some (Z.of_nat (n - 48)) else None.

(** Reads up to [width] decimal digits: their value, how many were read,
    and the rest of the input. *)
Fixpoint read_digits (width : nat) (s : string) (acc : Z) (count : nat)
  : Z * nat * string :=
  match width, s with
  | S w, String c s' =>
      match digit_of c with
      | Some d => read_digits w s' (10 * acc + d)%Z (S count)
      | None => (acc, count, s)
      end
  | _, _ => (acc, count, s)
  end.

(** A numeric directive: between [lo_w] and [hi_w] digits, value within
    [lo..hi]. *)
Definition directive (lo_w hi_w : nat) (lo hi : Z) (s : string)
  : option (Z * nat * string) :=
  let '(v, n, rest) := read_digits hi_w s 0%Z 0 in
  if (lo_w <=? n) && (lo <=? v)%Z && (v <=? hi)%Z then Some (v, n, rest) else None.

(** A literal character of the format; the match ignores case. *)
Definition literal (lower upper : ascii) (s : string) : option string :=
  match s with
  | String c s' => if Ascii.eqb c lower || Ascii.eqb c upper then Some s' else None
  | EmptyString => None
  end.

(** The day directive also takes a space followed by one digit. *)
Definition day_directive (s : string) : option (Z * nat * string) :=
  match s with
  | String " " s' =>
      match directive 1 1 1 9 s' with
      | Some (v, n, rest) => Some (v, S n, rest)
      | None => None
      end
  | _ => directive 1 2 1 31 s
  end.

Definition is_leap (y : Z) : bool :=
  ((y mod 4 =? 0) && negb (y mod 100 =? 0) || (y mod 400 =? 0))%Z.

Definition days_in_month (y m : Z) : Z :=
  if (m =? 2)%Z then (if is_leap y then 29 else 28)%Z
  else if (m =? 4)%Z || (m =? 6)%Z || (m =? 9)%Z || (m =? 11)%Z then 30%Z
  else 31%Z.

(** The checks of the [datetime] constructor. *)
Definition valid_datetime (d : datetime) : bool :=
  ((1 <=? year d) && (year d <=? 9999) &&
   (1 <=? month d) && (month d <=? 12) &&
   (1 <=? day d) && (day d <=? days_in_month (year d) (month d)) &&
   (0 <=? hour d) && (hour d <=? 23) &&
   (0 <=? minute d) && (minute d <=? 59) &&
   (0 <=? second d) && (second d <=? 59) &&
   (0 <=? microsecond d) && (microsecond d <=? 999999))%Z.

(** [datetime.strptime(s, '%Y-%m-%dT%H:%M:%S.%fZ')], as an option; the
    caller raises [ValueError] on [None]. *)
Definition parse (s : string) : option datetime :=
  '(y, _, s) ← directive 4 4 0 9999 s;
  s ← literal "-" "-" s;
  '(mo, _, s) ← directive 1 2 1 12 s;
  s ← literal "-" "-" s;
  '(d, _, s) ← day_directive s;
  s ← literal "t" "T" s;
  '(h, _, s) ← directive 1 2 0 23 s;
  s ← literal ":" ":" s;
  '(mi, _, s) ← directive 1 2 0 59 s;
  s ← literal ":" ":" s;
  '(se, _, s) ← directive 1 2 0 61 s;
  s ← literal "." "." s;
  '(f, n, s) ← directive 1 6 0 999999 s;
  s ← literal "z" "Z" s;
  match s with
  | EmptyString =>
      let dt := mk_datetime y mo d h mi se (f * 10 ^ Z.of_nat (6 - n)) in
      if valid_datetime dt then Some dt else None
  | String _ _ => None
  end.

Definition strptime (s : string) : result datetime :=
  match parse s with
  | Some d => Ok d
  | None => Raise ValueError
  end.

(** Order of [datetime] values. *)
Definition fields_of (d : datetime) : list Z :=
  [year d; month d; day d; hour d; minute d; second d; microsecond d].

Fixpoint lex_ltb (a b : list Z) : bool :=
  match a, b with
  | x :: a', y :: b' => (x <? y)%Z || ((x =? y)%Z && lex_ltb a' b')
  | _, _ => false
  end.

Definition ltb (a b : datetime) : bool := lex_ltb (fields_of a) (fields_of b).

(** [min(l)] and [max(l)]: the first of the smallest (largest) items;
    [ValueError] on an empty list. *)
Definition min_of (l : list datetime) : result datetime :=
  match l with
  | [] => Raise ValueError
  | d :: l' => Ok (fold_left (fun best x => if ltb x best then x else best) l' d)
  end.

Definition max_of (l : list datetime) : result datetime :=
  match l with
  | [] => Raise ValueError
  | d :: l' => Ok (fold_left (fun best x => if ltb best x then x else best) l' d)
  end.

(** [n] written with [width] decimal digits, zero-padded. *)
Fixpoint digits (width : nat) (n : Z) : string :=
  match width with
  | O => EmptyString
  | S w =>
      digits w (n / 10) +:+
      String (ascii_of_nat (48 + Z.to_nat (n mod 10))) EmptyString
  end.

(** [%Y], as the C library of Linux writes it for [strftime]: the year,
    which is between 1 and 9999, in decimal and not padded. *)
Definition year_text (y : Z) : string :=
  if (y <? 10)%Z then digits 1 y
  else if (y <? 100)%Z then digits 2 y
  else if (y <? 1000)%Z then digits 3 y
  else digits 4 y.

(** [d.strftime('%Y-%m-%dT%H:%M:%S.%f')]. *)
Definition strftime (d : datetime) : string :=
  year_text (year d) +:+ "-" +:+ digits 2 (month d) +:+ "-" +:+
  digits 2 (day d) +:+ "T" +:+ digits 2 (hour d) +:+ ":" +:+
  digits 2 (minute d) +:+ ":" +:+ digits 2 (second d) +:+ "." +:+
  digits 6 (microsecond d).

(** [s[:-3]]. *)
Definition drop_last3 (s : string) : string :=
  substring 0 (String.length s - 3) s.

End Datetime.

(** ** The platform SDK ([CommonServerPython]) *)

Module CommonServer.

(** Modelled from the spec: the [EntityRelation] class of
    [CommonServerPython], which is not among the source files.  The spec
    describes a relationship record as a typed edge between two entities
    (id and type on each side), a relationship label, and a mapping of
    fields (first/last seen, description); the constructor is taken to
    store its keyword arguments as they are given. *)
Record EntityRelation := mk_relation {
  name : json;
  entity_a : json;
  entity_a_type : option string;
  entity_b : json;
  entity_b_type : option string;
  fields : obj
}.

(** The members of [FeedIndicatorType] that the Unit42 type table uses.
    Their values are not in the source files; the Unit42 functions take
    them as a parameter. *)
Record FeedIndicatorType := {
  IP : string;
  IPv6 : string;
  Domain : string;
  URL : string;
  File : string
}.

End CommonServer.

(** ** FeedMitreAttackv2.py *)

Module Mitre.
Import Datetime.
Import CommonServer(EntityRelation, mk_relation).

Definition MITRE_TYPE_TO_DEMISTO_TYPE : list (string * string) := [
  ("attack-pattern", "STIX Attack Pattern");
  ("course-of-action", "Course of Action");
  ("intrusion-set", "Intrusion Set");
  ("malware", "STIX Malware");
  ("tool", "STIX Tool");
  ("relationship", "Relationship")
].

Definition INDICATOR_TYPE_TO_SCORE : list (string * Z) := [
  ("Intrusion Set", 3%Z);
  ("Attack Pattern", 2%Z);
  ("Course of Action", 0%Z);
  ("Malware", 3%Z);
  ("Tool", 2%Z)
].

(** [stix2.Filter(property, op, value)]. *)
Record Filter := mk_filter {
  property : string;
  op : string;
  filter_value : string
}.

(** A collection of the server: its id, and what
    [TAXIICollectionSource(collection).query(filter)] answers, either the
    objects (each as the dictionary that [json.loads(str(item))] gives) or
    an exception. *)
Record Collection := {
  collection_id : string;
  query : Filter -> result (list obj)
}.

Record Client := {
  tags : list string;
  tlp_color : option string;
  collections : list Collection
}.

Record indicator := mk_indicator {
  value : json;
  score : option Z;
  type : option string;
  rawJSON : obj;
  fields : obj;
  relationships : option (list string)
}.

Definition is_indicator_deprecated_or_revoked (indicator_json : obj) : bool :=
  if truthy (get "x_mitre_deprecated" indicator_json)
     || truthy (get "revoked" indicator_json)
  then true else false.

Definition handle_multiple_dates_in_one_field
    (field_name : string) (field_value : json) : result string :=
  s ← as_str field_value;
  let dates_as_string := splitlines s in
  dates_as_datetime ← mapM strptime dates_as_string;
  if String.eqb field_name "created" then
    d ← min_of dates_as_datetime;
    Ok (drop_last3 (strftime d) +:+ "Z")
  else
    d ← max_of dates_as_datetime;
    Ok (drop_last3 (strftime d) +:+ "Z").

(** The loop of [map_fields_by_type] over [external_references]. *)
Fixpoint publications_loop (external_references publications : list json)
  : result (list json) :=
  match external_references with
  | [] => Ok publications
  | external_reference :: rest =>
      r ← as_dict external_reference;
      if truthy (get "external_id" r) then publications_loop rest publications
      else
        let url := get "url" r in
        let description := get "description" r in
        publications_loop rest
          (publications ++ [JObj [("Link", url); ("Title", description)]])
  end.

Definition map_fields_by_type (indicator_type : option string)
    (indicator_json : obj) : result obj :=
  created ← handle_multiple_dates_in_one_field "created" (get "created" indicator_json);
  modified ← handle_multiple_dates_in_one_field "modified" (get "modified" indicator_json);
  mitre_platform ← join "," (get "x_mitre_platforms" indicator_json);
  external_references ← iter (get_or "external_references" (JList []) indicator_json);
  publications ← publications_loop external_references [];
  let generic_mapping_fields : obj := [
    ("stixid", get "id" indicator_json);
    ("firstseenbysource", JStr created);
    ("modified", JStr modified);
    ("description", get "description" indicator_json);
    ("publications", JList publications)
  ] in
  let mapping_by_type : list (string * obj) := [
    ("STIX Attack Pattern", [
       ("operatingsystemrefs", JStr mitre_platform)
     ]);
    ("Intrusion Set", [
       ("aliases", get "aliases" indicator_json)
     ]);
    ("STIX Malware", [
       ("tags", get "labels" indicator_json);
       ("aliases", get "x_mitre_aliases" indicator_json);
       ("operatingsystemrefs", JStr mitre_platform)
     ]);
    ("STIX Tool", [
       ("tags", get "labels" indicator_json);
       ("aliases", get "x_mitre_aliases" indicator_json);
       ("operatingsystemrefs", JStr mitre_platform)
     ])
  ] in
  match indicator_type ≫= (fun t => assoc t mapping_by_type) with
  | Some by_type => Ok (dict_update generic_mapping_fields by_type)
  | None => Raise TypeError
  end.

Definition create_relationship (item_json : obj) : result EntityRelation :=
  source_ref ← as_str (get "source_ref" item_json);
  let a_type := assoc (before_dashes source_ref) MITRE_TYPE_TO_DEMISTO_TYPE in
  target_ref ← as_str (get "target_ref" item_json);
  let b_type := assoc (before_dashes target_ref) MITRE_TYPE_TO_DEMISTO_TYPE in
  let mapping_fields : obj := [
    ("description", get "description" item_json);
    ("lastseenbysource", get "modified" item_json);
    ("firstseenbysource", get "created" item_json)
  ] in
  Ok (mk_relation (get "relationship_type" item_json)
        (get "source_ref" item_json) a_type
        (get "target_ref" item_json) b_type
        mapping_fields).

(** The local variables of [build_iterator].  [query_log] is not one of
    them: it records the calls to [query], oldest first, as the collection
    id and the filter sent. *)
Record state := mk_state {
  indicators : list indicator;
  mitre_id_list : gset key;
  relationships_list : list EntityRelation;
  counter : Z;
  query_log : list (string * Filter)
}.

Definition initial_state : state := mk_state [] ∅ [] 0 [].

(** [0 < limit <= counter]. *)
Definition limit_reached (limit counter : Z) : bool :=
  ((0 <? limit) && (limit <=? counter))%Z.

Definition filter_objs : list (string * (string * Filter)) := [
  ("Technique", ("attack-pattern", mk_filter "type" "=" "attack-pattern"));
  ("Mitigation", ("course-of-action", mk_filter "type" "=" "course-of-action"));
  ("Group", ("intrusion-set", mk_filter "type" "=" "intrusion-set"));
  ("Malware", ("malware", mk_filter "type" "=" "malware"));
  ("Tool", ("tool", mk_filter "type" "=" "tool"));
  ("relationships", ("relationships", mk_filter "type" "=" "relationship"))
].

(** Lines 122-133: the indicator of one object.  The list under
    [fields]['tags'] is the very list under the object's [labels], so the
    [append] shows in [rawJSON] as well. *)
Definition new_indicator (self : Client) (indicator_type : option string)
    (mitre_item_json : obj) : result indicator :=
  let value := get "name" mitre_item_json in
  let indicator_score := indicator_type ≫= (fun t => assoc t INDICATOR_TYPE_TO_SCORE) in
  fields ← map_fields_by_type indicator_type mitre_item_json;
  match assoc "tags" fields with
  | None => Raise KeyError
  | Some (JList labels) =>
      let appended := JList (labels ++ [str_list (tags self)]) in
      let fields := dict_set "tags" appended fields in
      let mitre_item_json := dict_set "labels" appended mitre_item_json in
      let fields :=
        match tlp_color self with
        | Some color =>
            if truthy (JStr color)
            then dict_set "trafficlightprotocol" (JStr color) fields
            else fields
        | None => fields
        end in
      Ok (mk_indicator value indicator_score indicator_type mitre_item_json fields None)
  | Some _ => Raise AttributeError
  end.

(** The body of the loop over the objects of one answer, after the limit
    test. *)
Definition process_item (self : Client) (st : state) (mitre_item_json : obj)
  : result state :=
  item_id ← hash_key (get "id" mitre_item_json);
  if decide (item_id ∈ mitre_id_list st) then Ok st
  else
    type_key ← hash_key (get "type" mitre_item_json);
    let indicator_type :=
      match type_key with
      | KStr t => assoc t MITRE_TYPE_TO_DEMISTO_TYPE
      | _ => None
      end in
    if decide (indicator_type = Some "Relationship") then
      if json_eqb_str (get "relationship_type" mitre_item_json) "revoked-by"
      then Ok st
      else
        relation ← create_relationship mitre_item_json;
        Ok (mk_state (indicators st)
              (mitre_id_list st ∪ {[item_id]})
              (relationships_list st ++ [relation])
              (counter st)
              (query_log st))
    else
      if is_indicator_deprecated_or_revoked mitre_item_json then Ok st
      else
        indicator_obj ← new_indicator self indicator_type mitre_item_json;
        Ok (mk_state (indicators st ++ [indicator_obj])
              (mitre_id_list st ∪ {[item_id]})
              (relationships_list st)
              (counter st + 1)
              (query_log st)).

(** [for mitre_item in mitre_data], with its [break]. *)
Fixpoint items_loop (self : Client) (limit : Z) (st : state)
    (mitre_data : list obj) : result state :=
  match mitre_data with
  | [] => Ok st
  | mitre_item :: rest =>
      if limit_reached limit (counter st) then Ok st
      else
        st' ← process_item self st mitre_item;
        items_loop self limit st' rest
  end.

Definition log_query (collection : Collection) (input_filter : Filter)
    (st : state) : state :=
  mk_state (indicators st) (mitre_id_list st) (relationships_list st)
    (counter st) (query_log st ++ [(collection_id collection, input_filter)]).

(** [for concept in filter_objs], with its [break] and the [continue] of
    the [except] clause. *)
Fixpoint concepts_loop (self : Client) (limit : Z) (collection : Collection)
    (st : state) (concepts : list (string * (string * Filter)))
  : result state :=
  match concepts with
  | [] => Ok st
  | concept :: rest =>
      if limit_reached limit (counter st) then Ok st
      else
        let input_filter := snd (snd concept) in
        let st := log_query collection input_filter st in
        match query collection input_filter with
        | Raise _ => concepts_loop self limit collection st rest
        | Ok mitre_data =>
            st' ← items_loop self limit st mitre_data;
            concepts_loop self limit collection st' rest
        end
  end.

(** [for collection in self.collections], with its [break]. *)
Fixpoint collections_loop (self : Client) (limit : Z) (st : state)
    (cols : list Collection) : result state :=
  match cols with
  | [] => Ok st
  | collection :: rest =>
      if limit_reached limit (counter st) then Ok st
      else
        st' ← concepts_loop self limit collection st filter_objs;
        collections_loop self limit st' rest
  end.

(** The state when the loops of [build_iterator] are over. *)
Definition build_iterator_loops (self : Client) (limit : Z) : result state :=
  collections_loop self limit initial_state (collections self).

(** [indicators[0]['relationships'] = ['relationships_list']]. *)
Definition mark_first (indicators : list indicator) : list indicator :=
  match indicators with
  | [] => []
  | first :: others =>
      mk_indicator (value first) (score first) (type first) (rawJSON first)
        (fields first) (Some ["relationships_list"]) :: others
  end.

Definition build_iterator (self : Client) (limit : Z) : result (list indicator) :=
  st ← build_iterator_loops self limit;
  Ok (mark_first (indicators st)).

End Mitre.

(** ** FeedUnit42v2.py *)

Module Unit42.
Import Datetime.
Import CommonServer.

(** What the remote TAXII server holds.  [get_objects type_] is the
    sequence of pages that [as_pages(collection.get_objects,
    per_request=100, type=type_)] yields: each page is a bundle, or the
    exception its request raises. *)
Record Collection := {
  get_objects : string -> list (result obj)
}.

Record ApiRoot := {
  collections : list Collection
}.

Record Server := {
  api_roots : list ApiRoot
}.

Record Client := mk_client {
  server : Server;
  objects_data : gmap string (list json)
}.

(** The dictionaries the feed emits; a key that a dictionary does not
    have is [None] here. *)
Record indicator := mk_indicator {
  value : json;
  type : option string;
  rawJSON : option obj;
  fields : option obj;
  relationships : option (list EntityRelation)
}.

Definition RELATIONS_TYPE_TO_DEMISTO_TYPES : list (string * string) := [
  ("campaign", "Campaign");
  ("attack-pattern", "Attack Pattern");
  ("report", "Report");
  ("indicator", "Indicator");
  ("malware", "Malware");
  ("course-of-action", "Course of Action")
].

Definition COURSE_OF_ACTION_U42 : list string :=
  ["Cortex XDR Prevent"; "DNS Security"; "XSOAR"].
Definition COURSE_OF_ACTION_BP : list string :=
  ["URL Filtering"; "NGFW"; "Wildfire"; "Threat Prevention"].
Definition COURSE_OF_ACTION_HEADERS : list string :=
  ["name"; "title"; "description"; "impact statement";
   "recommendation number"; "remediation procedure"].

(** How a loop that contains a [return] ends. *)
Inductive flow :=
| Next (data : list json)
| Return (data : list json).

(** [for bundle in as_pages(...)]. *)
Fixpoint pages_loop (test : bool) (data : list json) (pages : list (result obj))
  : result flow :=
  match pages with
  | [] => Ok (Next data)
  | page :: rest =>
      bundle ← page;
      objects ← iter (get "objects" bundle);
      let data := data ++ objects in
      if test then Ok (Return data) else pages_loop test data rest
  end.

(** [for collection in api_root.collections]. *)
Fixpoint collections_loop (test : bool) (type_ : string) (data : list json)
    (cols : list Collection) : result flow :=
  match cols with
  | [] => Ok (Next data)
  | collection :: rest =>
      r ← pages_loop test data (get_objects collection type_);
      match r with
      | Return data => Ok (Return data)
      | Next data => collections_loop test type_ data rest
      end
  end.

(** [for api_root in server.api_roots]. *)
Fixpoint roots_loop (test : bool) (type_ : string) (data : list json)
    (roots : list ApiRoot) : result flow :=
  match roots with
  | [] => Ok (Next data)
  | api_root :: rest =>
      r ← collections_loop test type_ data (collections api_root);
      match r with
      | Return data => Ok (Return data)
      | Next data => roots_loop test type_ data rest
      end
  end.

(** [Client.fetch_stix_objects_from_api(test, type=type_)]: the value
    returned ([None] when the loops run to their end) and the client
    afterwards. *)
Definition fetch_stix_objects_from_api (self : Client) (test : bool)
    (type_ : string) : result (option (list json) * Client) :=
  r ← roots_loop test type_ [] (api_roots (server self));
  match r with
  | Return data => Ok (Some data, self)
  | Next data =>
      Ok (None, mk_client (server self) (<[type_ := data]> (objects_data self)))
  end.

Fixpoint get_stix_objects (self : Client) (test : bool)
    (items_types : list string) : result Client :=
  match items_types with
  | [] => Ok self
  | type_ :: rest =>
      '(_, self) ← fetch_stix_objects_from_api self test type_;
      get_stix_objects self test rest
  end.

(** [client.objects_data[k]]. *)
Definition objects_of (client : Client) (k : string) : result (list json) :=
  match objects_data client !! k with
  | Some objects => Ok objects
  | None => Raise KeyError
  end.

(** [list(set(labels).union(set(feed_tags)))], in the order of
    [members]. *)
Definition union_tags (labels : json) (feed_tags : list string) : result json :=
  a ← to_set labels;
  b ← to_set (str_list feed_tags);
  Ok (JList (members (set_union a b))).

Definition with_tlp (tlp_color : option string) (fields : obj) : obj :=
  match tlp_color with
  | Some color =>
      if truthy (JStr color)
      then dict_set "trafficlightprotocol" (JStr color) fields
      else fields
  | None => fields
  end.

Definition handle_multiple_dates_in_one_field
    (field_name : string) (field_value : json) : result string :=
  s ← as_str field_value;
  let dates_as_string := splitlines s in
  dates_as_datetime ← mapM strptime dates_as_string;
  if String.eqb field_name "created" then
    d ← min_of dates_as_datetime;
    Ok (drop_last3 (strftime d) +:+ "Z")
  else
    d ← max_of dates_as_datetime;
    Ok (drop_last3 (strftime d) +:+ "Z").

(** [product[0]]. *)
Definition first_item (v : json) : result json :=
  match v with
  | JList (x :: _) => Ok x
  | JStr (String c _) => Ok (JStr (String c ""))
  | JList [] | JStr EmptyString => Raise IndexError
  | JObj _ => Raise KeyError
  | JNull | JBool _ | JNum _ => Raise TypeError
  end.

Section WithSDK.

(** The parts of the platform SDK and of Python that the source files
    use but do not define: the indicator type names, [tableToMarkdown]
    (called with a title, the rows and the headers) and the text that an
    f-string gives for a value. *)
Variable FeedIndicatorType : CommonServer.FeedIndicatorType.
Variable tableToMarkdown : string -> list obj -> list string -> string.
Variable format_value : json -> string.

Definition UNIT42_TYPES_TO_DEMISTO_TYPES : list (string * string) := [
  ("ipv4-addr", IP FeedIndicatorType);
  ("ipv6-addr", IPv6 FeedIndicatorType);
  ("domain", Domain FeedIndicatorType);
  ("domain-name", Domain FeedIndicatorType);
  ("url", URL FeedIndicatorType);
  ("md5", File FeedIndicatorType);
  ("sha-1", File FeedIndicatorType);
  ("sha-256", File FeedIndicatorType);
  ("file:hashes", File FeedIndicatorType)
].

(** [for key in UNIT42_TYPES_TO_DEMISTO_TYPES.keys()] of
    [parse_indicators]. *)
Fixpoint keys_loop (indicator_object : obj) (pattern : json)
    (feed_tags : list string) (tlp_color : option string)
    (indicators : list indicator) (table : list (string * string))
  : result (list indicator) :=
  match table with
  | [] => Ok indicators
  | (key, demisto_type) :: rest =>
      p ← as_str pattern;
      if starts_with ("[" +:+ key) p then
        tags ← union_tags (get "labels" indicator_object) feed_tags;
        let fields : obj := [
          ("firstseenbysource", get "created" indicator_object);
          ("indicatoridentification", get "id" indicator_object);
          ("tags", tags);
          ("modified", get "modified" indicator_object);
          ("reportedby", JStr "Unit42")
        ] in
        let indicator_obj :=
          mk_indicator (get "name" indicator_object) (Some demisto_type)
            (Some indicator_object) (Some (with_tlp tlp_color fields)) None in
        keys_loop indicator_object pattern feed_tags tlp_color
          (indicators ++ [indicator_obj]) rest
      else
        keys_loop indicator_object pattern feed_tags tlp_color indicators rest
  end.

Fixpoint parse_indicators_loop (indicator_objects : list json)
    (feed_tags : list string) (tlp_color : option string)
    (indicators : list indicator) : result (list indicator) :=
  match indicator_objects with
  | [] => Ok indicators
  | indicator_object :: rest =>
      o ← as_dict indicator_object;
      let pattern := get "pattern" o in
      indicators ← keys_loop o pattern feed_tags tlp_color indicators
                      UNIT42_TYPES_TO_DEMISTO_TYPES;
      parse_indicators_loop rest feed_tags tlp_color indicators
  end.

Definition parse_indicators (indicator_objects : list json)
    (feed_tags : list string) (tlp_color : option string)
  : result (list indicator) :=
  parse_indicators_loop indicator_objects feed_tags tlp_color [].

Fixpoint parse_reports_loop (report_objects : list json)
    (feed_tags : list string) (tlp_color : option string)
    (reports : list indicator) : result (list indicator) :=
  match report_objects with
  | [] => Ok reports
  | report_object :: rest =>
      o ← as_dict report_object;
      let value := JStr ("[Unit42 ATOM] " +:+ format_value (get "name" o)) in
      tags ← union_tags (get "labels" o) feed_tags;
      let fields : obj := [
        ("stixid", get "id" o);
        ("published", get "published" o);
        ("stixdescription", get_or "description" (JStr "") o);
        ("reportedby", JStr "Unit42");
        ("tags", tags)
      ] in
      let raw : obj := [
        ("unit42_id", get "id" o);
        ("unit42_labels", get "labels" o);
        ("unit42_published", get "published" o);
        ("unit42_created_date", get "created" o);
        ("unit42_modified_date", get "modified" o);
        ("unit42_description", get "description" o);
        ("unit42_object_refs", get "object_refs" o)
      ] in
      let report :=
        mk_indicator value (Some "STIX Report") (Some raw)
          (Some (with_tlp tlp_color fields)) None in
      parse_reports_loop rest feed_tags tlp_color (reports ++ [report])
  end.

Definition parse_reports (report_objects : list json)
    (feed_tags : list string) (tlp_color : option string)
  : result (list indicator) :=
  parse_reports_loop report_objects feed_tags tlp_color [].

(** The rows of one table of [create_course_of_action_field]. *)
Fixpoint rows_loop (relationship_product : string) (courses_list : list json)
    (tmp_table : list obj) : result (list obj) :=
  match courses_list with
  | [] => Ok tmp_table
  | course_of_action :: rest =>
      c ← as_dict course_of_action;
      let row : obj := [] in
      let row :=
        if bool_decide (relationship_product ∈ COURSE_OF_ACTION_U42) then
          dict_set "description" (get "description" c)
            (dict_set "title" (get "x_panw_coa_u42_title" c) row)
        else row in
      let row :=
        if bool_decide (relationship_product ∈ COURSE_OF_ACTION_BP) then
          dict_set "remediation procedure" (get "x_panw_coa_bp_remediation_procedure" c)
            (dict_set "description" (get "x_panw_coa_bp_description" c)
              (dict_set "recommendation number" (get "x_panw_coa_bp_recommendation_number" c)
                (dict_set "impact statement" (get "x_panw_coa_bp_impact_statement" c)
                  (dict_set "title" (get "x_panw_coa_bp_title" c) row))))
        else row in
      let row := dict_set "name" (get "name" c) row in
      rows_loop relationship_product rest (tmp_table ++ [row])
  end.

Fixpoint tables_loop (courses_of_action : obj) (markdown : string)
  : result string :=
  match courses_of_action with
  | [] => Ok markdown
  | (relationship_product, courses_list) :: rest =>
      courses ← iter courses_list;
      tmp_table ← rows_loop relationship_product courses [];
      let md_table :=
        tableToMarkdown relationship_product tmp_table COURSE_OF_ACTION_HEADERS in
      tables_loop rest (markdown +:+ String (ascii_of_nat 10) "" +:+ md_table)
  end.

Definition create_course_of_action_field (courses_of_action : obj)
  : result string :=
  match courses_of_action with
  | [] => Ok "No courses of action found."
  | _ => tables_loop courses_of_action ""
  end.

(** The first loop of [create_attack_pattern_indicator]. *)
Fixpoint courses_loop (relationships : list json) (courses_of_action : obj)
  : result obj :=
  match relationships with
  | [] => Ok courses_of_action
  | relationship :: rest =>
      r ← as_dict relationship;
      source ← as_str (get "source_ref" r);
      if starts_with "course-of-action" source then
        let product := get_or "x_panw_coa_u42_panw_product" (JList []) r in
        if truthy product then
          first ← first_item product;
          courses_loop rest (dict_set source first courses_of_action)
        else
          courses_loop rest (dict_set source (JStr "No product") courses_of_action)
      else courses_loop rest courses_of_action
  end.

(** The loop over [external_references]. *)
Fixpoint publications_loop (external_references publications : list json)
  : result (list json) :=
  match external_references with
  | [] => Ok publications
  | external_reference :: rest =>
      r ← as_dict external_reference;
      if truthy (get "external_id" r) then publications_loop rest publications
      else
        let url := get "url" r in
        let description := get "description" r in
        publications_loop rest
          (publications ++ [JObj [("Link", url); ("Title", description)]])
  end.

(** The second loop of [create_attack_pattern_indicator]. *)
Fixpoint attack_patterns_loop (attack_indicator_objects : list json)
    (courses_of_action : obj) (feed_tags : list string)
    (tlp_color : option string) (attack_pattern_indicators : list indicator)
  : result (list indicator) :=
  match attack_indicator_objects with
  | [] => Ok attack_pattern_indicators
  | attack_indicator :: rest =>
      a ← as_dict attack_indicator;
      external_references ← iter (get_or "external_references" (JList []) a);
      publications ← publications_loop external_references [];
      created ← handle_multiple_dates_in_one_field "created" (get "created" a);
      modified ← handle_multiple_dates_in_one_field "modified" (get "modified" a);
      course_field ← create_course_of_action_field courses_of_action;
      let fields : obj := [
        ("stixid", get "id" a);
        ("firstseenbysource", JStr created);
        ("modified", JStr modified);
        ("description", get "description" a);
        ("operatingsystemrefs", get "x_mitre_platforms" a);
        ("mitrecourseofaction", JStr course_field);
        ("publications", JList publications);
        ("reportedby", JStr "Unit42");
        ("tags", str_list feed_tags)
      ] in
      let indicator :=
        mk_indicator (get "name" a) (Some "Attack Pattern") None
          (Some (with_tlp tlp_color fields)) None in
      attack_patterns_loop rest courses_of_action feed_tags tlp_color
        (attack_pattern_indicators ++ [indicator])
  end.

Definition create_attack_pattern_indicator (client : Client)
    (feed_tags : list string) (tlp_color : option string)
  : result (list indicator) :=
  relationships ← objects_of client "relationship";
  courses_of_action ← courses_loop relationships [];
  attack_indicator_objects ← objects_of client "attack-pattern";
  attack_patterns_loop attack_indicator_objects courses_of_action
    feed_tags tlp_color [].

(** The loop of [get_ioc_type], with its [break]. *)
Fixpoint ioc_type_loop (pattern : json) (table : list (string * string))
  : result string :=
  match table with
  | [] => Ok ""
  | (unit42_type, demisto_type) :: rest =>
      str_in unit42_type pattern ≫= fun found : bool =>
      if found then Ok demisto_type else ioc_type_loop pattern rest
  end.

Definition get_ioc_type (indicator : json) (id_to_object : gmap key obj)
  : result string :=
  k ← hash_key indicator;
  match id_to_object !! k with
  | None => Raise AttributeError
  | Some indicator_obj =>
      ioc_type_loop (get "pattern" indicator_obj) UNIT42_TYPES_TO_DEMISTO_TYPES
  end.

(** One side of a relationship: the type of the entity that [ref] names. *)
Definition entity_type (ref : json) (id_to_object : gmap key obj)
  : result (option string) :=
  s ← as_str ref;
  let t := assoc (before_dashes s) RELATIONS_TYPE_TO_DEMISTO_TYPES in
  if decide (t = Some "Indicator") then
    ioc ← get_ioc_type ref id_to_object;
    Ok (Some ioc)
  else Ok t.

Fixpoint relationships_loop (relationships_objects : list json)
    (id_to_object : gmap key obj) (relationships_list : list EntityRelation)
  : result (list EntityRelation) :=
  match relationships_objects with
  | [] => Ok relationships_list
  | relationships_object :: rest =>
      r ← as_dict relationships_object;
      a_type ← entity_type (get "source_ref" r) id_to_object;
      b_type ← entity_type (get "target_ref" r) id_to_object;
      let mapping_fields : obj := [
        ("lastseenbysource", get "modified" r);
        ("firstseenbysource", get "created" r)
      ] in
      let entity_relation :=
        mk_relation (get "relationship_type" r)
          (get "source_ref" r) a_type
          (get "target_ref" r) b_type
          mapping_fields in
      relationships_loop rest id_to_object (relationships_list ++ [entity_relation])
  end.

Definition create_list_relationships (client : Client)
    (id_to_object : gmap key obj) : result (list EntityRelation) :=
  relationships_objects ← objects_of client "relationship";
  relationships_loop relationships_objects id_to_object [].

(** The dictionary comprehension of [fetch_indicators]. *)
Fixpoint index_by_id (objects : list json) (id_to_object : gmap key obj)
  : result (gmap key obj) :=
  match objects with
  | [] => Ok id_to_object
  | object :: rest =>
      o ← as_dict object;
      k ← hash_key (get "id" o);
      index_by_id rest (<[k := o]> id_to_object)
  end.

Definition item_types_to_fetch_from_api : list string :=
  ["report"; "indicator"; "malware"; "campaign"; "attack-pattern";
   "relationship"; "course-of-action"].

Definition fetch_indicators (client : Client) (feed_tags : list string)
    (tlp_color : option string) (create_relationships : bool)
  : result (list indicator) :=
  client ← get_stix_objects client false item_types_to_fetch_from_api;
  indicator_objects ← objects_of client "indicator";
  indicators ← parse_indicators indicator_objects feed_tags tlp_color;
  report_objects ← objects_of client "report";
  reports ← parse_reports report_objects feed_tags tlp_color;
  attack_pattern_indicators ← create_attack_pattern_indicator client feed_tags tlp_color;
  o_report ← objects_of client "report";
  o_indicator ← objects_of client "indicator";
  o_malware ← objects_of client "malware";
  o_campaign ← objects_of client "campaign";
  o_attack ← objects_of client "attack-pattern";
  o_course ← objects_of client "course-of-action";
  id_to_object ← index_by_id
    (o_report ++ o_indicator ++ o_malware ++ o_campaign ++ o_attack ++ o_course) ∅;
  dummy_indicator ←
    (if create_relationships then
       list_relationships ← create_list_relationships client id_to_object;
       Ok (Some (mk_indicator (JStr "$$DummyIndicator$$") None None None
                   (Some list_relationships)))
     else Ok None);
  let indicators :=
    match dummy_indicator with
    | Some dummy => indicators ++ [dummy]
    | None => indicators
    end in
  Ok (indicators ++ reports ++ attack_pattern_indicators).

End WithSDK.

End Unit42.

(** ** Vocabulary of the statements and sample data *)

(** The entry that the publications list holds for an external
    reference. *)
Definition publication (external_reference : obj) : json :=
  JObj [("Link", get "url" external_reference);
        ("Title", get "description" external_reference)].

(** An external reference counts as having an [external_id] when the
    source's test [if external_reference.get('external_id')] succeeds. *)
Definition has_external_id (external_reference : obj) : bool :=
  truthy (get "external_id" external_reference).

Definition external_references_of (o : obj) : result (list json) :=
  iter (get_or "external_references" (JList []) o).

(** What the publications field of an emitted indicator holds, given the
    object it was built from. *)
Definition publications_of (o : obj) (fields : obj) : Prop :=
  exists rs : list obj,
    external_references_of o = Ok (map JObj rs) /\
    assoc "publications" fields =
      Some (JList (map publication
                     (List.filter (fun r => negb (has_external_id r)) rs))).

(** The STIX [id] of the object an indicator was built from. *)
Definition mitre_source_id (i : Mitre.indicator) : json :=
  get "id" (Mitre.rawJSON i).

Definition unit42_source_id (i : Unit42.indicator) : option json :=
  get "id" <$> Unit42.rawJSON i.

(** The invariant of the MITRE loops behind deduplication: the ids seen
    so far cover the indicators built so far, whose ids are pairwise
    distinct. *)
Definition ids_distinct (st : Mitre.state) : Prop :=
  NoDup (map (fun i => hash_key (mitre_source_id i)) (Mitre.indicators st)) /\
  forall i k, In i (Mitre.indicators st) ->
              hash_key (mitre_source_id i) = Ok k ->
              k ∈ Mitre.mitre_id_list st.

(** A collection that answers like [c], except that a query that fails
    on [c] finds no objects. *)
Definition skip_failures (c : Mitre.Collection) : Mitre.Collection :=
  {| Mitre.collection_id := Mitre.collection_id c;
     Mitre.query := fun f =>
       match Mitre.query c f with
       | Ok mitre_data => Ok mitre_data
       | Raise _ => Ok []
       end |}.

Definition with_collections (self : Mitre.Client)
    (cols : list Mitre.Collection) : Mitre.Client :=
  {| Mitre.tags := Mitre.tags self;
     Mitre.tlp_color := Mitre.tlp_color self;
     Mitre.collections := cols |}.

(** Every query that a full run sends, in order: for each collection, one
    per entry of [filter_objs]. *)
Definition planned_queries (cols : list Mitre.Collection)
  : list (string * Mitre.Filter) :=
  flat_map
    (fun c => map (fun concept => (Mitre.collection_id c, snd (snd concept)))
                Mitre.filter_objs)
    cols.

(** The pages that the Unit42 client requests for one object type, in
    order, over all API roots and collections. *)
Definition all_pages (s : Unit42.Server) (type_ : string) : list (result obj) :=
  flat_map
    (fun r => flat_map (fun c => Unit42.get_objects c type_) (Unit42.collections r))
    (Unit42.api_roots s).

(** A bundle whose [objects] can be added to the data. *)
Definition good_bundle (bundle : obj) : Prop :=
  is_ok (iter (get "objects" bundle)) = true.

(** The placeholder that carries the relationships of the Unit42 feed. *)
Definition dummy_indicator (list_relationships : list CommonServer.EntityRelation)
  : Unit42.indicator :=
  Unit42.mk_indicator (JStr "$$DummyIndicator$$") None None None
    (Some list_relationships).

Definition no_relationships (i : Unit42.indicator) : Prop :=
  Unit42.relationships i = None.

Module Samples.

Definition newline : string := String (ascii_of_nat 10) "".

Definition two_dates : string :=
  "2020-01-01T00:00:00.000Z" +:+ newline +:+ "2019-01-01T00:00:00.000Z".

Definition references : list obj := [
  [("source_name", JStr "mitre-attack"); ("external_id", JStr "S0001");
   ("url", JStr "https://attack.mitre.org/software/S0001")];
  [("source_name", JStr "Report"); ("url", JStr "https://example.org/report");
   ("description", JStr "A report")]
].

(** A STIX object of the given type and id, complete enough to be
    normalised. *)
Definition stix_object (type_ id_ : string) : obj := [
  ("id", JStr id_);
  ("type", JStr type_);
  ("name", JStr "Sample");
  ("created", JStr "2020-01-01T00:00:00.000Z");
  ("modified", JStr two_dates);
  ("x_mitre_platforms", JList [JStr "Linux"; JStr "Windows"]);
  ("labels", JList [JStr type_]);
  ("external_references", JList (map JObj references))
].

Definition deprecated_object (type_ id_ : string) : obj :=
  ("x_mitre_deprecated", JBool true) :: stix_object type_ id_.

Definition relationship_object (id_ source_ref target_ref : string) : obj := [
  ("id", JStr id_);
  ("type", JStr "relationship");
  ("relationship_type", JStr "uses");
  ("source_ref", JStr source_ref);
  ("target_ref", JStr target_ref);
  ("created", JStr "2020-01-01T00:00:00.000Z");
  ("modified", JStr "2020-01-01T00:00:00.000Z")
].

Definition sdk_types : CommonServer.FeedIndicatorType :=
  {| CommonServer.IP := "IP"; CommonServer.IPv6 := "IPv6";
     CommonServer.Domain := "Domain"; CommonServer.URL := "URL";
     CommonServer.File := "File" |}.

Definition sdk_table (title : string) (rows : list obj) (headers : list string)
  : string := title.

Definition sdk_format (v : json) : string :=
  match v with
  | JStr s => s
  | _ => "None"
  end.

(** A MITRE collection that answers each filter from a table, by the
    type the filter asks for; a type that is not in the table has no
    objects. *)
Definition mitre_collection (id_ : string)
    (answers : list (string * result (list obj))) : Mitre.Collection :=
  {| Mitre.collection_id := id_;
     Mitre.query := fun f =>
       default (Ok []) (assoc (Mitre.filter_value f) answers) |}.

(** Two collections: the first holds a malware object twice, a
    deprecated one, a second malware object and a relationship, and its
    query for tools fails; the second holds a tool and once more the
    first malware object. *)
Definition enterprise : Mitre.Collection :=
  mitre_collection "enterprise-attack" [
    ("malware", Ok [stix_object "malware" "malware--1";
                    stix_object "malware" "malware--1";
                    deprecated_object "malware" "malware--3";
                    stix_object "malware" "malware--2"]);
    ("tool", Raise TransportError);
    ("relationship", Ok [relationship_object "relationship--1"
                           "intrusion-set--1" "malware--1"])
  ].

Definition mobile : Mitre.Collection :=
  mitre_collection "mobile-attack" [
    ("malware", Ok [stix_object "malware" "malware--1"]);
    ("tool", Ok [stix_object "tool" "tool--1"])
  ].

Definition mitre_client : Mitre.Client :=
  {| Mitre.tags := ["feed"]; Mitre.tlp_color := Some "AMBER";
     Mitre.collections := [enterprise; mobile] |}.

(** One collection that holds a deprecated malware object followed by a
    current one. *)
Definition deprecated_first : Mitre.Client :=
  {| Mitre.tags := []; Mitre.tlp_color := None;
     Mitre.collections := [
       mitre_collection "enterprise-attack" [
         ("malware", Ok [deprecated_object "malware" "malware--1";
                         stix_object "malware" "malware--2"])
       ]
     ] |}.

(** One collection whose only object is a deprecated mitigation. *)
Definition mitigations : Mitre.Collection :=
  mitre_collection "enterprise-attack" [
    ("course-of-action",
     Ok [deprecated_object "course-of-action" "course-of-action--1"])
  ].

Definition deprecated_mitigation : Mitre.Client :=
  {| Mitre.tags := []; Mitre.tlp_color := None;
     Mitre.collections := [mitigations] |}.

(** One collection that holds a technique. *)
Definition one_technique : Mitre.Client :=
  {| Mitre.tags := []; Mitre.tlp_color := None;
     Mitre.collections := [
       mitre_collection "enterprise-attack" [
         ("attack-pattern", Ok [stix_object "attack-pattern" "attack-pattern--1"])
       ]
     ] |}.

Definition bundle (objects : list obj) : obj :=
  [("type", JStr "bundle"); ("objects", JList (map JObj objects))].

Definition unit42_collection (answers : list (string * list (result obj)))
  : Unit42.Collection :=
  {| Unit42.get_objects := fun type_ => default [] (assoc type_ answers) |}.

Definition unit42_indicator (id_ pattern : string) : obj := [
  ("id", JStr id_);
  ("type", JStr "indicator");
  ("name", JStr "example.org");
  ("pattern", JStr pattern);
  ("labels", JList [JStr "malicious-activity"]);
  ("created", JStr "2020-01-01T00:00:00.000Z");
  ("modified", JStr "2020-01-01T00:00:00.000Z")
].

Definition unit42_report (id_ : string) : obj := [
  ("id", JStr id_);
  ("type", JStr "report");
  ("name", JStr "A report");
  ("labels", JList [JStr "threat-report"]);
  ("published", JStr "2020-01-01T00:00:00.000Z")
].

(** A server with one collection that answers every type. *)
Definition unit42_server : Unit42.Server :=
  {| Unit42.api_roots := [
       {| Unit42.collections := [
            unit42_collection [
              ("report", [Ok (bundle [unit42_report "report--1"])]);
              ("indicator",
               [Ok (bundle [unit42_indicator "indicator--1" "[url:value = 'http://example.org/a']"]);
                Ok (bundle [unit42_indicator "indicator--2" "[ipv4-addr:value = '192.0.2.1']"])]);
              ("attack-pattern",
               [Ok (bundle [stix_object "attack-pattern" "attack-pattern--1"])]);
              ("relationship",
               [Ok (bundle [relationship_object "relationship--1"
                              "indicator--1" "attack-pattern--1";
                            relationship_object "relationship--2"
                              "intrusion-set--1" "attack-pattern--1"])])
            ]
          ] |}
     ] |}.

Definition unit42_client : Unit42.Client :=
  Unit42.mk_client unit42_server ∅.

(** A server whose request for reports fails, while indicators could be
    read. *)
Definition failing_collection : Unit42.Collection :=
  unit42_collection [
    ("report", [Raise TransportError]);
    ("indicator",
     [Ok (bundle [unit42_indicator "indicator--1" "[url:value = 'http://example.org/a']"])])
  ].

Definition failing_server : Unit42.Server :=
  {| Unit42.api_roots := [ {| Unit42.collections := [failing_collection] |} ] |}.

Definition failing_client : Unit42.Client :=
  Unit42.mk_client failing_server ∅.

(** Two indicator objects with one id, as when two collections hold the
    same object. *)
Definition repeated_indicators : list json := [
  JObj (unit42_indicator "indicator--1" "[url:value = 'http://example.org/a']");
  JObj (unit42_indicator "indicator--1" "[url:value = 'http://example.org/a']")
].

(** A client that has fetched one relationship, from an intrusion set to
    an attack pattern. *)
Definition intrusion_set_relationship : Unit42.Client :=
  Unit42.mk_client unit42_server
    {[ "relationship" :=
         [JObj (relationship_object "relationship--2"
                  "intrusion-set--1" "attack-pattern--1")] ]}.

(** A client that has fetched one attack pattern and no relationship. *)
Definition attack_pattern_fetched : Unit42.Client :=
  Unit42.mk_client unit42_server
    (<["relationship" := []]>
       {[ "attack-pattern" :=
            [JObj (stix_object "attack-pattern" "attack-pattern--1")] ]}).

End Samples.

(** ** The commands *)

Module MitreCommands.

(** [fetch_indicators(client)] of FeedMitreAttackv2.py: [build_iterator]
    with its default limit. *)
Definition fetch_indicators (client : Mitre.Client)
  : result (list Mitre.indicator) :=
  Mitre.build_iterator client (-1).

End MitreCommands.

Module Unit42Commands.
Import Unit42.

(** The [CommandResults] class of [CommonServerPython] is not among the
    source files; a value of it is taken to hold the keyword arguments it
    was built from. *)
Record CommandResults := mk_results {
  outputs_prefix : string;
  outputs_key_field : string;
  outputs : obj;
  readable_output : string;
  raw_response : list indicator
}.

(** [l[:limit]]: a negative [limit] counts from the end. *)
Definition slice_to {A} (limit : Z) (l : list A) : list A :=
  if (0 <=? limit)%Z then take (Z.to_nat limit) l
  else take (length l - Z.to_nat (- limit)) l.

(** An indicator of [parse_indicators] as the dictionary it is. *)
Definition indicator_dict (i : indicator) : obj :=
  [("value", value i)] ++
  match type i with Some t => [("type", JStr t)] | None => [] end ++
  match rawJSON i with Some raw => [("rawJSON", JObj raw)] | None => [] end ++
  match fields i with Some f => [("fields", JObj f)] | None => [] end.

Section WithSDK.

(** Besides the parameters of [Unit42], the conversion [int(v)] of
    Python. *)
Variable FeedIndicatorType : CommonServer.FeedIndicatorType.
Variable tableToMarkdown : string -> list obj -> list string -> string.
Variable int : json -> result Z.

Definition test_module (client : Client) : result string :=
  _ ← get_stix_objects client true ["indicator"; "report"];
  Ok "ok".

Definition get_indicators_command (client : Client) (args : obj)
    (feed_tags : list string) (tlp_color : option string)
  : result CommandResults :=
  limit ← int (get_or "limit" (JStr "10") args);
  (* [parse_indicators] takes the [None] of an empty fetch for no object *)
  '(indicators, _) ← fetch_stix_objects_from_api client true "indicator";
  indicators ← parse_indicators FeedIndicatorType (default [] indicators)
                  feed_tags tlp_color;
  let limited_indicators := slice_to limit indicators in
  let readable_output :=
    tableToMarkdown "Unit42 Indicators:" (map indicator_dict limited_indicators)
      ["type"; "value"; "fields"] in
  Ok (mk_results "" "" [] readable_output limited_indicators).

End WithSDK.

End Unit42Commands.

(** ** Vocabulary of the further statements *)

(** How the MITRE loops with a positive limit relate to the loops without
    one, run on the same server: the limited state is the unlimited one,
    or it has reached the limit and holds an initial part of the
    indicators. *)
Definition limited_state (L : Z) (limited full : Mitre.state) : Prop :=
  limited = full \/
  (Mitre.limit_reached L (Mitre.counter limited) = true /\
   exists more, Mitre.indicators full = Mitre.indicators limited ++ more).

(** The timestamp that [handle_multiple_dates_in_one_field] writes for a
    date: its [strftime] text cut to milliseconds, then ["Z"]. *)
Definition format_ms (d : Datetime.datetime) : string :=
  Datetime.drop_last3 (Datetime.strftime d) +:+ "Z".

(** The TLP field that the MITRE client stamps on its indicators. *)
Definition configured_tlp (self : Mitre.Client) : option json :=
  match Mitre.tlp_color self with
  | Some color => if truthy (JStr color) then Some (JStr color) else None
  | None => None
  end.

(** The indicator type that [build_iterator] looks up for an object. *)
Definition indicator_type_of (item : obj) : option string :=
  match get "type" item with
  | JStr t => assoc t Mitre.MITRE_TYPE_TO_DEMISTO_TYPE
  | _ => None
  end.

(** What the fields of a MITRE indicator hold, read off the raw object
    that it carries: the normalisation of [map_fields_by_type] for a
    malware or a tool. *)
Definition normalised (i : Mitre.indicator) : Prop :=
  let raw := Mitre.rawJSON i in
  let field k := assoc k (Mitre.fields i) in
  Mitre.value i = get "name" raw /\
  Mitre.type i = indicator_type_of raw /\
  field "stixid" = Some (get "id" raw) /\
  field "description" = Some (get "description" raw) /\
  field "aliases" = Some (get "x_mitre_aliases" raw) /\
  (exists created,
      Mitre.handle_multiple_dates_in_one_field "created" (get "created" raw)
        = Ok created /\
      field "firstseenbysource" = Some (JStr created)) /\
  (exists modified,
      Mitre.handle_multiple_dates_in_one_field "modified" (get "modified" raw)
        = Ok modified /\
      field "modified" = Some (JStr modified)) /\
  (exists platforms,
      join "," (get "x_mitre_platforms" raw) = Ok platforms /\
      field "operatingsystemrefs" = Some (JStr platforms)).

(** A date with its microseconds cut to whole milliseconds. *)
Definition truncated (d : Datetime.datetime) : Datetime.datetime :=
  Datetime.mk_datetime (Datetime.year d) (Datetime.month d) (Datetime.day d)
    (Datetime.hour d) (Datetime.minute d) (Datetime.second d)
    (Datetime.microsecond d / 1000 * 1000).

(** A string without any line boundary. *)
Fixpoint no_linebreak (s : string) : bool :=
  match s with
  | EmptyString => true
  | String c s' => negb (Datetime.is_linebreak c) && no_linebreak s'
  end.

(** The objects that a bundle adds to the data. *)
Definition bundle_objects (bundle : obj) : result (list json) :=
  iter (get "objects" bundle).

(** What the Unit42 client needs of a type in test mode: if the server
    has a page for it at all, the first one arrives and its objects can
    be read. *)
Definition first_page_ok (s : Unit42.Server) (type_ : string) : Prop :=
  match all_pages s type_ with
  | [] => True
  | page :: _ => exists bundle, page = Ok bundle /\ good_bundle bundle
  end.

(** The indicator that [parse_indicators] builds from an object, for the
    type of a key that its pattern starts with and for the tags
    computed. *)
Definition parsed_indicator (tlp_color : option string) (o : obj)
    (demisto_type : string) (tags : json) : Unit42.indicator :=
  Unit42.mk_indicator (get "name" o) (Some demisto_type) (Some o)
    (Some (Unit42.with_tlp tlp_color [
       ("firstseenbysource", get "created" o);
       ("indicatoridentification", get "id" o);
       ("tags", tags);
       ("modified", get "modified" o);
       ("reportedby", JStr "Unit42")
     ]))
    None.

(** A pattern that starts with none of the keys of the type table. *)
Definition matches_no_key (table : list (string * string)) (pattern : string)
  : bool :=
  forallb (fun kv => negb (starts_with ("[" +:+ fst kv) pattern)) table.

(** The STIX Report indicator that [parse_reports] builds from a report
    object. *)
Definition parsed_report (format_value : json -> string)
    (tlp_color : option string) (o : obj) (tags : json) : Unit42.indicator :=
  Unit42.mk_indicator
    (JStr ("[Unit42 ATOM] " +:+ format_value (get "name" o)))
    (Some "STIX Report")
    (Some [
       ("unit42_id", get "id" o);
       ("unit42_labels", get "labels" o);
       ("unit42_published", get "published" o);
       ("unit42_created_date", get "created" o);
       ("unit42_modified_date", get "modified" o);
       ("unit42_description", get "description" o);
       ("unit42_object_refs", get "object_refs" o)
     ])
    (Some (Unit42.with_tlp tlp_color [
       ("stixid", get "id" o);
       ("published", get "published" o);
       ("stixdescription", get_or "description" (JStr "") o);
       ("reportedby", JStr "Unit42");
       ("tags", tags)
     ]))
    None.

(** A set whose members are each under their own key. *)
Definition keyed (s : pyset) : Prop :=
  forall k y, s !! k = Some y -> hash_key y = Ok k.

(** What [list(set(labels).union(set(feed_tags)))] holds, whatever its
    order: no two items that are equal for Python; every feed tag; for
    every label that label or, when several labels are equal, one of
    them, and so every label that is a string; and nothing but labels
    and feed tags. *)
Definition merged_tags (labels : json) (feed_tags : list string)
    (ts : list json) : Prop :=
  (exists ks, mapM hash_key ts = Ok ks /\ NoDup ks) /\
  (forall tag, In tag feed_tags -> In (JStr tag) ts) /\
  (forall items x, iter labels = Ok items -> In x items ->
     exists y k, In y ts /\ In y items /\
       hash_key x = Ok k /\ hash_key y = Ok k) /\
  (forall items label, iter labels = Ok items -> In (JStr label) items ->
     In (JStr label) ts) /\
  (forall y, In y ts ->
     (exists tag, In tag feed_tags /\ y = JStr tag) \/
     (exists items, iter labels = Ok items /\ In y items)).

(** A relationship whose product, under [x_panw_coa_u42_panw_product], is
    absent or empty, or starts with a name. *)
Definition names_a_product (relationship : obj) : Prop :=
  let product := get_or "x_panw_coa_u42_panw_product" (JList []) relationship in
  truthy product = false \/
  exists name, Unit42.first_item product = Ok (JStr name) /\ name <> "".

(** A relationship that starts from a course of action. *)
Definition from_course_of_action (relationship : obj) : Prop :=
  exists source,
    get "source_ref" relationship = JStr source /\
    starts_with "course-of-action" source = true.

(** A reference to an indicator that [id_to_object] does not hold. *)
Definition dangling_indicator (ref : json) (id_to_object : gmap key obj) : Prop :=
  exists s,
    ref = JStr s /\ before_dashes s = "indicator" /\
    id_to_object !! KStr s = None.

(** Courses of action that are all names, as [courses_loop] records them
    for such relationships. *)
Definition named_courses (courses_of_action : obj) : Prop :=
  Forall (fun kv => exists name, snd kv = JStr name /\ name <> "")
    courses_of_action.

Module MoreSamples.

(** An [int] for the samples: numbers, and the texts "10" and "1". *)
Definition sdk_int (v : json) : result Z :=
  match v with
  | JNum n => Ok n
  | JStr s =>
      if String.eqb s "10" then Ok 10%Z
      else if String.eqb s "1" then Ok 1%Z
      else Raise ValueError
  | _ => Raise TypeError
  end.

(** A client that has fetched an attack pattern and a relationship from
    a course of action, with no product. *)
Definition course_fetched : Unit42.Client :=
  Unit42.mk_client Samples.unit42_server
    (<["relationship" :=
         [JObj (Samples.relationship_object "relationship--3"
                  "course-of-action--1" "attack-pattern--1")]]>
       {[ "attack-pattern" :=
            [JObj (Samples.stix_object "attack-pattern" "attack-pattern--1")] ]}).

(** A server whose feed has a course of action with a product, and an
    attack pattern. *)
Definition course_server : Unit42.Server :=
  {| Unit42.api_roots := [
       {| Unit42.collections := [
            Samples.unit42_collection [
              ("attack-pattern",
               [Ok (Samples.bundle
                      [Samples.stix_object "attack-pattern" "attack-pattern--1"])]);
              ("relationship",
               [Ok (Samples.bundle
                      [("x_panw_coa_u42_panw_product", JList [JStr "NGFW"])
                       :: Samples.relationship_object "relationship--5"
                            "course-of-action--1" "attack-pattern--1"])])
            ]
          ] |}
     ] |}.

Definition course_client : Unit42.Client :=
  Unit42.mk_client course_server ∅.

(** An indicator whose labels hold [True] and [1], which are equal, and
    a feed tag. *)
Definition flagged_indicator : obj := [
  ("id", JStr "indicator--7");
  ("type", JStr "indicator");
  ("name", JStr "example.org");
  ("pattern", JStr "[url:value = 'http://example.org/a']");
  ("labels", JList [JBool true; JNum 1; JStr "malicious-activity"; JStr "feed"]);
  ("created", JStr "2020-01-01T00:00:00.000Z");
  ("modified", JStr "2020-01-01T00:00:00.000Z")
].

(** A server that delivers its indicators in two pages, two on the first
    and one on the second. *)
Definition paged_server : Unit42.Server :=
  {| Unit42.api_roots := [
       {| Unit42.collections := [
            Samples.unit42_collection [
              ("indicator",
               [Ok (Samples.bundle
                      [Samples.unit42_indicator "indicator--1"
                         "[url:value = 'http://example.org/a']";
                       Samples.unit42_indicator "indicator--2"
                         "[ipv4-addr:value = '192.0.2.1']"]);
                Ok (Samples.bundle
                      [Samples.unit42_indicator "indicator--3"
                         "[url:value = 'http://example.org/b']"])])
            ]
          ] |}
     ] |}.

Definition paged_client : Unit42.Client :=
  Unit42.mk_client paged_server ∅.

(** A client that has fetched a relationship from an indicator. *)
Definition indicator_relationship : Unit42.Client :=
  Unit42.mk_client Samples.unit42_server
    {[ "relationship" :=
         [JObj (Samples.relationship_object "relationship--4"
                  "indicator--404" "attack-pattern--1")] ]}.

End MoreSamples.

(** * Properties *)

(** ** Generic facts: the error monad and dictionaries *)

Lemma bind_Ok {A B} (m : result A) (f : A -> result B) (b : B) :
  m ≫= f = Ok b -> exists a, m = Ok a /\ f a = Ok b.
Proof. destruct m as [a|e]; simpl; [eauto | discriminate]. Qed.

Lemma bind_Raise {A B} (f : A -> result B) (e : exn) :
  Raise e ≫= f = Raise e.
Proof. reflexivity. Qed.

Ltac inv_bind H :=
  let x := fresh "x" in
  let Hx := fresh "Hx" in
  apply bind_Ok in H; destruct H as (x & Hx & H).

Tactic Notation "inv_bind_as" hyp(H) ident(x) ident(Hx) :=
  apply bind_Ok in H; destruct H as (x & Hx & H).

Lemma assoc_dict_set_eq {A} (k : string) (v : A) (d : list (string * A)) :
  assoc k (dict_set k v d) = Some v.
Proof.
  induction d as [|[k' v'] d IH]; simpl.
  - by rewrite String.eqb_refl.
  - destruct (String.eqb_spec k k') as [->|Hne]; simpl.
    + by rewrite String.eqb_refl.
    + by destruct (String.eqb_spec k k').
Qed.

Lemma assoc_dict_set_ne {A} (k k' : string) (v : A) (d : list (string * A)) :
  k <> k' -> assoc k (dict_set k' v d) = assoc k d.
Proof.
  intros Hne. induction d as [|[k0 v0] d IH]; simpl.
  - by destruct (String.eqb_spec k k').
  - destruct (String.eqb_spec k' k0) as [->|Hne']; simpl.
    + by destruct (String.eqb_spec k k0).
    + destruct (String.eqb_spec k k0); [done | apply IH].
Qed.

Lemma get_dict_set_ne (k k' : string) (v : json) (d : obj) :
  k <> k' -> get k (dict_set k' v d) = get k d.
Proof. intros Hne. unfold get. by rewrite assoc_dict_set_ne. Qed.

(** ** The model on small inputs *)

Example splitlines_keeps_blank_lines :
  Datetime.splitlines ("a" +:+ Samples.newline +:+ Samples.newline +:+ "b" +:+ Samples.newline)
    = ["a"; ""; "b"].
Proof. reflexivity. Qed.

Example parse_short_fields :
  Datetime.parse "2020-1-2T3:4:5.5Z"
    = Some (Datetime.mk_datetime 2020 1 2 3 4 5 500000).
Proof. reflexivity. Qed.

Example parse_rejects_bad_day :
  Datetime.strptime "2021-02-29T00:00:00.000Z" = Raise ValueError.
Proof. reflexivity. Qed.

Example dates_of_nothing :
  Mitre.handle_multiple_dates_in_one_field "created" JNull = Raise AttributeError /\
  Mitre.handle_multiple_dates_in_one_field "created" (JStr "") = Raise ValueError.
Proof. split; reflexivity. Qed.

Example before_dashes_example :
  before_dashes "attack-pattern--0a3e" = "attack-pattern" /\
  before_dashes "no dashes" = "no dashes".
Proof. split; reflexivity. Qed.

Example same_key_for_true_and_one :
  hash_key (JBool true) = hash_key (JNum 1).
Proof. reflexivity. Qed.

(** ** Dates *)

(** C3.  Called with field name ['created'] on the two dates
    "2020-01-01T00:00:00.000Z" and "2019-01-01T00:00:00.000Z" separated by
    a newline, [handle_multiple_dates_in_one_field] returns the earlier
    one, "2019-01-01T00:00:00.000Z"; called with ['modified'] on the same
    value it returns the later one, "2020-01-01T00:00:00.000Z".  Both
    copies of the function, the MITRE one and the Unit42 one, do so. *)
Theorem handle_multiple_dates_fold :
  Mitre.handle_multiple_dates_in_one_field "created" (JStr Samples.two_dates)
    = Ok "2019-01-01T00:00:00.000Z" /\
  Mitre.handle_multiple_dates_in_one_field "modified" (JStr Samples.two_dates)
    = Ok "2020-01-01T00:00:00.000Z" /\
  Unit42.handle_multiple_dates_in_one_field "created" (JStr Samples.two_dates)
    = Ok "2019-01-01T00:00:00.000Z" /\
  Unit42.handle_multiple_dates_in_one_field "modified" (JStr Samples.two_dates)
    = Ok "2020-01-01T00:00:00.000Z".
Proof. repeat split; vm_compute; reflexivity. Qed.

(** ** Publications *)

Section Publications.

Lemma mitre_publications_loop_spec (refs acc pubs : list json) :
  Mitre.publications_loop refs acc = Ok pubs ->
  exists rs : list obj,
    refs = map JObj rs /\
    pubs = acc ++ map publication (List.filter (fun r => negb (has_external_id r)) rs).
Proof.
  revert acc. induction refs as [|r refs IH]; intros acc H; simpl in H.
  - exists []. simpl. rewrite app_nil_r. by inversion H.
  - inv_bind H. destruct r as [| | | | |o]; try discriminate. injection Hx as <-.
    revert H. destruct (truthy (get "external_id" o)) eqn:Hid; intros H.
    + destruct (IH _ H) as (rs & -> & ->). exists (o :: rs). split; [done|].
      cbn [List.filter map]. fold (has_external_id o) in Hid. by rewrite Hid.
    + destruct (IH _ H) as (rs & -> & ->). exists (o :: rs). split; [done|].
      cbn [List.filter map]. fold (has_external_id o) in Hid. rewrite Hid.
      cbn [negb map]. by rewrite <- app_assoc.
Qed.

Lemma unit42_publications_loop_spec (refs acc pubs : list json) :
  Unit42.publications_loop refs acc = Ok pubs ->
  exists rs : list obj,
    refs = map JObj rs /\
    pubs = acc ++ map publication (List.filter (fun r => negb (has_external_id r)) rs).
Proof.
  revert acc. induction refs as [|r refs IH]; intros acc H; simpl in H.
  - exists []. simpl. rewrite app_nil_r. by inversion H.
  - inv_bind H. destruct r as [| | | | |o]; try discriminate. injection Hx as <-.
    revert H. destruct (truthy (get "external_id" o)) eqn:Hid; intros H.
    + destruct (IH _ H) as (rs & -> & ->). exists (o :: rs). split; [done|].
      cbn [List.filter map]. fold (has_external_id o) in Hid. by rewrite Hid.
    + destruct (IH _ H) as (rs & -> & ->). exists (o :: rs). split; [done|].
      cbn [List.filter map]. fold (has_external_id o) in Hid. rewrite Hid.
      cbn [negb map]. by rewrite <- app_assoc.
Qed.

Lemma with_tlp_other (tlp_color : option string) (fields : obj) (k : string) :
  k <> "trafficlightprotocol" ->
  assoc k (Unit42.with_tlp tlp_color fields) = assoc k fields.
Proof.
  intros Hne. unfold Unit42.with_tlp. destruct tlp_color as [c|]; [|done].
  destruct (truthy (JStr c)); [|done]. by apply assoc_dict_set_ne.
Qed.

Lemma mitre_map_fields_publications (t : option string) (o fields : obj) :
  Mitre.map_fields_by_type t o = Ok fields -> publications_of o fields.
Proof.
  unfold Mitre.map_fields_by_type. intros H.
  inv_bind H. inv_bind H. inv_bind H. inv_bind H. inv_bind H.
  apply mitre_publications_loop_spec in Hx3 as (rs & -> & ->).
  exists rs. split; [done|]. simpl.
  destruct t as [t|]; [|discriminate]. simpl in H.
  repeat match type of H with
  | context [String.eqb ?a ?b] => destruct (String.eqb a b)
  end; inversion H; reflexivity.
Qed.

Context (FeedIndicatorType : CommonServer.FeedIndicatorType)
        (tableToMarkdown : string -> list obj -> list string -> string).

Lemma attack_patterns_loop_publications
    (objs : list json) (courses : obj) (feed_tags : list string)
    (tlp : option string) (acc out : list Unit42.indicator) :
  Unit42.attack_patterns_loop tableToMarkdown objs courses feed_tags tlp acc = Ok out ->
  exists new,
    out = acc ++ new /\
    Forall2 (fun i o => exists a fields,
               o = JObj a /\ Unit42.fields i = Some fields /\
               publications_of a fields) new objs.
Proof.
  revert acc. induction objs as [|o objs IH]; intros acc H; simpl in H.
  - exists []. rewrite app_nil_r. split; [by inversion H | constructor].
  - inv_bind H. destruct o as [| | | | |a]; try discriminate. injection Hx as <-.
    inv_bind H. inv_bind H. inv_bind H. inv_bind H. inv_bind H.
    apply IH in H as (new & -> & Hall).
    eexists (_ :: new). split; [by rewrite <- app_assoc|].
    constructor; [|done]. eexists _, _. split; [done|]. split; [done|].
    apply unit42_publications_loop_spec in Hx0 as (rs & -> & ->).
    exists rs. split; [done|]. by rewrite with_tlp_other.
Qed.

End Publications.

(** ** The loops of the MITRE [build_iterator] *)

Section MitreLoops.
Import Mitre.

Variable self : Client.

(** The three ways in which the loop body ends without an exception: the
    object is skipped, it is recorded as a relationship, or it becomes an
    indicator. *)
Lemma process_item_Ok (st st' : state) (item : obj) :
  process_item self st item = Ok st' ->
  st' = st \/
  (exists k rel,
      hash_key (get "id" item) = Ok k /\ (k ∉ mitre_id_list st) /\
      st' = mk_state (indicators st) (mitre_id_list st ∪ {[k]})
              (relationships_list st ++ [rel]) (counter st) (query_log st)) \/
  (exists k t i,
      hash_key (get "id" item) = Ok k /\ (k ∉ mitre_id_list st) /\
      is_indicator_deprecated_or_revoked item = false /\
      new_indicator self t item = Ok i /\
      st' = mk_state (indicators st ++ [i]) (mitre_id_list st ∪ {[k]})
              (relationships_list st) (counter st + 1) (query_log st)).
Proof.
  unfold process_item. intros H. inv_bind H.
  destruct (decide (x ∈ mitre_id_list st)) as [|Hnew].
  { left. by inversion H. }
  inv_bind H.
  destruct (decide (_ = Some "Relationship")).
  - destruct (json_eqb_str _ _).
    + left. by inversion H.
    + inv_bind H. right; left. exists x, x1. by inversion H.
  - destruct (is_indicator_deprecated_or_revoked item) eqn:Hdep.
    + left. by inversion H.
    + inv_bind H. right; right. eexists x, _, x1. by inversion H.
Qed.

Variable limit : Z.

Lemma collections_loop_cons (st : state) (c : Collection)
    (cols : list Collection) :
  collections_loop self limit st (c :: cols) =
  if limit_reached limit (counter st) then Ok st
  else concepts_loop self limit c st filter_objs ≫=
       fun st' => collections_loop self limit st' cols.
Proof. reflexivity. Qed.

Variable P : state -> Prop.

Hypothesis P_step : forall st item st',
  P st -> limit_reached limit (counter st) = false ->
  process_item self st item = Ok st' -> P st'.

Hypothesis P_log : forall st c f, P st -> P (log_query c f st).

Lemma items_loop_inv (items : list obj) (st st' : state) :
  P st -> items_loop self limit st items = Ok st' -> P st'.
Proof.
  revert st. induction items as [|item items IH]; intros st HP H; simpl in H.
  - by injection H as <-.
  - destruct (limit_reached limit (counter st)) eqn:Hlim.
    + by injection H as <-.
    + inv_bind H. eauto.
Qed.

Lemma concepts_loop_inv (c : Collection)
    (concepts : list (string * (string * Filter))) (st st' : state) :
  P st -> concepts_loop self limit c st concepts = Ok st' -> P st'.
Proof.
  revert st. induction concepts as [|concept concepts IH]; intros st HP H;
    simpl in H.
  - by injection H as <-.
  - destruct (limit_reached limit (counter st)).
    + by injection H as <-.
    + destruct (query c (snd (snd concept))) as [items|e].
      * inv_bind H. apply (IH x); [|done].
        apply (items_loop_inv items _ x) in Hx; [done|]. by apply P_log.
      * apply (IH _ (P_log _ _ _ HP) H).
Qed.

Lemma collections_loop_inv (cols : list Collection) (st st' : state) :
  P st -> collections_loop self limit st cols = Ok st' -> P st'.
Proof.
  revert st. induction cols as [|c cols IH]; intros st HP H.
  - by injection H as <-.
  - rewrite collections_loop_cons in H.
    destruct (limit_reached limit (counter st)).
    + by injection H as <-.
    + inv_bind H. apply (IH x); [|done].
      exact (concepts_loop_inv c filter_objs st x HP Hx).
Qed.

Lemma build_iterator_loops_inv (st : state) :
  P initial_state -> build_iterator_loops self limit = Ok st -> P st.
Proof. intros H0 H. eapply collections_loop_inv; done. Qed.

End MitreLoops.

Section MitreIndicators.
Import Mitre.

(** What [new_indicator] returns when it returns. *)
Lemma new_indicator_Ok (self : Client) (t : option string) (item : obj)
    (i : indicator) :
  new_indicator self t item = Ok i ->
  exists fields0 labels,
    map_fields_by_type t item = Ok fields0 /\
    assoc "tags" fields0 = Some (JList labels) /\
    type i = t /\
    rawJSON i = dict_set "labels" (JList (labels ++ [str_list (tags self)])) item /\
    forall k, k <> "tags" -> k <> "trafficlightprotocol" ->
      assoc k (fields i) = assoc k fields0.
Proof.
  unfold new_indicator. intros H. inv_bind H.
  destruct (assoc "tags" x) as [[| | | |labels|]|] eqn:Htags; try discriminate.
  exists x, labels. split; [done|]. split; [done|].
  injection H as <-. cbn [type rawJSON fields].
  split; [done|]. split; [done|].
  intros k Hk1 Hk2.
  destruct (tlp_color self) as [c|];
    [match goal with |- context [if ?b then _ else _] => destruct b end|].
  - rewrite assoc_dict_set_ne; [|done]. by apply assoc_dict_set_ne.
  - by apply assoc_dict_set_ne.
  - by apply assoc_dict_set_ne.
Qed.

(** Only the malware and tool mappings have a ['tags'] entry. *)
Lemma map_fields_tags (t : option string) (item fields0 : obj) (v : json) :
  map_fields_by_type t item = Ok fields0 ->
  assoc "tags" fields0 = Some v ->
  t = Some "STIX Malware" \/ t = Some "STIX Tool".
Proof.
  unfold map_fields_by_type. intros H Htags.
  inv_bind H. inv_bind H. inv_bind H. inv_bind H. inv_bind H.
  destruct t as [t|]; [|discriminate]. simpl in H.
  destruct (String.eqb_spec t "STIX Attack Pattern") as [->|_].
  { inversion H; subst fields0. discriminate. }
  destruct (String.eqb_spec t "Intrusion Set") as [->|_].
  { inversion H; subst fields0. discriminate. }
  destruct (String.eqb_spec t "STIX Malware") as [->|_]; [by left|].
  destruct (String.eqb_spec t "STIX Tool") as [->|_]; [by right|].
  discriminate.
Qed.

(** A property [Q] of every indicator that [new_indicator] builds holds
    of every indicator of the final state. *)
Lemma indicators_Forall (self : Client) (limit : Z) (Q : indicator -> Prop)
    (st : state) :
  (forall t item i,
      is_indicator_deprecated_or_revoked item = false ->
      new_indicator self t item = Ok i -> Q i) ->
  build_iterator_loops self limit = Ok st ->
  Forall Q (indicators st).
Proof.
  intros HQ. apply build_iterator_loops_inv with (P := fun st => Forall Q (indicators st)).
  - intros s item s' HP _ H.
    apply process_item_Ok in H as [->|[(k & rel & _ & _ & ->)|(k & t & i & _ & _ & Hdep & Hi & ->)]];
      simpl; [done|done|].
    apply Forall_app. split; [done|]. repeat constructor. eauto.
  - by intros s c f.
  - constructor.
Qed.

Lemma mark_first_rawJSON (l : list indicator) :
  map rawJSON (mark_first l) = map rawJSON l.
Proof. by destruct l. Qed.

Lemma mark_first_fields (l : list indicator) :
  map fields (mark_first l) = map fields l.
Proof. by destruct l. Qed.

Lemma mark_first_type (l : list indicator) :
  map type (mark_first l) = map type l.
Proof. by destruct l. Qed.

Lemma mark_first_length (l : list indicator) :
  length (mark_first l) = length l.
Proof. by destruct l. Qed.

Lemma mark_first_Forall (Q : indicator -> Prop) (l : list indicator) :
  (forall i r, Q i ->
     Q (mk_indicator (value i) (score i) (type i) (rawJSON i) (fields i) r)) ->
  Forall Q l -> Forall Q (mark_first l).
Proof.
  intros HQ H. destruct H as [|i l Hi Hl]; simpl; [constructor|].
  constructor; [by apply HQ | done].
Qed.

End MitreIndicators.

(** ** Properties of the MITRE output *)

Section MitreOutput.
Import Mitre.

Lemma build_iterator_Ok (self : Client) (limit : Z) (out : list indicator) :
  build_iterator self limit = Ok out ->
  exists st, build_iterator_loops self limit = Ok st /\
             out = mark_first (indicators st).
Proof.
  unfold build_iterator. intros H. inv_bind H. exists x.
  split; [done|]. by injection H as <-.
Qed.

Lemma deprecated_dict_set_labels (item : obj) (v : json) :
  is_indicator_deprecated_or_revoked (dict_set "labels" v item) =
  is_indicator_deprecated_or_revoked item.
Proof.
  unfold is_indicator_deprecated_or_revoked.
  by rewrite !get_dict_set_ne.
Qed.

Lemma limit_reached_0 (limit : Z) : limit_reached limit 0 = false.
Proof. unfold limit_reached. lia. Qed.

Lemma limit_not_reached (limit c : Z) :
  (0 < limit)%Z -> limit_reached limit c = false -> (c < limit)%Z.
Proof. unfold limit_reached. lia. Qed.


Lemma new_indicator_source_id (self : Client) (t : option string) (item : obj)
    (i : indicator) :
  new_indicator self t item = Ok i -> mitre_source_id i = get "id" item.
Proof.
  intros H. apply new_indicator_Ok in H as (f0 & labels & _ & _ & _ & Hraw & _).
  unfold mitre_source_id. rewrite Hraw. by apply get_dict_set_ne.
Qed.

Lemma ids_distinct_inv (self : Client) (limit : Z) (st : state) :
  build_iterator_loops self limit = Ok st -> ids_distinct st.
Proof.
  apply build_iterator_loops_inv with (P := ids_distinct).
  - intros s item s' [Hnd Hin] _ H.
    apply process_item_Ok in H
      as [->|[(k & rel & _ & _ & ->)|(k & t & i & Hk & Hnew & _ & Hi & ->)]].
    + done.
    + split; [done|]. simpl. intros i k' Hi Hk'. apply elem_of_union_l. eauto.
    + apply new_indicator_source_id in Hi. split; simpl.
      * rewrite map_app. simpl. apply NoDup_app. split; [done|].
        split; [|apply NoDup_singleton].
        intros r Hr Hr'. apply list_elem_of_In in Hr, Hr'.
        destruct Hr' as [<-|[]].
        apply in_map_iff in Hr as (j & Hj & Hjin).
        rewrite Hi, Hk in Hj. apply Hnew. eauto.
      * intros j k' Hj Hk'. apply in_app_iff in Hj as [Hj|[<-|[]]].
        -- apply elem_of_union_l. eauto.
        -- rewrite Hi, Hk in Hk'. injection Hk' as <-. set_solver.
  - by intros s c f.
  - split; [constructor | intros i k []].
Qed.

(** C2.  In the output of the MITRE [build_iterator], no indicator comes
    from an object flagged as deprecated or revoked: the raw object of
    every emitted indicator has neither [x_mitre_deprecated] nor
    [revoked] truthy, so a fetched object that is flagged is never among
    them. *)
Theorem deprecated_never_emitted (self : Client) (limit : Z)
    (out : list indicator) :
  build_iterator self limit = Ok out ->
  Forall (fun i => is_indicator_deprecated_or_revoked (rawJSON i) = false) out /\
  forall o, is_indicator_deprecated_or_revoked o = true ->
            ~ In o (map rawJSON out).
Proof.
  intros H. apply build_iterator_Ok in H as (st & Hst & ->).
  assert (Forall (fun i => is_indicator_deprecated_or_revoked (rawJSON i) = false)
            (indicators st)) as Hall.
  { apply (indicators_Forall self limit); [|done].
    intros t item i Hdep Hi.
    apply new_indicator_Ok in Hi as (f0 & labels & _ & _ & _ & -> & _).
    by rewrite deprecated_dict_set_labels. }
  split.
  - by apply mark_first_Forall.
  - intros o Ho Hin. rewrite mark_first_rawJSON in Hin.
    apply in_map_iff in Hin as (i & <- & Hi).
    rewrite Forall_forall in Hall. apply list_elem_of_In in Hi.
    specialize (Hall i Hi). congruence.
Qed.

Lemma deprecated_never_emitted_witness :
  exists out, build_iterator Samples.mitre_client (-1) = Ok out /\
    length out = 3 /\
    ~ In (Samples.deprecated_object "malware" "malware--3") (map rawJSON out).
Proof.
  eexists. split; [vm_compute; reflexivity|]. split; [reflexivity|].
  eapply (proj2 (deprecated_never_emitted Samples.mitre_client (-1) _ _)).
  vm_compute; reflexivity.
  Unshelve. vm_compute; reflexivity.
Defined.

End MitreOutput.

Section MitreLimit.
Import Mitre.

Lemma counter_counts_indicators (self : Client) (limit : Z) (st : state) :
  build_iterator_loops self limit = Ok st ->
  counter st = Z.of_nat (length (indicators st)).
Proof.
  apply build_iterator_loops_inv
    with (P := fun st => counter st = Z.of_nat (length (indicators st))).
  - intros s item s' HP _ H.
    apply process_item_Ok in H
      as [->|[(k & rel & _ & _ & ->)|(k & t & i & _ & _ & _ & _ & ->)]];
      simpl; [done|done|].
    rewrite length_app. simpl. lia.
  - by intros s c f.
  - reflexivity.
Qed.

Lemma counter_within_limit (self : Client) (limit : Z) (st : state) :
  (0 < limit)%Z ->
  build_iterator_loops self limit = Ok st -> (counter st <= limit)%Z.
Proof.
  intros Hpos.
  apply build_iterator_loops_inv with (P := fun st => (counter st <= limit)%Z).
  - intros s item s' HP Hlim H.
    apply limit_not_reached in Hlim; [|done].
    apply process_item_Ok in H
      as [->|[(k & rel & _ & _ & ->)|(k & t & i & _ & _ & _ & _ & ->)]];
      simpl; lia.
  - by intros s c f.
  - simpl. lia.
Qed.

(** C6.  For a positive limit [L], the MITRE [build_iterator] returns at
    most [L] indicators.  The limit is tested against one counter that
    runs over all collections and all object types: when the loops end,
    it equals the number of indicators returned. *)
Theorem limit_bounds_output (self : Client) (L : Z) (out : list indicator) :
  (0 < L)%Z ->
  build_iterator self L = Ok out ->
  (Z.of_nat (length out) <= L)%Z /\
  exists st, build_iterator_loops self L = Ok st /\
             counter st = Z.of_nat (length out).
Proof.
  intros Hpos H. apply build_iterator_Ok in H as (st & Hst & ->).
  rewrite mark_first_length.
  pose proof (counter_counts_indicators _ _ _ Hst) as Hc.
  pose proof (counter_within_limit _ _ _ Hpos Hst) as Hl.
  split; [lia | eauto].
Qed.

Lemma limit_bounds_output_witness :
  exists out, build_iterator Samples.mitre_client 2 = Ok out /\
    map mitre_source_id out = [JStr "malware--1"; JStr "malware--2"] /\
    (Z.of_nat (length out) <= 2)%Z.
Proof.
  eexists. split; [vm_compute; reflexivity|]. split; [reflexivity|].
  refine (proj1 (limit_bounds_output Samples.mitre_client 2 _ _ _)).
  - lia.
  - vm_compute; reflexivity.
Defined.

(** C5, as the code has it.  An object flagged as deprecated or revoked
    leaves the counter that is compared against the limit as it was, and
    the list of indicators too; the counter only counts the indicators
    emitted, so at the end of the loops it is their number. *)
Theorem deprecated_not_counted :
  (forall self st item st',
      is_indicator_deprecated_or_revoked item = true ->
      process_item self st item = Ok st' ->
      counter st' = counter st /\ indicators st' = indicators st) /\
  (forall self limit st,
      build_iterator_loops self limit = Ok st ->
      counter st = Z.of_nat (length (indicators st))).
Proof.
  split.
  - intros self st item st' Hdep H.
    apply process_item_Ok in H
      as [->|[(k & rel & _ & _ & ->)|(k & t & i & _ & _ & Hnd & _ & ->)]];
      [done|done|congruence].
  - apply counter_counts_indicators.
Qed.

Lemma deprecated_not_counted_witness :
  counter initial_state = 0%Z /\
  exists st, process_item Samples.deprecated_first initial_state
               (Samples.deprecated_object "malware" "malware--1") = Ok st /\
             counter st = 0%Z.
Proof.
  split; [reflexivity|]. eexists. split; [vm_compute; reflexivity|].
  refine (proj1 (proj1 deprecated_not_counted Samples.deprecated_first
                   initial_state
                   (Samples.deprecated_object "malware" "malware--1") _ _ _)).
  - vm_compute; reflexivity.
  - vm_compute; reflexivity.
Defined.

(** C5, as the specification states it, fails: a deprecated object does not
    increment the counter.  With a limit of one, a collection that holds a
    deprecated malware object followed by a current one yields the
    current one, so the deprecated object did not use up the limit. *)
Lemma deprecated_counted_counterexample :
  (exists st,
      process_item Samples.deprecated_first initial_state
        (Samples.deprecated_object "malware" "malware--1") = Ok st /\
      counter st <> (counter initial_state + 1)%Z) /\
  exists i, build_iterator Samples.deprecated_first 1 = Ok [i] /\
            mitre_source_id i = JStr "malware--2".
Proof.
  split.
  - exists initial_state. split; [vm_compute; reflexivity | discriminate].
  - eexists. split; vm_compute; reflexivity.
Qed.

End MitreLimit.

Section MitreUnmapped.
Import Mitre.

(** The STIX types whose indicators cannot be built: the mappings of
    techniques and groups have no ['tags'] entry, and mitigations have no
    mapping. *)
Lemma new_indicator_unmapped (self : Client) (t : string) (item : obj) :
  t = "STIX Attack Pattern" \/ t = "Intrusion Set" \/ t = "Course of Action" ->
  exists e, new_indicator self (Some t) item = Raise e.
Proof.
  intros Ht. destruct (new_indicator self (Some t) item) as [i|e] eqn:H; [|eauto].
  apply new_indicator_Ok in H as (f0 & labels & Hmap & Htags & _).
  destruct (map_fields_tags _ _ _ _ Hmap Htags) as [Heq|Heq];
    injection Heq as ->; destruct Ht as [Ht|[Ht|Ht]]; discriminate.
Qed.

Lemma process_item_unmapped (self : Client) (st : state) (item : obj)
    (k : key) (t : string) :
  hash_key (get "id" item) = Ok k ->
  k ∉ mitre_id_list st ->
  get "type" item = JStr t ->
  t = "attack-pattern" \/ t = "intrusion-set" \/ t = "course-of-action" ->
  is_indicator_deprecated_or_revoked item = false ->
  exists e, process_item self st item = Raise e.
Proof.
  intros Hk Hnew Ht Hty Hdep. unfold process_item.
  rewrite Hk. simpl. destruct (decide (k ∈ mitre_id_list st)); [done|].
  rewrite Ht. simpl.
  destruct Hty as [-> | [-> | ->]]; simpl; rewrite Hdep;
    match goal with
    | |- context [new_indicator self (Some ?ty) item] =>
        destruct (new_indicator_unmapped self ty item) as [e He];
          [tauto | rewrite He; simpl; eauto]
    end.
Qed.

Lemma process_item_deprecated (self : Client) (st : state) (item : obj)
    (k : key) (t : string) :
  hash_key (get "id" item) = Ok k ->
  get "type" item = JStr t ->
  t = "attack-pattern" \/ t = "intrusion-set" \/ t = "course-of-action" ->
  is_indicator_deprecated_or_revoked item = true ->
  process_item self st item = Ok st.
Proof.
  intros Hk Ht Hty Hdep. unfold process_item.
  rewrite Hk. simpl. destruct (decide (k ∈ mitre_id_list st)); [done|].
  rewrite Ht. simpl.
  destruct Hty as [-> | [-> | ->]]; simpl; by rewrite Hdep.
Qed.

Lemma emitted_types (self : Client) (limit : Z) (out : list indicator) :
  build_iterator self limit = Ok out ->
  Forall (fun i => type i = Some "STIX Malware" \/ type i = Some "STIX Tool") out.
Proof.
  intros H. apply build_iterator_Ok in H as (st & Hst & ->).
  apply mark_first_Forall; [done|].
  apply (indicators_Forall self limit); [|done].
  intros t item i _ Hi.
  apply new_indicator_Ok in Hi as (f0 & labels & Hmap & Htags & -> & _).
  eapply map_fields_tags; done.
Qed.

(** C10, as the code has it.  An object of type [attack-pattern],
    [intrusion-set] or [course-of-action] that the loop of the MITRE
    [build_iterator] processes (its id is hashable and not yet seen) and
    that is not flagged as deprecated or revoked makes the loop body
    raise; one that is flagged is skipped and nothing is raised.  So a
    technique that comes first in the answer of the first collection
    makes [build_iterator] raise, whatever the limit is, and every
    indicator that [build_iterator] returns is a malware or a tool. *)
Theorem unmapped_types_raise :
  (forall self st item k t,
      hash_key (get "id" item) = Ok k ->
      k ∉ mitre_id_list st ->
      get "type" item = JStr t ->
      t = "attack-pattern" \/ t = "intrusion-set" \/ t = "course-of-action" ->
      (is_indicator_deprecated_or_revoked item = false ->
       exists e, process_item self st item = Raise e) /\
      (is_indicator_deprecated_or_revoked item = true ->
       process_item self st item = Ok st)) /\
  (forall self limit c cols item items k,
      collections self = c :: cols ->
      query c (mk_filter "type" "=" "attack-pattern") = Ok (item :: items) ->
      hash_key (get "id" item) = Ok k ->
      get "type" item = JStr "attack-pattern" ->
      is_indicator_deprecated_or_revoked item = false ->
      exists e, build_iterator self limit = Raise e) /\
  (forall self limit out,
      build_iterator self limit = Ok out ->
      Forall (fun i => type i = Some "STIX Malware" \/ type i = Some "STIX Tool")
        out).
Proof.
  split; [|split].
  - intros self st item k t Hk Hnew Ht Hty. split; intros Hdep.
    + by eapply process_item_unmapped.
    + by eapply process_item_deprecated.
  - intros self limit c cols item items k Hcols Hq Hk Ht Hdep.
    unfold build_iterator, build_iterator_loops.
    rewrite Hcols, collections_loop_cons.
    cbn [initial_state counter]. rewrite limit_reached_0.
    unfold filter_objs. cbn [concepts_loop counter initial_state snd].
    rewrite limit_reached_0, Hq.
    cbn [items_loop log_query counter]. rewrite limit_reached_0.
    match goal with
    | |- context [process_item self ?s item] =>
        destruct (process_item_unmapped self s item k "attack-pattern" Hk)
          as [e He]; [set_solver | done | tauto | done |]
    end.
    exists e. by rewrite He.
  - apply emitted_types.
Qed.

Lemma unmapped_types_raise_witness :
  exists e, build_iterator Samples.one_technique (-1) = Raise e.
Proof.
  refine (proj1 (proj2 unmapped_types_raise) Samples.one_technique (-1)%Z
            _ [] (Samples.stix_object "attack-pattern" "attack-pattern--1") []
            (KStr "attack-pattern--1") _ _ _ _ _);
    vm_compute; reflexivity.
Defined.

(** C10, as the specification states it, fails for a course of action that is
    flagged as deprecated: it is skipped before its indicator is built,
    and [build_iterator] returns, here the empty list. *)
Lemma unmapped_types_counterexample :
  collections Samples.deprecated_mitigation = [Samples.mitigations] /\
  query Samples.mitigations (mk_filter "type" "=" "course-of-action")
    = Ok [Samples.deprecated_object "course-of-action" "course-of-action--1"] /\
  get "type" (Samples.deprecated_object "course-of-action" "course-of-action--1")
    = JStr "course-of-action" /\
  build_iterator Samples.deprecated_mitigation (-1) = Ok [] /\
  ~ exists e, build_iterator Samples.deprecated_mitigation (-1) = Raise e.
Proof.
  repeat split; try (vm_compute; reflexivity).
  intros [e He]. vm_compute in He. discriminate.
Qed.

End MitreUnmapped.

(** ** Failing queries *)

Section MitreQueries.
Import Mitre.

Lemma new_indicator_with_collections (self : Client) (cols : list Collection)
    (t : option string) (item : obj) :
  new_indicator (with_collections self cols) t item = new_indicator self t item.
Proof. reflexivity. Qed.

Lemma process_item_with_collections (self : Client) (cols : list Collection)
    (st : state) (item : obj) :
  process_item (with_collections self cols) st item = process_item self st item.
Proof. reflexivity. Qed.

Lemma items_loop_with_collections (self : Client) (cols : list Collection)
    (limit : Z) (items : list obj) (st : state) :
  items_loop (with_collections self cols) limit st items =
  items_loop self limit st items.
Proof.
  revert st. induction items as [|item items IH]; intros st; simpl; [done|].
  destruct (limit_reached limit (counter st)); [done|].
  rewrite process_item_with_collections.
  destruct (process_item self st item); simpl; [apply IH | done].
Qed.

Lemma concepts_loop_skip_failures (self : Client) (cols : list Collection)
    (limit : Z) (c : Collection)
    (concepts : list (string * (string * Filter))) (st : state) :
  concepts_loop (with_collections self cols) limit (skip_failures c) st concepts =
  concepts_loop self limit c st concepts.
Proof.
  revert st. induction concepts as [|concept concepts IH]; intros st; simpl; [done|].
  destruct (limit_reached limit (counter st)); [done|].
  change (log_query (skip_failures c)) with (log_query c).
  destruct (query c (snd (snd concept))) as [items|e]; simpl.
  - rewrite items_loop_with_collections.
    destruct (items_loop self limit _ items); simpl; [apply IH | done].
  - apply IH.
Qed.

Lemma collections_loop_skip_failures (self : Client) (cols0 : list Collection)
    (limit : Z) (cols : list Collection) (st : state) :
  collections_loop (with_collections self cols0) limit st (map skip_failures cols) =
  collections_loop self limit st cols.
Proof.
  revert st. induction cols as [|c cols IH]; intros st; [done|].
  cbn [map]. rewrite !collections_loop_cons.
  destruct (limit_reached limit (counter st)); [done|].
  rewrite concepts_loop_skip_failures.
  destruct (concepts_loop self limit c st filter_objs); simpl; [apply IH | done].
Qed.

Lemma process_item_log (self : Client) (st st' : state) (item : obj) :
  process_item self st item = Ok st' -> query_log st' = query_log st.
Proof.
  intros H.
  by apply process_item_Ok in H
    as [->|[(k & rel & _ & _ & ->)|(k & t & i & _ & _ & _ & _ & ->)]].
Qed.

Lemma items_loop_log (self : Client) (limit : Z) (items : list obj)
    (st st' : state) :
  items_loop self limit st items = Ok st' -> query_log st' = query_log st.
Proof.
  revert st. induction items as [|item items IH]; intros st H; simpl in H.
  - by injection H as <-.
  - destruct (limit_reached limit (counter st)); [by injection H as <-|].
    inv_bind H. apply IH in H. apply process_item_log in Hx. congruence.
Qed.

Lemma concepts_loop_log (self : Client) (limit : Z) (c : Collection)
    (concepts : list (string * (string * Filter))) (st st' : state) :
  concepts_loop self limit c st concepts = Ok st' ->
  exists sent rest,
    concepts = sent ++ rest /\
    query_log st' =
      query_log st ++
      map (fun concept => (collection_id c, snd (snd concept))) sent /\
    (rest = [] \/ limit_reached limit (counter st') = true).
Proof.
  revert st. induction concepts as [|concept concepts IH]; intros st H; simpl in H.
  - injection H as <-. exists [], []. cbn [map app]. rewrite app_nil_r. auto.
  - destruct (limit_reached limit (counter st)) eqn:Hlim.
    + injection H as <-. exists [], (concept :: concepts).
      cbn [map app]. rewrite app_nil_r. auto.
    + assert (exists st1,
                 query_log st1 = query_log st ++ [(collection_id c, snd (snd concept))] /\
                 concepts_loop self limit c st1 concepts = Ok st') as (st1 & Hlog & H1).
      { destruct (query c (snd (snd concept))) as [items|e].
        - inv_bind H. exists x. split; [|done].
          by apply items_loop_log in Hx.
        - by exists (log_query c (snd (snd concept)) st). }
      apply IH in H1 as (sent & rest & -> & Hlog' & Hrest).
      exists (concept :: sent), rest. split; [done|]. split; [|done].
      rewrite Hlog', Hlog. cbn [map]. by rewrite <- app_assoc.
Qed.

Lemma collections_loop_stop (self : Client) (limit : Z) (st : state)
    (cols : list Collection) :
  limit_reached limit (counter st) = true ->
  collections_loop self limit st cols = Ok st.
Proof.
  intros H. destruct cols as [|c cols]; [done|].
  by rewrite collections_loop_cons, H.
Qed.

Lemma planned_queries_cons (c : Collection) (cols : list Collection) :
  planned_queries (c :: cols) =
  map (fun concept => (collection_id c, snd (snd concept))) filter_objs ++
  planned_queries cols.
Proof. reflexivity. Qed.

Lemma collections_loop_log (self : Client) (limit : Z)
    (cols : list Collection) (st st' : state) :
  collections_loop self limit st cols = Ok st' ->
  exists rest, query_log st' ++ rest = query_log st ++ planned_queries cols.
Proof.
  revert st. induction cols as [|c cols IH]; intros st H.
  - injection H as <-. by exists [].
  - rewrite collections_loop_cons in H.
    destruct (limit_reached limit (counter st)) eqn:Hlim.
    + injection H as <-. eauto.
    + inv_bind H.
      apply concepts_loop_log in Hx as (sent & rest & Hsplit & Hlog & Hrest).
      rewrite planned_queries_cons, Hsplit, map_app.
      destruct Hrest as [->|Hstop].
      * apply IH in H as (rest' & Hrest'). exists rest'.
        rewrite Hrest', Hlog. cbn [map]. by rewrite app_nil_r, <- app_assoc.
      * rewrite collections_loop_stop in H by done. injection H as <-.
        eexists. rewrite Hlog, <- !app_assoc. reflexivity.
Qed.

End MitreQueries.

Section Unit42Requests.
Import Unit42.

Lemma pages_loop_app (data : list json) (p1 p2 : list (result obj)) :
  pages_loop false data (p1 ++ p2) =
  pages_loop false data p1 ≫= fun r =>
    match r with
    | Next data => pages_loop false data p2
    | Return data => Ok (Return data)
    end.
Proof.
  revert data. induction p1 as [|page p1 IH]; intros data; [done|].
  cbn [app pages_loop]. destruct page as [bundle|e]; [|done].
  cbn [mbind result_bind].
  destruct (iter (get "objects" bundle)) as [objects|e]; [|done].
  apply IH.
Qed.

Lemma collections_loop_pages (type_ : string) (cols : list Collection)
    (data : list json) :
  collections_loop false type_ data cols =
  pages_loop false data (flat_map (fun c => get_objects c type_) cols).
Proof.
  revert data. induction cols as [|c cols IH]; intros data; [done|].
  cbn [collections_loop flat_map]. rewrite pages_loop_app.
  destruct (pages_loop false data (get_objects c type_)) as [[d|d]|e];
    simpl; [apply IH | done | done].
Qed.

Lemma roots_loop_pages (type_ : string) (roots : list ApiRoot)
    (data : list json) :
  roots_loop false type_ data roots =
  pages_loop false data
    (flat_map (fun r => flat_map (fun c => get_objects c type_) (collections r))
       roots).
Proof.
  revert data. induction roots as [|r roots IH]; intros data; [done|].
  cbn [roots_loop flat_map]. rewrite pages_loop_app, collections_loop_pages.
  destruct (pages_loop false data _) as [[d|d]|e];
    simpl; [apply IH | done | done].
Qed.

Lemma pages_loop_raise (data : list json) (pre : list obj) (e : exn)
    (post : list (result obj)) :
  Forall good_bundle pre ->
  pages_loop false data (map Ok pre ++ Raise e :: post) = Raise e.
Proof.
  intros Hpre. revert data.
  induction Hpre as [|bundle pre Hgood _ IH]; intros data; [done|].
  cbn [map app pages_loop mbind result_bind].
  unfold good_bundle in Hgood.
  destruct (iter (get "objects" bundle)); [apply IH | discriminate].
Qed.

Lemma fetch_raises (self : Client) (type_ : string) (pre : list obj)
    (e : exn) (post : list (result obj)) :
  all_pages (server self) type_ = map Ok pre ++ Raise e :: post ->
  Forall good_bundle pre ->
  fetch_stix_objects_from_api self false type_ = Raise e.
Proof.
  intros Hpages Hpre. unfold fetch_stix_objects_from_api.
  rewrite roots_loop_pages. fold (all_pages (server self) type_).
  by rewrite Hpages, pages_loop_raise.
Qed.

Lemma fetch_server (self self' : Client) (test : bool) (type_ : string)
    (r : option (list json)) :
  fetch_stix_objects_from_api self test type_ = Ok (r, self') ->
  server self' = server self.
Proof.
  unfold fetch_stix_objects_from_api. intros H. inv_bind H.
  destruct x; by injection H as <- <-.
Qed.

Lemma fetch_raises_any (self self' : Client) (type_ : string) (e : exn) :
  server self' = server self ->
  fetch_stix_objects_from_api self false type_ = Raise e ->
  fetch_stix_objects_from_api self' false type_ = Raise e.
Proof.
  unfold fetch_stix_objects_from_api. intros -> H.
  destruct (roots_loop false type_ [] (api_roots (server self))) as [[d|d]|e'];
    simpl in *; congruence.
Qed.

Lemma get_stix_objects_raises (items_types : list string) (self : Client)
    (type_ : string) (e : exn) :
  In type_ items_types ->
  fetch_stix_objects_from_api self false type_ = Raise e ->
  exists e', get_stix_objects self false items_types = Raise e'.
Proof.
  revert self. induction items_types as [|t ts IH]; intros self Hin H; [done|].
  cbn [get_stix_objects].
  destruct (fetch_stix_objects_from_api self false t) as [[r self']|e'] eqn:Ht;
    [|by exists e'].
  cbn [mbind result_bind]. destruct Hin as [->|Hin]; [congruence|].
  apply (IH self' Hin). apply fetch_raises_any with (self := self); [|done].
  by apply fetch_server in Ht.
Qed.

End Unit42Requests.

(** C4, as the code has it.  In the MITRE client a query that raises is
    caught and its collection and type are skipped: [build_iterator]
    behaves as if the query had found no objects, so the failure is not
    surfaced; and the queries it sends are an initial part of the fixed
    plan, one per collection and filter, so none is sent again.  The
    Unit42 client catches nothing: once the pages before it were read, a
    page request that raises makes [fetch_stix_objects_from_api] raise
    the same exception, and [fetch_indicators], which fetches that type,
    raises too. *)
Theorem query_failures :
  (forall self limit,
      Mitre.build_iterator
        (with_collections self (map skip_failures (Mitre.collections self))) limit
      = Mitre.build_iterator self limit) /\
  (forall self limit st,
      Mitre.build_iterator_loops self limit = Ok st ->
      exists rest,
        Mitre.query_log st ++ rest = planned_queries (Mitre.collections self)) /\
  (forall self type_ pre e post,
      all_pages (Unit42.server self) type_ = map Ok pre ++ Raise e :: post ->
      Forall good_bundle pre ->
      Unit42.fetch_stix_objects_from_api self false type_ = Raise e /\
      (In type_ Unit42.item_types_to_fetch_from_api ->
       forall sdk_types sdk_table sdk_format feed_tags tlp_color create_relationships,
       exists e',
         Unit42.fetch_indicators sdk_types sdk_table sdk_format self
           feed_tags tlp_color create_relationships = Raise e')).
Proof.
  split; [|split].
  - intros self limit. unfold Mitre.build_iterator, Mitre.build_iterator_loops.
    cbn [Mitre.collections with_collections].
    by rewrite collections_loop_skip_failures.
  - intros self limit st H.
    apply collections_loop_log in H as [rest Hrest]. exists rest.
    by rewrite Hrest.
  - intros self type_ pre e post Hpages Hpre.
    pose proof (fetch_raises self type_ pre e post Hpages Hpre) as Hfetch.
    split; [done|]. intros Hin ? ? ? ? ? ?.
    destruct (get_stix_objects_raises _ self type_ e Hin Hfetch) as [e' He'].
    exists e'. unfold Unit42.fetch_indicators. by rewrite He'.
Qed.

Lemma query_failures_witness :
  Mitre.query Samples.enterprise (Mitre.mk_filter "type" "=" "tool")
    = Raise TransportError /\
  is_ok (Mitre.build_iterator Samples.mitre_client (-1)) = true /\
  Mitre.build_iterator
    (with_collections Samples.mitre_client
       (map skip_failures (Mitre.collections Samples.mitre_client))) (-1)
    = Mitre.build_iterator Samples.mitre_client (-1) /\
  (exists st,
     Mitre.build_iterator_loops Samples.mitre_client (-1) = Ok st /\
     Mitre.query_log st = planned_queries (Mitre.collections Samples.mitre_client)) /\
  (exists st rest,
     Mitre.build_iterator_loops Samples.mitre_client 1 = Ok st /\
     length (Mitre.query_log st) = 4 /\
     Mitre.query_log st ++ rest
       = planned_queries (Mitre.collections Samples.mitre_client)) /\
  Unit42.fetch_stix_objects_from_api Samples.failing_client false "report"
    = Raise TransportError /\
  (exists e,
     Unit42.fetch_indicators Samples.sdk_types Samples.sdk_table
       Samples.sdk_format Samples.failing_client ["feed"] None true = Raise e).
Proof.
  destruct query_failures as (Hskip & Hlog & Hraise).
  destruct (Hraise Samples.failing_client "report" [] TransportError []
              ltac:(vm_compute; reflexivity) ltac:(constructor))
    as [Hfetch Hindicators].
  split; [reflexivity|]. split; [vm_compute; reflexivity|].
  split; [exact (Hskip Samples.mitre_client (-1)%Z)|]. split; [|split; [|split]].
  - destruct (Mitre.build_iterator_loops Samples.mitre_client (-1)) as [st|e]
      eqn:Hst; [|vm_compute in Hst; discriminate].
    exists st. split; [reflexivity|].
    destruct (Hlog Samples.mitre_client (-1)%Z st Hst) as [rest Hrest].
    assert (length (Mitre.query_log st) = 12) as Hlen
      by (vm_compute in Hst; injection Hst as <-; reflexivity).
    apply (f_equal (@length _)) in Hrest as Hlengths.
    rewrite length_app, Hlen in Hlengths. vm_compute in Hlengths.
    destruct rest; [|discriminate]. by rewrite app_nil_r in Hrest.
  - destruct (Mitre.build_iterator_loops Samples.mitre_client 1) as [st|e]
      eqn:Hst; [|vm_compute in Hst; discriminate].
    destruct (Hlog Samples.mitre_client 1%Z st Hst) as [rest Hrest].
    exists st, rest. split; [reflexivity|]. split; [|exact Hrest].
    vm_compute in Hst. injection Hst as <-. reflexivity.
  - exact Hfetch.
  - apply Hindicators. vm_compute. tauto.
Defined.

(** C4, as the specification states it, fails for the Unit42 client: when the
    request for reports raises, [fetch_indicators] raises that exception
    to its caller, although the server has indicators to deliver. *)
Lemma unit42_failure_counterexample :
  Unit42.get_objects Samples.failing_collection "report"
    = [Raise TransportError] /\
  Unit42.get_objects Samples.failing_collection "indicator"
    = [Ok (Samples.bundle [Samples.unit42_indicator "indicator--1"
                             "[url:value = 'http://example.org/a']"])] /\
  Unit42.get_stix_objects Samples.failing_client false
    Unit42.item_types_to_fetch_from_api = Raise TransportError /\
  Unit42.fetch_indicators Samples.sdk_types Samples.sdk_table Samples.sdk_format
    Samples.failing_client [] None false = Raise TransportError.
Proof. repeat split; vm_compute; reflexivity. Qed.

(** ** Deduplication *)

Section Unit42Parse.
Import Unit42.

Variable FeedIndicatorType : CommonServer.FeedIndicatorType.
Variable feed_tags : list string.
Variable tlp_color : option string.

Lemma keys_loop_acc (o : obj) (pattern : json)
    (table : list (string * string)) (acc : list indicator) :
  keys_loop o pattern feed_tags tlp_color acc table =
  keys_loop o pattern feed_tags tlp_color [] table ≫= fun new => Ok (acc ++ new).
Proof.
  revert acc. induction table as [|[key demisto_type] table IH]; intros acc.
  - simpl. by rewrite app_nil_r.
  - cbn [keys_loop]. destruct (as_str pattern) as [p|e]; [|done].
    cbn [mbind result_bind]. destruct (starts_with _ p); [|apply IH].
    destruct (union_tags _ feed_tags) as [tags|e]; [|done].
    cbn [mbind result_bind]. rewrite IH. rewrite (IH ([] ++ _)).
    destruct (keys_loop o pattern feed_tags tlp_color [] table); simpl; [|done].
    by rewrite <- app_assoc.
Qed.

Lemma parse_indicators_loop_acc (objs : list json) (acc : list indicator) :
  parse_indicators_loop FeedIndicatorType objs feed_tags tlp_color acc =
  parse_indicators_loop FeedIndicatorType objs feed_tags tlp_color []
    ≫= fun new => Ok (acc ++ new).
Proof.
  revert acc. induction objs as [|o objs IH]; intros acc.
  - simpl. by rewrite app_nil_r.
  - cbn [parse_indicators_loop]. destruct (as_dict o) as [d|e]; [|done].
    cbn [mbind result_bind]. rewrite keys_loop_acc.
    destruct (keys_loop d _ feed_tags tlp_color [] _) as [new|e]; [|done].
    cbn [mbind result_bind]. rewrite IH. rewrite (IH new).
    destruct (parse_indicators_loop _ objs feed_tags tlp_color []); simpl; [|done].
    by rewrite app_assoc.
Qed.

Lemma parse_indicators_loop_app (a b : list json) (acc : list indicator) :
  parse_indicators_loop FeedIndicatorType (a ++ b) feed_tags tlp_color acc =
  parse_indicators_loop FeedIndicatorType a feed_tags tlp_color acc
    ≫= parse_indicators_loop FeedIndicatorType b feed_tags tlp_color.
Proof.
  revert acc. induction a as [|o a IH]; intros acc; [done|].
  cbn [app parse_indicators_loop]. destruct (as_dict o) as [d|e]; [|done].
  cbn [mbind result_bind].
  destruct (keys_loop d _ feed_tags tlp_color acc _) as [new|e]; [|done].
  apply IH.
Qed.

Lemma parse_indicators_app (a b : list json) :
  parse_indicators FeedIndicatorType (a ++ b) feed_tags tlp_color =
  parse_indicators FeedIndicatorType a feed_tags tlp_color ≫= fun x =>
  parse_indicators FeedIndicatorType b feed_tags tlp_color ≫= fun y =>
  Ok (x ++ y).
Proof.
  unfold parse_indicators. rewrite parse_indicators_loop_app.
  destruct (parse_indicators_loop _ a feed_tags tlp_color []) as [x|e]; [|done].
  cbn [mbind result_bind]. apply parse_indicators_loop_acc.
Qed.

End Unit42Parse.

Lemma mark_first_source_id (l : list Mitre.indicator) :
  map mitre_source_id (Mitre.mark_first l) = map mitre_source_id l.
Proof. by destruct l. Qed.

(** C1, as the code has it.  In the output of the MITRE [build_iterator]
    no two indicators come from objects with the same STIX [id] (not even
    from ids that Python takes for equal keys of a set).  The Unit42
    [parse_indicators] has no deduplication: the indicators of a list of
    objects are those of its first part followed by those of its second
    part, each computed on its own, so what was emitted before has no
    influence on what is emitted next. *)
Theorem indicator_ids_distinct :
  (forall self limit out,
      Mitre.build_iterator self limit = Ok out ->
      NoDup (map mitre_source_id out) /\
      NoDup (map (fun i => hash_key (mitre_source_id i)) out)) /\
  (forall sdk_types a b feed_tags tlp_color,
      Unit42.parse_indicators sdk_types (a ++ b) feed_tags tlp_color =
      Unit42.parse_indicators sdk_types a feed_tags tlp_color ≫= fun x =>
      Unit42.parse_indicators sdk_types b feed_tags tlp_color ≫= fun y =>
      Ok (x ++ y)).
Proof.
  split.
  - intros self limit out H. apply build_iterator_Ok in H as (st & Hst & ->).
    apply ids_distinct_inv in Hst as [Hnd _].
    assert (NoDup (map (fun i => hash_key (mitre_source_id i))
                     (Mitre.mark_first (Mitre.indicators st)))) as Hkeys.
    { rewrite <- (map_map mitre_source_id hash_key), mark_first_source_id.
      by rewrite map_map. }
    split; [|done].
    rewrite <- (map_map mitre_source_id hash_key) in Hkeys.
    by apply (NoDup_fmap_1 hash_key).
  - intros. apply parse_indicators_app.
Qed.

Lemma indicator_ids_distinct_witness :
  exists out,
    Mitre.build_iterator Samples.mitre_client (-1) = Ok out /\
    map mitre_source_id out =
      [JStr "malware--1"; JStr "malware--2"; JStr "tool--1"] /\
    NoDup (map mitre_source_id out).
Proof.
  eexists. split; [vm_compute; reflexivity|]. split; [reflexivity|].
  refine (proj1 (proj1 indicator_ids_distinct Samples.mitre_client (-1)%Z _ _)).
  vm_compute; reflexivity.
Defined.

(** C1, as the specification states it, fails for the Unit42 [parse_indicators]:
    from two objects with one id it emits two indicators with that id. *)
Lemma unit42_duplicates_counterexample :
  exists out,
    Unit42.parse_indicators Samples.sdk_types Samples.repeated_indicators [] None
      = Ok out /\
    map unit42_source_id out =
      [Some (JStr "indicator--1"); Some (JStr "indicator--1")] /\
    ~ NoDup (map unit42_source_id out).
Proof.
  eexists. split; [vm_compute; reflexivity|]. split; [reflexivity|].
  intros H. apply NoDup_cons in H as [Hin _]. apply Hin. by left.
Qed.

(** A pattern on [domain-name] starts with the key [domain] as well as
    with the key [domain-name], so its object is emitted twice. *)
Remark domain_name_emitted_twice :
  exists i,
    Unit42.parse_indicators Samples.sdk_types
      [JObj (Samples.unit42_indicator "indicator--1"
               "[domain-name:value = 'example.org']")] [] None
      = Ok [i; i] /\
    Unit42.type i = Some "Domain".
Proof. eexists. split; vm_compute; reflexivity. Qed.

(** ** Publications of the emitted indicators *)

Lemma external_references_set_labels (item : obj) (v : json) :
  external_references_of (dict_set "labels" v item) = external_references_of item.
Proof.
  unfold external_references_of, get_or. by rewrite assoc_dict_set_ne.
Qed.

(** C7.  The publications field of an indicator holds, for the entries of
    the object's [external_references] in their order, exactly those
    without an [external_id], each as the pair of [Link], its [url], and
    [Title], its [description]; an entry that has an [external_id] is left
    out.  This holds for the fields that the MITRE [map_fields_by_type]
    returns, for every indicator in the output of the MITRE
    [build_iterator], and for the indicators that the Unit42
    [create_attack_pattern_indicator] builds from the attack patterns. *)
Theorem publications_exclude_external_id :
  (forall t o fields,
      Mitre.map_fields_by_type t o = Ok fields -> publications_of o fields) /\
  (forall self limit out,
      Mitre.build_iterator self limit = Ok out ->
      Forall (fun i => publications_of (Mitre.rawJSON i) (Mitre.fields i)) out) /\
  (forall sdk_table client feed_tags tlp_color objs out,
      Unit42.objects_of client "attack-pattern" = Ok objs ->
      Unit42.create_attack_pattern_indicator sdk_table client feed_tags tlp_color
        = Ok out ->
      Forall2 (fun i o => exists a fields,
                 o = JObj a /\ Unit42.fields i = Some fields /\
                 publications_of a fields) out objs).
Proof.
  split; [|split].
  - apply mitre_map_fields_publications.
  - intros self limit out H. apply build_iterator_Ok in H as (st & Hst & ->).
    apply mark_first_Forall; [done|].
    apply (indicators_Forall self limit); [|done].
    intros t item i _ Hi.
    apply new_indicator_Ok in Hi as (f0 & labels & Hmap & _ & _ & Hraw & Hfields).
    apply mitre_map_fields_publications in Hmap as (rs & Hrefs & Hpubs).
    exists rs. rewrite Hraw, external_references_set_labels.
    split; [done|]. by rewrite Hfields.
  - intros sdk_table client feed_tags tlp_color objs out Hobjs H.
    unfold Unit42.create_attack_pattern_indicator in H.
    inv_bind H. inv_bind H. inv_bind H.
    assert (x1 = objs) as -> by congruence.
    apply attack_patterns_loop_publications in H as (new & -> & Hall).
    done.
Qed.

Lemma publications_exclude_external_id_witness :
  exists out fields,
    Mitre.build_iterator Samples.mitre_client (-1) = Ok out /\
    Mitre.map_fields_by_type (Some "STIX Malware")
      (Samples.stix_object "malware" "malware--1") = Ok fields /\
    assoc "publications" fields =
      Some (JList [JObj [("Link", JStr "https://example.org/report");
                         ("Title", JStr "A report")]]) /\
    publications_of (Samples.stix_object "malware" "malware--1") fields /\
    Forall (fun i => publications_of (Mitre.rawJSON i) (Mitre.fields i)) out /\
    exists patterns,
      Unit42.create_attack_pattern_indicator Samples.sdk_table
        Samples.attack_pattern_fetched [] None = Ok patterns /\
      Forall2 (fun i o => exists a fields,
                 o = JObj a /\ Unit42.fields i = Some fields /\
                 publications_of a fields)
        patterns [JObj (Samples.stix_object "attack-pattern" "attack-pattern--1")].
Proof.
  eexists _, _. split; [vm_compute; reflexivity|].
  split; [vm_compute; reflexivity|]. split; [reflexivity|].
  split; [|split]; cycle 2.
  - eexists. split; [vm_compute; reflexivity|].
    refine (proj2 (proj2 publications_exclude_external_id) Samples.sdk_table
              Samples.attack_pattern_fetched [] None _ _ _ _);
      vm_compute; reflexivity.
  - refine (proj1 publications_exclude_external_id (Some "STIX Malware")
              (Samples.stix_object "malware" "malware--1") _ _).
    vm_compute; reflexivity.
  - refine (proj1 (proj2 publications_exclude_external_id)
              Samples.mitre_client (-1)%Z _ _).
    vm_compute; reflexivity.
Defined.

(** ** Relationships *)

Lemma before_dashes_intrusion_set (rest : string) :
  before_dashes ("intrusion-set--" +:+ rest) = "intrusion-set".
Proof. reflexivity. Qed.

Section Unit42Relationships.
Import Unit42.
Import CommonServer.

Variable FeedIndicatorType : CommonServer.FeedIndicatorType.

Lemma entity_type_intrusion_set (rest : string) (id_to_object : gmap key obj) :
  entity_type FeedIndicatorType (JStr ("intrusion-set--" +:+ rest)) id_to_object
    = Ok None.
Proof.
  unfold entity_type. cbn [as_str mbind result_bind].
  by rewrite before_dashes_intrusion_set.
Qed.

Lemma relationships_loop_intrusion_set (objs : list json)
    (id_to_object : gmap key obj) (acc out : list EntityRelation) :
  relationships_loop FeedIndicatorType objs id_to_object acc = Ok out ->
  exists new,
    out = acc ++ new /\
    Forall2 (fun rel o => forall r rest,
               o = JObj r ->
               get "source_ref" r = JStr ("intrusion-set--" +:+ rest) ->
               entity_a rel = get "source_ref" r /\
               entity_a_type rel = None) new objs.
Proof.
  revert acc. induction objs as [|o objs IH]; intros acc H; simpl in H.
  - injection H as <-. exists []. rewrite app_nil_r. split; [done|constructor].
  - inv_bind H. inv_bind H. inv_bind H.
    apply IH in H as (new & -> & Hall).
    eexists (_ :: new). split; [by rewrite <- app_assoc|].
    constructor; [|done]. intros r rest -> Href.
    injection Hx as <-. rewrite Href, entity_type_intrusion_set in Hx0.
    injection Hx0 as <-. by rewrite Href.
Qed.

End Unit42Relationships.

(** C8, as the code has it.  For a relationship object whose
    [source_ref] begins with [intrusion-set--] (and whose [target_ref] is
    a string), the MITRE [create_relationship] builds a relation whose
    entity-A type is ["Intrusion Set"], the value that
    [MITRE_TYPE_TO_DEMISTO_TYPE] gives to [intrusion-set].  The table of
    the Unit42 [create_list_relationships] has no entry for
    [intrusion-set]: there the entity-A type of such a relationship is
    [None]. *)
Theorem relationship_intrusion_set_type :
  (forall item rest target,
      get "source_ref" item = JStr ("intrusion-set--" +:+ rest) ->
      get "target_ref" item = JStr target ->
      exists rel,
        Mitre.create_relationship item = Ok rel /\
        CommonServer.entity_a rel = get "source_ref" item /\
        CommonServer.entity_a_type rel
          = assoc "intrusion-set" Mitre.MITRE_TYPE_TO_DEMISTO_TYPE /\
        CommonServer.entity_a_type rel = Some "Intrusion Set") /\
  (forall sdk_types client id_to_object objs rels,
      Unit42.objects_of client "relationship" = Ok objs ->
      Unit42.create_list_relationships sdk_types client id_to_object = Ok rels ->
      Forall2 (fun rel o => forall r rest,
                 o = JObj r ->
                 get "source_ref" r = JStr ("intrusion-set--" +:+ rest) ->
                 CommonServer.entity_a rel = get "source_ref" r /\
                 CommonServer.entity_a_type rel = None) rels objs).
Proof.
  split.
  - intros item rest target Hsource Htarget.
    unfold Mitre.create_relationship. rewrite Hsource, Htarget.
    cbn [as_str mbind result_bind]. rewrite before_dashes_intrusion_set.
    eexists. split; [reflexivity|]. by cbn.
  - intros sdk_types client id_to_object objs rels Hobjs H.
    unfold Unit42.create_list_relationships in H. rewrite Hobjs in H.
    cbn [mbind result_bind] in H.
    by apply relationships_loop_intrusion_set in H as (new & -> & Hall).
Qed.

Lemma relationship_intrusion_set_type_witness :
  exists rel,
    Mitre.create_relationship
      (Samples.relationship_object "relationship--1" "intrusion-set--1" "malware--1")
      = Ok rel /\
    CommonServer.entity_a_type rel = Some "Intrusion Set".
Proof.
  destruct (proj1 relationship_intrusion_set_type
              (Samples.relationship_object "relationship--1" "intrusion-set--1" "malware--1")
              "1" "malware--1") as (rel & Hrel & _ & _ & Htype).
  - reflexivity.
  - reflexivity.
  - exists rel. split; assumption.
Defined.

(** C8, as the specification states it, fails for the Unit42 relationship builder:
    for a relationship whose [source_ref] is [intrusion-set--1] the
    entity-A type is [None], and the type table has no value for
    [intrusion-set]. *)
Lemma unit42_intrusion_set_counterexample :
  assoc "intrusion-set" Unit42.RELATIONS_TYPE_TO_DEMISTO_TYPES = None /\
  exists rel,
    Unit42.create_list_relationships Samples.sdk_types
      Samples.intrusion_set_relationship ∅ = Ok [rel] /\
    CommonServer.entity_a rel = JStr "intrusion-set--1" /\
    CommonServer.entity_a_type rel = None.
Proof.
  split; [reflexivity|]. eexists. split; [vm_compute; reflexivity|].
  split; reflexivity.
Qed.

(** ** The placeholder indicator of the Unit42 feed *)

Section Unit42Dummy.
Import Unit42.

Variable FeedIndicatorType : CommonServer.FeedIndicatorType.
Variable tableToMarkdown : string -> list obj -> list string -> string.
Variable format_value : json -> string.
Variable feed_tags : list string.
Variable tlp_color : option string.

Lemma keys_loop_no_relationships (o : obj) (pattern : json)
    (table : list (string * string)) (acc out : list indicator) :
  keys_loop o pattern feed_tags tlp_color acc table = Ok out ->
  Forall no_relationships acc -> Forall no_relationships out.
Proof.
  revert acc. induction table as [|[key demisto_type] table IH];
    intros acc H Hacc; cbn [keys_loop] in H.
  - by injection H as <-.
  - inv_bind H. destruct (starts_with _ x); [|by eapply IH].
    inv_bind H. eapply IH; [done|].
    apply Forall_app. split; [done|]. by repeat constructor.
Qed.

Lemma parse_indicators_no_relationships (objs : list json)
    (acc out : list indicator) :
  parse_indicators_loop FeedIndicatorType objs feed_tags tlp_color acc = Ok out ->
  Forall no_relationships acc -> Forall no_relationships out.
Proof.
  revert acc. induction objs as [|o objs IH]; intros acc H Hacc;
    cbn [parse_indicators_loop] in H.
  - by injection H as <-.
  - inv_bind H. inv_bind H. eapply IH; [done|].
    by eapply keys_loop_no_relationships.
Qed.

Lemma parse_reports_no_relationships (objs : list json)
    (acc out : list indicator) :
  parse_reports_loop format_value objs feed_tags tlp_color acc = Ok out ->
  Forall no_relationships acc -> Forall no_relationships out.
Proof.
  revert acc. induction objs as [|o objs IH]; intros acc H Hacc;
    cbn [parse_reports_loop] in H.
  - by injection H as <-.
  - inv_bind H. inv_bind H. eapply IH; [done|].
    apply Forall_app. split; [done|]. by repeat constructor.
Qed.

Lemma attack_patterns_no_relationships (objs : list json) (courses : obj)
    (acc out : list indicator) :
  attack_patterns_loop tableToMarkdown objs courses feed_tags tlp_color acc = Ok out ->
  Forall no_relationships acc -> Forall no_relationships out.
Proof.
  revert acc. induction objs as [|o objs IH]; intros acc H Hacc;
    cbn [attack_patterns_loop] in H.
  - by injection H as <-.
  - do 6 inv_bind H. eapply IH; [done|].
    apply Forall_app. split; [done|]. by repeat constructor.
Qed.

(** C9.  With relationship creation enabled, the output of the Unit42
    [fetch_indicators] is the parsed indicators, then one placeholder
    whose value is ["$$DummyIndicator$$"] and whose relationships are the
    whole list that [create_list_relationships] built, then the reports
    and the attack patterns.  No other indicator of the output carries
    relationships, so the placeholder is the only one that does. *)
Theorem relationships_on_dummy_indicator (client : Client)
    (out : list indicator) :
  fetch_indicators FeedIndicatorType tableToMarkdown format_value client
    feed_tags tlp_color true = Ok out ->
  exists fetched id_to_object list_relationships indicators others,
    get_stix_objects client false item_types_to_fetch_from_api = Ok fetched /\
    create_list_relationships FeedIndicatorType fetched id_to_object
      = Ok list_relationships /\
    out = indicators ++ [dummy_indicator list_relationships] ++ others /\
    Forall no_relationships indicators /\
    Forall no_relationships others /\
    length (List.filter (fun i => bool_decide (relationships i <> None)) out) = 1.
Proof.
  unfold fetch_indicators. intros H.
  inv_bind_as H fetched Hfetched.
  inv_bind_as H indicator_objects Hio. inv_bind_as H indicators Hindicators.
  inv_bind_as H report_objects Hro. inv_bind_as H reports Hreports.
  inv_bind_as H patterns Hpatterns.
  do 6 inv_bind H. inv_bind_as H id_to_object Hids.
  inv_bind_as H dummy Hdummy. inv_bind_as Hdummy list_relationships Hrels.
  injection Hdummy as <-. injection H as <-.
  assert (Forall no_relationships indicators) as Hind.
  { eapply parse_indicators_no_relationships; [done | constructor]. }
  assert (Forall no_relationships (reports ++ patterns)) as Hothers.
  { apply Forall_app. split.
    - eapply parse_reports_no_relationships; [done | constructor].
    - unfold create_attack_pattern_indicator in Hpatterns.
      do 3 inv_bind Hpatterns.
      eapply attack_patterns_no_relationships; [done | constructor]. }
  exists fetched, id_to_object, list_relationships, indicators, (reports ++ patterns).
  split; [done|]. split; [done|]. split; [by rewrite <- app_assoc|].
  split; [done|]. split; [done|].
  assert (forall l, Forall no_relationships l ->
            List.filter (fun i => bool_decide (relationships i <> None)) l = [])
    as Hnone.
  { intros l Hl. induction Hl as [|i l Hi _ IH]; [done|].
    cbn [List.filter]. unfold no_relationships in Hi. rewrite Hi.
    by rewrite bool_decide_eq_false_2 by (intros Hne; by apply Hne). }
  pose proof Hothers as Hboth. apply Forall_app in Hboth as [Hr Hp].
  rewrite !List.filter_app, (Hnone indicators), (Hnone reports),
    (Hnone patterns) by done.
  cbn [List.filter relationships app].
  by rewrite bool_decide_eq_true_2.
Qed.

End Unit42Dummy.

Lemma relationships_on_dummy_indicator_witness :
  exists out fetched id_to_object list_relationships indicators others,
    Unit42.fetch_indicators Samples.sdk_types Samples.sdk_table Samples.sdk_format
      Samples.unit42_client ["feed"] None true = Ok out /\
    length out = 5 /\
    Unit42.get_stix_objects Samples.unit42_client false
      Unit42.item_types_to_fetch_from_api = Ok fetched /\
    Unit42.create_list_relationships Samples.sdk_types fetched id_to_object
      = Ok list_relationships /\
    out = indicators ++ [dummy_indicator list_relationships] ++ others /\
    Forall no_relationships indicators /\
    Forall no_relationships others /\
    length (List.filter
              (fun i => bool_decide (Unit42.relationships i <> None)) out) = 1.
Proof.
  eexists.
  destruct (relationships_on_dummy_indicator Samples.sdk_types Samples.sdk_table
              Samples.sdk_format ["feed"] None Samples.unit42_client _
              ltac:(vm_compute; reflexivity))
    as (fetched & id_to_object & rels & indicators & others & H).
  exists fetched, id_to_object, rels, indicators, others.
  split; [vm_compute; reflexivity|]. split; [reflexivity|]. exact H.
Defined.

(** * Further properties *)

(** ** The limit of the MITRE [build_iterator] *)

Section MitreLimitPrefix.
Import Mitre.

Variable self : Client.

Lemma items_loop_limit_ext (l1 l2 : Z) (items : list obj) (st : state) :
  (forall c, limit_reached l1 c = limit_reached l2 c) ->
  items_loop self l1 st items = items_loop self l2 st items.
Proof.
  intros Hext. revert st. induction items as [|item items IH]; intros st; [done|].
  cbn [items_loop]. rewrite Hext.
  destruct (limit_reached l2 (counter st)); [done|].
  destruct (process_item self st item); simpl; [apply IH | done].
Qed.

Lemma concepts_loop_limit_ext (l1 l2 : Z) (c : Collection)
    (concepts : list (string * (string * Filter))) (st : state) :
  (forall c, limit_reached l1 c = limit_reached l2 c) ->
  concepts_loop self l1 c st concepts = concepts_loop self l2 c st concepts.
Proof.
  intros Hext. revert st.
  induction concepts as [|concept concepts IH]; intros st; [done|].
  cbn [concepts_loop]. rewrite Hext.
  destruct (limit_reached l2 (counter st)); [done|].
  destruct (query c (snd (snd concept))) as [items|e]; [|apply IH].
  rewrite (items_loop_limit_ext l1 l2) by done.
  destruct (items_loop self l2 _ items); simpl; [apply IH | done].
Qed.

Lemma collections_loop_limit_ext (l1 l2 : Z) (cols : list Collection)
    (st : state) :
  (forall c, limit_reached l1 c = limit_reached l2 c) ->
  collections_loop self l1 st cols = collections_loop self l2 st cols.
Proof.
  intros Hext. revert st. induction cols as [|c cols IH]; intros st; [done|].
  rewrite !collections_loop_cons, Hext.
  destruct (limit_reached l2 (counter st)); [done|].
  rewrite (concepts_loop_limit_ext l1 l2) by done.
  destruct (concepts_loop self l2 c st filter_objs); simpl; [apply IH | done].
Qed.

(** X1.  A limit that is zero or negative is no limit: with it
    [build_iterator] does what [fetch_indicators] does, which calls it
    with the default limit of -1, whether that is to return the
    indicators or to raise. *)
Theorem nonpositive_limit_is_no_limit (limit : Z) :
  (limit <= 0)%Z ->
  build_iterator self limit = MitreCommands.fetch_indicators self.
Proof.
  intros Hle. unfold MitreCommands.fetch_indicators, build_iterator,
    build_iterator_loops.
  rewrite (collections_loop_limit_ext limit (-1)); [done|].
  intros c. unfold limit_reached. lia.
Qed.

Lemma process_item_grows (st st' : state) (item : obj) :
  process_item self st item = Ok st' ->
  exists more, indicators st' = indicators st ++ more.
Proof.
  intros H.
  apply process_item_Ok in H
    as [->|[(k & rel & _ & _ & ->)|(k & t & i & _ & _ & _ & _ & ->)]]; simpl.
  - exists []. by rewrite app_nil_r.
  - exists []. by rewrite app_nil_r.
  - by exists [i].
Qed.

Lemma grows_step (limit : Z) (st0 : state) :
  forall st item st',
    (exists more, indicators st = indicators st0 ++ more) ->
    limit_reached limit (counter st) = false ->
    process_item self st item = Ok st' ->
    exists more, indicators st' = indicators st0 ++ more.
Proof.
  intros st item st' [m Hm] _ H. apply process_item_grows in H as [m' Hm'].
  exists (m ++ m'). by rewrite Hm', Hm, app_assoc.
Qed.

Lemma items_loop_grows (limit : Z) (items : list obj) (st st' : state) :
  items_loop self limit st items = Ok st' ->
  exists more, indicators st' = indicators st ++ more.
Proof.
  apply (items_loop_inv self limit
           (fun s => exists more, indicators s = indicators st ++ more)
           (grows_step limit st)).
  exists []. by rewrite app_nil_r.
Qed.

Lemma concepts_loop_grows (limit : Z) (c : Collection)
    (concepts : list (string * (string * Filter))) (st st' : state) :
  concepts_loop self limit c st concepts = Ok st' ->
  exists more, indicators st' = indicators st ++ more.
Proof.
  apply (concepts_loop_inv self limit
           (fun s => exists more, indicators s = indicators st ++ more)
           (grows_step limit st)); [by intros s c' f|].
  exists []. by rewrite app_nil_r.
Qed.

Lemma collections_loop_grows (limit : Z) (cols : list Collection)
    (st st' : state) :
  collections_loop self limit st cols = Ok st' ->
  exists more, indicators st' = indicators st ++ more.
Proof.
  apply (collections_loop_inv self limit
           (fun s => exists more, indicators s = indicators st ++ more)
           (grows_step limit st)); [by intros s c' f|].
  exists []. by rewrite app_nil_r.
Qed.

Variable L : Z.

Lemma limited_state_more (limited full full' : state) :
  limited_state L limited full ->
  limit_reached L (counter limited) = true ->
  (exists more, indicators full' = indicators full ++ more) ->
  limited_state L limited full'.
Proof.
  intros [->|[_ [m Hm]]] Hlim [m' Hm']; right; split; try done.
  - by exists m'.
  - exists (m ++ m'). by rewrite Hm', Hm, app_assoc.
Qed.

Lemma items_loop_limited (items : list obj) (limited full full' : state) :
  limited_state L limited full ->
  items_loop self (-1) full items = Ok full' ->
  exists limited',
    items_loop self L limited items = Ok limited' /\
    limited_state L limited' full'.
Proof.
  revert limited full. induction items as [|item items IH];
    intros limited full HR H.
  - injection H as <-. by exists limited.
  - destruct (limit_reached L (counter limited)) eqn:Hlim.
    + exists limited. cbn [items_loop]. rewrite Hlim. split; [done|].
      apply (limited_state_more _ full); [done|done|].
      by eapply items_loop_grows.
    + destruct HR as [->|[Hstop _]]; [|congruence].
      cbn [items_loop] in *. rewrite Hlim.
      change (limit_reached (-1) (counter full)) with false in H.
      inv_bind H. rewrite Hx. cbn [mbind result_bind].
      apply (IH x x); [by left | done].
Qed.

Lemma concepts_loop_limited (c : Collection)
    (concepts : list (string * (string * Filter)))
    (limited full full' : state) :
  limited_state L limited full ->
  concepts_loop self (-1) c full concepts = Ok full' ->
  exists limited',
    concepts_loop self L c limited concepts = Ok limited' /\
    limited_state L limited' full'.
Proof.
  revert limited full. induction concepts as [|concept concepts IH];
    intros limited full HR H.
  - injection H as <-. by exists limited.
  - destruct (limit_reached L (counter limited)) eqn:Hlim.
    + exists limited. cbn [concepts_loop]. rewrite Hlim. split; [done|].
      apply (limited_state_more _ full); [done|done|].
      by eapply concepts_loop_grows.
    + destruct HR as [->|[Hstop _]]; [|congruence].
      cbn [concepts_loop] in *. rewrite Hlim.
      change (limit_reached (-1) (counter full)) with false in H.
      cbn iota in H.
      destruct (query c (snd (snd concept))) as [items|e].
      * inv_bind H.
        destruct (items_loop_limited items _ _ x (or_introl eq_refl) Hx)
          as (limited1 & Hl1 & HR1).
        rewrite Hl1. cbn [mbind result_bind]. by apply (IH limited1 x).
      * apply (IH _ _ (or_introl eq_refl) H).
Qed.

Lemma collections_loop_limited (cols : list Collection)
    (limited full full' : state) :
  limited_state L limited full ->
  collections_loop self (-1) full cols = Ok full' ->
  exists limited',
    collections_loop self L limited cols = Ok limited' /\
    limited_state L limited' full'.
Proof.
  revert limited full. induction cols as [|c cols IH]; intros limited full HR H.
  - injection H as <-. by exists limited.
  - destruct (limit_reached L (counter limited)) eqn:Hlim.
    + exists limited. rewrite collections_loop_cons, Hlim. split; [done|].
      apply (limited_state_more _ full); [done|done|].
      by eapply collections_loop_grows.
    + destruct HR as [->|[Hstop _]]; [|congruence].
      rewrite collections_loop_cons in H |- *. rewrite Hlim.
      change (limit_reached (-1) (counter full)) with false in H.
      cbn iota in H. inv_bind H.
      destruct (concepts_loop_limited c filter_objs _ _ x (or_introl eq_refl) Hx)
        as (limited1 & Hl1 & HR1).
      rewrite Hl1. cbn [mbind result_bind]. by apply (IH limited1 x).
Qed.

Lemma mark_first_take (n : nat) (l : list indicator) :
  mark_first (take (S n) l) = take (S n) (mark_first l).
Proof. by destruct l. Qed.

(** X2.  When the fetch without a limit returns, the fetch with a
    positive limit [L] returns too, and what it returns is the first [L]
    indicators of the full output, in the same order. *)
Theorem limit_takes_prefix (out : list indicator) :
  (0 < L)%Z ->
  build_iterator self (-1) = Ok out ->
  build_iterator self L = Ok (take (Z.to_nat L) out).
Proof.
  intros Hpos H. apply build_iterator_Ok in H as (full & Hfull & ->).
  destruct (collections_loop_limited (collections self) initial_state
              initial_state full (or_introl eq_refl) Hfull)
    as (limited & Hlimited & HR).
  unfold build_iterator. unfold build_iterator_loops. rewrite Hlimited.
  cbn [mbind result_bind]. f_equal.
  pose proof (counter_counts_indicators self L limited Hlimited) as Hcount.
  pose proof (counter_within_limit self L limited Hpos Hlimited) as Hle.
  replace (Z.to_nat L) with (S (Z.to_nat L - 1)) by lia.
  rewrite <- mark_first_take. f_equal.
  replace (S (Z.to_nat L - 1)) with (Z.to_nat L) by lia.
  destruct HR as [->|[Hstop [more Hmore]]].
  - rewrite take_ge; [done | lia].
  - rewrite Hmore. unfold limit_reached in Hstop.
    rewrite take_app_length'; [done | lia].
Qed.

End MitreLimitPrefix.

Lemma nonpositive_limit_is_no_limit_witness :
  Mitre.build_iterator Samples.mitre_client 0
    = MitreCommands.fetch_indicators Samples.mitre_client /\
  is_ok (Mitre.build_iterator Samples.mitre_client 0) = true.
Proof.
  split.
  - apply (nonpositive_limit_is_no_limit Samples.mitre_client 0). lia.
  - vm_compute; reflexivity.
Defined.

Lemma limit_takes_prefix_witness :
  exists out,
    Mitre.build_iterator Samples.mitre_client (-1) = Ok out /\
    length out = 3 /\
    Mitre.build_iterator Samples.mitre_client 2 = Ok (take 2 out).
Proof.
  eexists. split; [vm_compute; reflexivity|]. split; [reflexivity|].
  refine (limit_takes_prefix Samples.mitre_client 2 _ _ _).
  - lia.
  - vm_compute; reflexivity.
Defined.

(** ** What the MITRE indicators hold *)

Section MitreFields.
Import Mitre.

Lemma process_item_typed (self : Client) (st st' : state) (item : obj) :
  process_item self st item = Ok st' ->
  st' = st \/
  (exists k rel,
      st' = mk_state (indicators st) (mitre_id_list st ∪ {[k]})
              (relationships_list st ++ [rel]) (counter st) (query_log st)) \/
  (exists k i,
      is_indicator_deprecated_or_revoked item = false /\
      new_indicator self (indicator_type_of item) item = Ok i /\
      st' = mk_state (indicators st ++ [i]) (mitre_id_list st ∪ {[k]})
              (relationships_list st) (counter st + 1) (query_log st)).
Proof.
  unfold process_item. intros H. inv_bind H.
  destruct (decide (x ∈ mitre_id_list st)) as [|Hnew].
  { left. by injection H as <-. }
  inv_bind H.
  assert (match x0 with
          | KStr t => assoc t MITRE_TYPE_TO_DEMISTO_TYPE
          | _ => None
          end = indicator_type_of item) as Ht.
  { unfold indicator_type_of.
    destruct (get "type" item); simpl in Hx0; try discriminate;
      by injection Hx0 as <-. }
  rewrite Ht in H.
  destruct (decide (indicator_type_of item = Some "Relationship")).
  - destruct (json_eqb_str _ _).
    + left. by injection H as <-.
    + inv_bind H. right; left. exists x, x1. by injection H as <-.
  - destruct (is_indicator_deprecated_or_revoked item) eqn:Hdep.
    + left. by injection H as <-.
    + inv_bind H. right; right. exists x, x1. by injection H as <-.
Qed.

Lemma indicators_Forall_typed (self : Client) (limit : Z)
    (Q : indicator -> Prop) (st : state) :
  (forall item i,
      is_indicator_deprecated_or_revoked item = false ->
      new_indicator self (indicator_type_of item) item = Ok i -> Q i) ->
  build_iterator_loops self limit = Ok st ->
  Forall Q (indicators st).
Proof.
  intros HQ.
  apply build_iterator_loops_inv with (P := fun st => Forall Q (indicators st)).
  - intros s item s' HP _ H.
    apply process_item_typed in H
      as [->|[(k & rel & ->)|(k & i & Hdep & Hi & ->)]]; simpl; [done|done|].
    apply Forall_app. split; [done|]. repeat constructor. eauto.
  - by intros s c f.
  - constructor.
Qed.

(** The exact result of [new_indicator]. *)
Lemma new_indicator_shape (self : Client) (t : option string) (item : obj)
    (i : indicator) :
  new_indicator self t item = Ok i ->
  exists fields0 labels,
    map_fields_by_type t item = Ok fields0 /\
    assoc "tags" fields0 = Some (JList labels) /\
    i = mk_indicator (get "name" item)
          (t ≫= fun t => assoc t INDICATOR_TYPE_TO_SCORE) t
          (dict_set "labels" (JList (labels ++ [str_list (tags self)])) item)
          (match tlp_color self with
           | Some color =>
               if truthy (JStr color)
               then dict_set "trafficlightprotocol" (JStr color)
                      (dict_set "tags"
                         (JList (labels ++ [str_list (tags self)])) fields0)
               else dict_set "tags"
                      (JList (labels ++ [str_list (tags self)])) fields0
           | None =>
               dict_set "tags" (JList (labels ++ [str_list (tags self)])) fields0
           end)
          None.
Proof.
  unfold new_indicator. intros H. inv_bind H.
  destruct (assoc "tags" x) as [[| | | |labels|]|] eqn:Htags; try discriminate.
  exists x, labels. split; [done|]. split; [done|].
  injection H as <-. by destruct (tlp_color self).
Qed.

(** The entries of the fields that [map_fields_by_type] returns. *)
Lemma map_fields_entries (t : option string) (item fields0 : obj) :
  map_fields_by_type t item = Ok fields0 ->
  exists created modified platforms,
    handle_multiple_dates_in_one_field "created" (get "created" item) = Ok created /\
    handle_multiple_dates_in_one_field "modified" (get "modified" item) = Ok modified /\
    join "," (get "x_mitre_platforms" item) = Ok platforms /\
    assoc "stixid" fields0 = Some (get "id" item) /\
    assoc "firstseenbysource" fields0 = Some (JStr created) /\
    assoc "modified" fields0 = Some (JStr modified) /\
    assoc "description" fields0 = Some (get "description" item) /\
    assoc "trafficlightprotocol" fields0 = None /\
    (t = Some "STIX Malware" \/ t = Some "STIX Tool" ->
     assoc "tags" fields0 = Some (get "labels" item) /\
     assoc "aliases" fields0 = Some (get "x_mitre_aliases" item) /\
     assoc "operatingsystemrefs" fields0 = Some (JStr platforms)).
Proof.
  unfold map_fields_by_type. intros H.
  inv_bind_as H created Hcreated. inv_bind_as H modified Hmodified.
  inv_bind_as H platforms Hplatforms. inv_bind H. inv_bind H.
  exists created, modified, platforms. do 3 (split; [done|]).
  destruct t as [t|]; [|discriminate]. simpl in H.
  destruct (String.eqb_spec t "STIX Attack Pattern") as [->|_].
  { injection H as <-. do 5 (split; [reflexivity|]).
    intros [?|?]; discriminate. }
  destruct (String.eqb_spec t "Intrusion Set") as [->|_].
  { injection H as <-. do 5 (split; [reflexivity|]).
    intros [?|?]; discriminate. }
  destruct (String.eqb_spec t "STIX Malware") as [->|_].
  { injection H as <-. do 5 (split; [reflexivity|]).
    intros _. repeat split; reflexivity. }
  destruct (String.eqb_spec t "STIX Tool") as [->|_].
  { injection H as <-. do 5 (split; [reflexivity|]).
    intros _. repeat split; reflexivity. }
  discriminate.
Qed.

Lemma stamped_other (self : Client) (v : json) (fields0 : obj) (k : string) :
  k <> "tags" -> k <> "trafficlightprotocol" ->
  assoc k
    (match tlp_color self with
     | Some color =>
         if truthy (JStr color)
         then dict_set "trafficlightprotocol" (JStr color)
                (dict_set "tags" v fields0)
         else dict_set "tags" v fields0
     | None => dict_set "tags" v fields0
     end) = assoc k fields0.
Proof.
  intros Hk1 Hk2.
  destruct (tlp_color self) as [c|];
    [match goal with |- context [if ?b then _ else _] => destruct b end|].
  - rewrite assoc_dict_set_ne; [|done]. by apply assoc_dict_set_ne.
  - by apply assoc_dict_set_ne.
  - by apply assoc_dict_set_ne.
Qed.

Lemma stamped_tags (self : Client) (v : json) (fields0 : obj) :
  assoc "tags"
    (match tlp_color self with
     | Some color =>
         if truthy (JStr color)
         then dict_set "trafficlightprotocol" (JStr color)
                (dict_set "tags" v fields0)
         else dict_set "tags" v fields0
     | None => dict_set "tags" v fields0
     end) = Some v.
Proof.
  destruct (tlp_color self) as [c|];
    [match goal with |- context [if ?b then _ else _] => destruct b end|].
  - rewrite assoc_dict_set_ne; [|done]. apply assoc_dict_set_eq.
  - apply assoc_dict_set_eq.
  - apply assoc_dict_set_eq.
Qed.

Lemma stamped_tlp (self : Client) (v : json) (fields0 : obj) :
  assoc "trafficlightprotocol" fields0 = None ->
  assoc "trafficlightprotocol"
    (match tlp_color self with
     | Some color =>
         if truthy (JStr color)
         then dict_set "trafficlightprotocol" (JStr color)
                (dict_set "tags" v fields0)
         else dict_set "tags" v fields0
     | None => dict_set "tags" v fields0
     end) = configured_tlp self.
Proof.
  intros Hnone. unfold configured_tlp.
  destruct (tlp_color self) as [c|];
    [match goal with |- context [if ?b then _ else _] => destruct b end|].
  - apply assoc_dict_set_eq.
  - by rewrite assoc_dict_set_ne.
  - by rewrite assoc_dict_set_ne.
Qed.

Lemma new_indicator_malware_or_tool (self : Client) (t : option string)
    (item : obj) (i : indicator) :
  new_indicator self t item = Ok i ->
  t = Some "STIX Malware" \/ t = Some "STIX Tool".
Proof.
  intros H. apply new_indicator_Ok in H as (f0 & labels & Hmap & Htags & _).
  by eapply map_fields_tags.
Qed.

(** X3.  Every indicator that the MITRE [build_iterator] returns is the
    normalisation of the raw object it carries: its value is the name,
    its type the image of the STIX type, and its fields hold the id as
    [stixid], the description, the aliases of [x_mitre_aliases], the
    earliest [created] date as [firstseenbysource], the latest [modified]
    date as [modified], and the platforms joined by commas as
    [operatingsystemrefs]. *)
Theorem emitted_indicators_normalised (self : Client) (limit : Z)
    (out : list indicator) :
  build_iterator self limit = Ok out -> Forall normalised out.
Proof.
  intros H. apply build_iterator_Ok in H as (st & Hst & ->).
  apply mark_first_Forall; [done|].
  apply (indicators_Forall_typed self limit); [|done].
  intros item i _ Hi.
  pose proof (new_indicator_malware_or_tool _ _ _ _ Hi) as Hty.
  apply new_indicator_shape in Hi as (f0 & labels & Hmap & Htags & ->).
  apply map_fields_entries in Hmap
    as (created & modified & platforms & Hc & Hm & Hp & Hid & Hfirst & Hmod
        & Hdesc & _ & Hby).
  destruct (Hby Hty) as (_ & Haliases & Hos).
  unfold normalised. cbn [value type rawJSON fields].
  rewrite !get_dict_set_ne by done. rewrite !stamped_other by done.
  unfold indicator_type_of. rewrite get_dict_set_ne by done.
  repeat split; try done; eauto.
Qed.

Lemma emitted_indicators_normalised_witness :
  exists out,
    build_iterator Samples.mitre_client (-1) = Ok out /\
    map (fun i => assoc "operatingsystemrefs" (fields i)) out
      = [Some (JStr "Linux,Windows"); Some (JStr "Linux,Windows");
         Some (JStr "Linux,Windows")] /\
    map (fun i => assoc "modified" (fields i)) out
      = [Some (JStr "2020-01-01T00:00:00.000Z");
         Some (JStr "2020-01-01T00:00:00.000Z");
         Some (JStr "2020-01-01T00:00:00.000Z")] /\
    Forall normalised out.
Proof.
  eexists. split; [vm_compute; reflexivity|].
  split; [reflexivity|]. split; [reflexivity|].
  apply (emitted_indicators_normalised Samples.mitre_client (-1)).
  vm_compute; reflexivity.
Defined.

(** X4.  In every indicator that the MITRE [build_iterator] returns, the
    [tags] field and the [labels] of the raw object are one and the same
    list: the labels the object came with, followed by a single item that
    is the whole list of feed tags.  The feed tags are thus nested, not
    merged, and the raw object is changed by it. *)
Theorem tags_are_labels_with_nested_feed_tags (self : Client) (limit : Z)
    (out : list indicator) :
  build_iterator self limit = Ok out ->
  Forall (fun i => exists labels,
            get "labels" (rawJSON i)
              = JList (labels ++ [str_list (tags self)]) /\
            assoc "tags" (fields i) = Some (get "labels" (rawJSON i))) out.
Proof.
  intros H. apply build_iterator_Ok in H as (st & Hst & ->).
  apply mark_first_Forall; [done|].
  apply (indicators_Forall_typed self limit); [|done].
  intros item i _ Hi.
  apply new_indicator_shape in Hi as (f0 & labels & Hmap & Htags & ->).
  exists labels. cbn [rawJSON fields]. rewrite stamped_tags.
  unfold get. by rewrite assoc_dict_set_eq.
Qed.

Lemma tags_are_labels_with_nested_feed_tags_witness :
  exists out,
    build_iterator Samples.mitre_client (-1) = Ok out /\
    map (fun i => assoc "tags" (fields i)) out
      = [Some (JList [JStr "malware"; JList [JStr "feed"]]);
         Some (JList [JStr "malware"; JList [JStr "feed"]]);
         Some (JList [JStr "tool"; JList [JStr "feed"]])] /\
    Forall (fun i => exists labels,
              get "labels" (rawJSON i)
                = JList (labels ++ [str_list (tags Samples.mitre_client)]) /\
              assoc "tags" (fields i) = Some (get "labels" (rawJSON i))) out.
Proof.
  eexists. split; [vm_compute; reflexivity|]. split; [reflexivity|].
  apply (tags_are_labels_with_nested_feed_tags Samples.mitre_client (-1)).
  vm_compute; reflexivity.
Defined.

(** X5.  Every indicator that the MITRE [build_iterator] returns has the
    configured TLP color as its [trafficlightprotocol] field, and has no
    such field when no color, or the empty one, is configured. *)
Theorem tlp_color_stamped (self : Client) (limit : Z) (out : list indicator) :
  build_iterator self limit = Ok out ->
  Forall (fun i => assoc "trafficlightprotocol" (fields i) = configured_tlp self)
    out.
Proof.
  intros H. apply build_iterator_Ok in H as (st & Hst & ->).
  apply mark_first_Forall; [done|].
  apply (indicators_Forall_typed self limit); [|done].
  intros item i _ Hi.
  apply new_indicator_shape in Hi as (f0 & labels & Hmap & Htags & ->).
  apply map_fields_entries in Hmap as (c & m & p & _ & _ & _ & _ & _ & _ & _ & Hnone & _).
  cbn [fields]. by apply stamped_tlp.
Qed.

Lemma tlp_color_stamped_witness :
  exists out,
    build_iterator Samples.mitre_client 1 = Ok out /\
    map (fun i => assoc "trafficlightprotocol" (fields i)) out
      = [Some (JStr "AMBER")] /\
    exists out',
      build_iterator Samples.deprecated_first 1 = Ok out' /\
      Forall (fun i => assoc "trafficlightprotocol" (fields i) = None) out'.
Proof.
  eexists. split; [vm_compute; reflexivity|]. split; [reflexivity|].
  eexists. split; [vm_compute; reflexivity|].
  apply (tlp_color_stamped Samples.deprecated_first 1).
  vm_compute; reflexivity.
Defined.

(** X6.  No indicator that the MITRE [build_iterator] returns has a
    score: the types it can emit are ["STIX Malware"] and ["STIX Tool"],
    and [INDICATOR_TYPE_TO_SCORE] has no entry under these names (its
    keys for them are ["Malware"] and ["Tool"]). *)
Theorem emitted_indicators_have_no_score (self : Client) (limit : Z)
    (out : list indicator) :
  build_iterator self limit = Ok out ->
  Forall (fun i => score i = None) out.
Proof.
  intros H. apply build_iterator_Ok in H as (st & Hst & ->).
  apply mark_first_Forall; [done|].
  apply (indicators_Forall_typed self limit); [|done].
  intros item i _ Hi.
  pose proof (new_indicator_malware_or_tool _ _ _ _ Hi) as Hty.
  apply new_indicator_shape in Hi as (f0 & labels & _ & _ & ->).
  cbn [score]. by destruct Hty as [->| ->].
Qed.

Lemma emitted_indicators_have_no_score_witness :
  exists out,
    build_iterator Samples.mitre_client (-1) = Ok out /\
    length out = 3 /\
    Forall (fun i => score i = None) out.
Proof.
  eexists. split; [vm_compute; reflexivity|]. split; [reflexivity|].
  apply (emitted_indicators_have_no_score Samples.mitre_client (-1)).
  vm_compute; reflexivity.
Defined.

(** X7.  The relationships that [build_iterator] builds are not in its
    output.  When the output is not empty, its first indicator carries
    the list of the one string ['relationships_list'] under
    [relationships], and no other indicator has that key. *)
Theorem relationships_are_a_placeholder (self : Client) (limit : Z)
    (out : list indicator) :
  build_iterator self limit = Ok out ->
  match out with
  | [] => True
  | first :: others =>
      relationships first = Some ["relationships_list"] /\
      Forall (fun i => relationships i = None) others
  end.
Proof.
  intros H. apply build_iterator_Ok in H as (st & Hst & ->).
  assert (Forall (fun i => relationships i = None) (indicators st)) as Hall.
  { apply (indicators_Forall_typed self limit); [|done].
    intros item i _ Hi.
    by apply new_indicator_shape in Hi as (f0 & labels & _ & _ & ->). }
  destruct Hall as [|i l Hi Hl]; simpl; [done|]. by split.
Qed.

Lemma relationships_are_a_placeholder_witness :
  exists first others,
    build_iterator Samples.mitre_client (-1) = Ok (first :: others) /\
    relationships first = Some ["relationships_list"] /\
    Forall (fun i => relationships i = None) others.
Proof.
  eexists _, _. split; [vm_compute; reflexivity|].
  refine (relationships_are_a_placeholder Samples.mitre_client (-1) (_ :: _) _).
  vm_compute; reflexivity.
Defined.

End MitreFields.

(** ** Folding of dates *)

Section DateFolding.
Import Datetime.

Lemma lex_ltb_irrefl (a : list Z) : lex_ltb a a = false.
Proof.
  induction a as [|x a IH]; [done|]. simpl. rewrite IH.
  rewrite Z.ltb_irrefl. by rewrite andb_false_r.
Qed.

Lemma lex_ltb_trans (a b c : list Z) :
  lex_ltb a b = true -> lex_ltb b c = true -> lex_ltb a c = true.
Proof.
  revert b c. induction a as [|x a IH]; intros [|y b] [|z c]; simpl; try done.
  intros Hab Hbc.
  apply orb_true_iff in Hab as [Hab|Hab]; apply orb_true_iff in Hbc as [Hbc|Hbc];
    apply orb_true_iff.
  - left. lia.
  - apply andb_true_iff in Hbc as [Hbc _]. left. lia.
  - apply andb_true_iff in Hab as [Hab _]. left. lia.
  - apply andb_true_iff in Hab as [Hab Hab'].
    apply andb_true_iff in Hbc as [Hbc Hbc'].
    right. apply andb_true_iff. split; [lia | by eapply IH].
Qed.

Lemma ltb_irrefl (d : datetime) : ltb d d = false.
Proof. apply lex_ltb_irrefl. Qed.

Lemma ltb_trans (a b c : datetime) :
  ltb a b = true -> ltb b c = true -> ltb a c = true.
Proof. apply lex_ltb_trans. Qed.

Lemma fold_min (l seen : list datetime) (best : datetime) :
  In best seen ->
  (forall x, In x seen -> ltb x best = false) ->
  let m := fold_left (fun best x => if ltb x best then x else best) l best in
  In m (seen ++ l) /\ forall x, In x (seen ++ l) -> ltb x m = false.
Proof.
  revert seen best. induction l as [|x l IH]; intros seen best Hin Hmin.
  - simpl. rewrite app_nil_r. by split.
  - cbn [fold_left]. replace (seen ++ x :: l) with ((seen ++ [x]) ++ l)
      by by rewrite <- app_assoc.
    apply IH.
    + destruct (ltb x best); apply in_app_iff; [right; by left | by left].
    + intros y Hy. apply in_app_iff in Hy as [Hy|[<-|[]]].
      * destruct (ltb x best) eqn:Hx; [|by apply Hmin].
        destruct (ltb y x) eqn:Hyx; [|done].
        rewrite <- (Hmin y Hy). symmetry. by eapply ltb_trans.
      * destruct (ltb x best) eqn:Hx; [apply ltb_irrefl | done].
Qed.

Lemma fold_max (l seen : list datetime) (best : datetime) :
  In best seen ->
  (forall x, In x seen -> ltb best x = false) ->
  let m := fold_left (fun best x => if ltb best x then x else best) l best in
  In m (seen ++ l) /\ forall x, In x (seen ++ l) -> ltb m x = false.
Proof.
  revert seen best. induction l as [|x l IH]; intros seen best Hin Hmax.
  - simpl. rewrite app_nil_r. by split.
  - cbn [fold_left]. replace (seen ++ x :: l) with ((seen ++ [x]) ++ l)
      by by rewrite <- app_assoc.
    apply IH.
    + destruct (ltb best x); apply in_app_iff; [right; by left | by left].
    + intros y Hy. apply in_app_iff in Hy as [Hy|[<-|[]]].
      * destruct (ltb best x) eqn:Hx; [|by apply Hmax].
        destruct (ltb x y) eqn:Hxy; [|done].
        rewrite <- (Hmax y Hy). symmetry. by eapply ltb_trans.
      * destruct (ltb best x) eqn:Hx; [apply ltb_irrefl | done].
Qed.

Lemma min_of_spec (l : list datetime) (d : datetime) :
  min_of l = Ok d -> In d l /\ forall x, In x l -> ltb x d = false.
Proof.
  destruct l as [|d0 l]; [discriminate|]. intros H. injection H as <-.
  apply (fold_min l [d0] d0); [by left|].
  intros x [<-|[]]. apply ltb_irrefl.
Qed.

Lemma max_of_spec (l : list datetime) (d : datetime) :
  max_of l = Ok d -> In d l /\ forall x, In x l -> ltb d x = false.
Proof.
  destruct l as [|d0 l]; [discriminate|]. intros H. injection H as <-.
  apply (fold_max l [d0] d0); [by left|].
  intros x [<-|[]]. apply ltb_irrefl.
Qed.

(** X8.  Whatever the number and the order of the lines of a timestamp
    field, [handle_multiple_dates_in_one_field] returns for ['created']
    the text of a date of the field that none of its dates precedes, and
    for any other field name, ['modified'] among them, the text of a date
    of the field that precedes none of them; so the first is never later
    than the second.  The Unit42 copy of the function returns the same as
    the MITRE one. *)
Theorem dates_fold_to_earliest_and_latest (other : string) (v : json)
    (created modified : string) :
  other <> "created" ->
  Mitre.handle_multiple_dates_in_one_field "created" v = Ok created ->
  Mitre.handle_multiple_dates_in_one_field other v = Ok modified ->
  (exists s dates earliest latest,
      v = JStr s /\
      mapM strptime (splitlines s) = Ok dates /\
      In earliest dates /\ In latest dates /\
      (forall d, In d dates -> ltb d earliest = false /\ ltb latest d = false) /\
      created = format_ms earliest /\
      modified = format_ms latest) /\
  Unit42.handle_multiple_dates_in_one_field "created" v = Ok created /\
  Unit42.handle_multiple_dates_in_one_field other v = Ok modified.
Proof.
  intros Hother Hc Hm. split; [|by split].
  apply String.eqb_neq in Hother.
  unfold Mitre.handle_multiple_dates_in_one_field in Hc, Hm.
  inv_bind_as Hc s Hs. inv_bind_as Hc dates Hdates. simpl in Hc.
  inv_bind_as Hc earliest Hmin. injection Hc as <-.
  rewrite Hs in Hm. cbn [mbind result_bind] in Hm. rewrite Hdates in Hm.
  cbn [mbind result_bind] in Hm. rewrite Hother in Hm.
  inv_bind_as Hm latest Hmax. injection Hm as <-.
  apply min_of_spec in Hmin as [Hin1 Hmin]. apply max_of_spec in Hmax as [Hin2 Hmax].
  exists s, dates, earliest, latest.
  split; [destruct v; try discriminate; by injection Hs as ->|].
  repeat split; auto.
Qed.

Lemma dates_fold_to_earliest_and_latest_witness :
  (exists s dates earliest latest,
     JStr Samples.two_dates = JStr s /\
     mapM strptime (splitlines s) = Ok dates /\
     In earliest dates /\ In latest dates /\
     (forall d, In d dates -> ltb d earliest = false /\ ltb latest d = false) /\
     "2019-01-01T00:00:00.000Z" = format_ms earliest /\
     "2020-01-01T00:00:00.000Z" = format_ms latest) /\
  Unit42.handle_multiple_dates_in_one_field "published" (JStr Samples.two_dates)
    = Ok "2020-01-01T00:00:00.000Z".
Proof.
  split.
  - refine (proj1 (dates_fold_to_earliest_and_latest "modified"
                     (JStr Samples.two_dates)
                     "2019-01-01T00:00:00.000Z" "2020-01-01T00:00:00.000Z" _ _ _));
      [discriminate | vm_compute; reflexivity | vm_compute; reflexivity].
  - refine (proj2 (proj2 (dates_fold_to_earliest_and_latest "published"
                            (JStr Samples.two_dates)
                            "2019-01-01T00:00:00.000Z" "2020-01-01T00:00:00.000Z"
                            _ _ _)));
      [discriminate | vm_compute; reflexivity | vm_compute; reflexivity].
Defined.

Lemma strptime_Some (l : string) (d : datetime) :
  parse l = Some d -> strptime l = Ok d.
Proof. unfold strptime. by intros ->. Qed.

Lemma strptime_None (l : string) :
  parse l = None -> strptime l = Raise ValueError.
Proof. unfold strptime. by intros ->. Qed.

Lemma mapM_strptime_Ok (lines : list string) :
  Forall (fun l => parse l <> None) lines ->
  exists dates, mapM strptime lines = Ok dates /\ length dates = length lines.
Proof.
  induction 1 as [|l lines Hl _ [dates [IH Hlen]]]; [by exists []|].
  destruct (parse l) as [d|] eqn:Hd; [|done].
  exists (d :: dates). cbn [mapM]. rewrite (strptime_Some l d Hd), IH. simpl.
  by rewrite Hlen.
Qed.

Lemma mapM_strptime_Raise (lines : list string) :
  Exists (fun l => parse l = None) lines ->
  mapM strptime lines = Raise ValueError.
Proof.
  induction 1 as [l lines Hl|l lines _ IH]; cbn [mapM].
  - by rewrite (strptime_None l Hl).
  - destruct (parse l) as [d|] eqn:Hd.
    + by rewrite (strptime_Some l d Hd), IH.
    + by rewrite (strptime_None l Hd).
Qed.

(** X9.  When [handle_multiple_dates_in_one_field] fails, in either copy:
    a value that is not a string ([None] for an absent field) raises
    [AttributeError]; a string without any line, or with a line that
    [strptime] does not accept, raises [ValueError].  Otherwise, that is
    for a string with at least one line whose lines are all accepted, it
    returns. *)
Theorem dates_failures (field_name : string) :
  (forall v, (forall s, v <> JStr s) ->
     Mitre.handle_multiple_dates_in_one_field field_name v = Raise AttributeError /\
     Unit42.handle_multiple_dates_in_one_field field_name v = Raise AttributeError) /\
  (forall s,
     splitlines s = [] \/ Exists (fun l => parse l = None) (splitlines s) ->
     Mitre.handle_multiple_dates_in_one_field field_name (JStr s) = Raise ValueError /\
     Unit42.handle_multiple_dates_in_one_field field_name (JStr s) = Raise ValueError) /\
  (forall s,
     splitlines s <> [] ->
     Forall (fun l => parse l <> None) (splitlines s) ->
     exists r,
       Mitre.handle_multiple_dates_in_one_field field_name (JStr s) = Ok r /\
       Unit42.handle_multiple_dates_in_one_field field_name (JStr s) = Ok r).
Proof.
  split; [|split].
  - intros v Hv. split; destruct v; try done; by destruct (Hv s).
  - intros s Hs.
    assert (Mitre.handle_multiple_dates_in_one_field field_name (JStr s)
            = Raise ValueError) as H; [|by split].
    unfold Mitre.handle_multiple_dates_in_one_field. cbn [as_str mbind result_bind].
    destruct Hs as [->|Hs].
    + simpl. by destruct (String.eqb field_name "created").
    + by rewrite mapM_strptime_Raise.
  - intros s Hne Hall.
    apply mapM_strptime_Ok in Hall as (dates & Hdates & Hlen).
    assert (exists r, Mitre.handle_multiple_dates_in_one_field field_name (JStr s)
                      = Ok r) as [r Hr]; [|by exists r].
    unfold Mitre.handle_multiple_dates_in_one_field. cbn [as_str mbind result_bind].
    rewrite Hdates. cbn [mbind result_bind].
    destruct dates as [|d dates]; [by destruct (splitlines s)|].
    destruct (String.eqb field_name "created"); simpl; eauto.
Qed.

Lemma dates_failures_witness :
  Mitre.handle_multiple_dates_in_one_field "modified" JNull = Raise AttributeError /\
  Mitre.handle_multiple_dates_in_one_field "modified" (JStr "") = Raise ValueError /\
  Mitre.handle_multiple_dates_in_one_field "modified" (JStr "2020-01-01")
    = Raise ValueError /\
  exists r, Mitre.handle_multiple_dates_in_one_field "modified"
              (JStr Samples.two_dates) = Ok r.
Proof.
  split; [|split; [|split]].
  - apply (proj1 (dates_failures "modified") JNull). discriminate.
  - apply (proj1 (proj2 (dates_failures "modified")) ""). by left.
  - apply (proj1 (proj2 (dates_failures "modified")) "2020-01-01").
    right. constructor. vm_compute; reflexivity.
  - destruct (proj2 (proj2 (dates_failures "modified")) Samples.two_dates)
      as (r & Hr & _).
    + intros H. vm_compute in H. discriminate.
    + replace (splitlines Samples.two_dates)
        with ["2020-01-01T00:00:00.000Z"; "2019-01-01T00:00:00.000Z"]
        by (vm_compute; reflexivity).
      repeat constructor; intros H; vm_compute in H; discriminate.
    + by exists r.
Defined.

End DateFolding.

(** ** Reading back the timestamps written *)

Section DateRoundTrip.
Import Datetime.

Local Abbreviation dc x := (ascii_of_nat (48 + Z.to_nat (x mod 10))).

Ltac digit_cases n :=
  let k := fresh "k" in
  let Hk := fresh "Hk" in
  let Hcases := fresh "Hcases" in
  pose proof (Z.mod_pos_bound n 10 ltac:(lia)) as Hk;
  set (k := (n mod 10)%Z) in *; clearbody k;
  assert (k = 0 \/ k = 1 \/ k = 2 \/ k = 3 \/ k = 4 \/ k = 5 \/ k = 6 \/ k = 7
          \/ k = 8 \/ k = 9)%Z as Hcases by lia;
  repeat (destruct Hcases as [->|Hcases]; [reflexivity|]); subst; reflexivity.

Lemma digit_of_mod10 (n : Z) : digit_of (dc n) = Some (n mod 10)%Z.
Proof. digit_cases n. Qed.

Lemma is_linebreak_digit (n : Z) : is_linebreak (dc n) = false.
Proof. digit_cases n. Qed.

Lemma day_directive_digit (n : Z) (rest : string) :
  day_directive (String (dc n) rest) = directive 1 2 1 31 (String (dc n) rest).
Proof. digit_cases n. Qed.

Lemma directive_2 (lo hi n : Z) (rest : string) :
  (0 <= n < 100)%Z -> (lo <= n <= hi)%Z ->
  directive 1 2 lo hi (String (dc (n / 10)) (String (dc n) rest))
    = Some (n, 2, rest).
Proof.
  intros Hn Hr. unfold directive. cbn [read_digits].
  repeat (rewrite digit_of_mod10; cbn [read_digits]).
  replace (10 * (10 * 0 + (n / 10) mod 10) + n mod 10)%Z with n
    by (Z.to_euclidean_division_equations; lia).
  replace (lo <=? n)%Z with true by lia.
  replace (n <=? hi)%Z with true by lia. reflexivity.
Qed.

Lemma directive_4 (n : Z) (rest : string) :
  (0 <= n <= 9999)%Z ->
  directive 4 4 0 9999
    (String (dc (n / 10 / 10 / 10)) (String (dc (n / 10 / 10))
       (String (dc (n / 10)) (String (dc n) rest))))
    = Some (n, 4, rest).
Proof.
  intros Hn. unfold directive. cbn [read_digits].
  repeat (rewrite digit_of_mod10; cbn [read_digits]).
  match goal with |- context [(?v, 4, rest)] =>
    replace v with n by (Z.to_euclidean_division_equations; lia) end.
  replace (0 <=? n)%Z with true by lia.
  replace (n <=? 9999)%Z with true by lia. reflexivity.
Qed.

Lemma directive_fraction (n : Z) (rest : string) :
  (0 <= n <= 999999)%Z ->
  directive 1 6 0 999999
    (String (dc (n / 10 / 10 / 10 / 10 / 10)) (String (dc (n / 10 / 10 / 10 / 10))
       (String (dc (n / 10 / 10 / 10)) (String "Z" rest))))
    = Some ((n / 1000)%Z, 3, String "Z" rest).
Proof.
  intros Hn. unfold directive. cbn [read_digits].
  repeat (rewrite digit_of_mod10; cbn [read_digits]).
  change (digit_of "Z") with (@None Z). cbv iota.
  match goal with |- context [(?v, 3, _)] =>
    replace v with (n / 1000)%Z by (Z.to_euclidean_division_equations; lia) end.
  replace (0 <=? n / 1000)%Z with true by (Z.to_euclidean_division_equations; lia).
  replace (n / 1000 <=? 999999)%Z with true by (Z.to_euclidean_division_equations; lia).
  reflexivity.
Qed.

Lemma days_in_month_bound (y m : Z) : (28 <= days_in_month y m <= 31)%Z.
Proof. unfold days_in_month. repeat case_match; lia. Qed.

Lemma valid_datetime_iff (d : datetime) :
  valid_datetime d = true <->
  (1 <= year d <= 9999 /\ 1 <= month d <= 12 /\
   1 <= day d <= days_in_month (year d) (month d) /\
   0 <= hour d <= 23 /\ 0 <= minute d <= 59 /\ 0 <= second d <= 59 /\
   0 <= microsecond d <= 999999)%Z.
Proof.
  unfold valid_datetime. rewrite !andb_true_iff, !Z.leb_le. tauto.
Qed.

Lemma year_text_4 (y : Z) :
  (1000 <= y)%Z ->
  year_text y =
  String (dc (y / 10 / 10 / 10)) (String (dc (y / 10 / 10))
    (String (dc (y / 10)) (String (dc y) ""))).
Proof.
  intros Hy. unfold year_text.
  destruct (Z.ltb_spec y 10); [lia|]. destruct (Z.ltb_spec y 100); [lia|].
  destruct (Z.ltb_spec y 1000); [lia|]. reflexivity.
Qed.

Lemma format_ms_explicit (d : datetime) :
  format_ms d =
  year_text (year d) +:+ String "-"
    (String (dc (month d / 10)) (String (dc (month d)) (String "-"
    (String (dc (day d / 10)) (String (dc (day d)) (String "T"
    (String (dc (hour d / 10)) (String (dc (hour d)) (String ":"
    (String (dc (minute d / 10)) (String (dc (minute d)) (String ":"
    (String (dc (second d / 10)) (String (dc (second d)) (String "."
    (String (dc (microsecond d / 10 / 10 / 10 / 10 / 10))
    (String (dc (microsecond d / 10 / 10 / 10 / 10))
    (String (dc (microsecond d / 10 / 10 / 10)) "Z")))))))))))))))))).
Proof.
  unfold format_ms, strftime, year_text.
  destruct (year d <? 10)%Z; [reflexivity|].
  destruct (year d <? 100)%Z; [reflexivity|].
  destruct (year d <? 1000)%Z; reflexivity.
Qed.

Lemma parse_format_ms (d : datetime) :
  valid_datetime d = true -> (1000 <= year d)%Z ->
  parse (format_ms d) = Some (truncated d).
Proof.
  intros Hvalid Hyear. pose proof Hvalid as Hv. apply valid_datetime_iff in Hv.
  pose proof (days_in_month_bound (year d) (month d)).
  rewrite format_ms_explicit, year_text_4 by done.
  cbv beta iota zeta fix delta [String.append].
  unfold parse.
  rewrite directive_4 by lia. cbn [mbind option_bind literal Ascii.eqb Bool.eqb orb].
  rewrite directive_2 by lia. cbn [mbind option_bind literal Ascii.eqb Bool.eqb orb].
  rewrite day_directive_digit, directive_2 by lia.
  cbn [mbind option_bind literal Ascii.eqb Bool.eqb orb].
  rewrite directive_2 by lia. cbn [mbind option_bind literal Ascii.eqb Bool.eqb orb].
  rewrite directive_2 by lia. cbn [mbind option_bind literal Ascii.eqb Bool.eqb orb].
  rewrite directive_2 by lia. cbn [mbind option_bind literal Ascii.eqb Bool.eqb orb].
  rewrite directive_fraction by lia.
  cbn [mbind option_bind literal Ascii.eqb Bool.eqb orb].
  change (10 ^ Z.of_nat (6 - 3))%Z with 1000%Z.
  fold (truncated d).
  assert (valid_datetime (truncated d) = true) as ->; [|done].
  apply valid_datetime_iff. unfold truncated. cbn [year month day hour minute second microsecond].
  destruct Hv as (? & ? & ? & ? & ? & ? & ?).
  repeat split; try lia; Z.to_euclidean_division_equations; lia.
Qed.

(** A year below 1000 is written with fewer than the four digits that
    [%Y] of [strptime] asks for. *)
Lemma parse_short_year (d : datetime) :
  (0 <= year d < 1000)%Z -> parse (format_ms d) = None.
Proof.
  intros Hyear. rewrite format_ms_explicit. unfold parse.
  match goal with
  | |- context [directive 4 4 0 9999 ?s] =>
      assert (directive 4 4 0 9999 s = None) as ->; [|reflexivity]
  end.
  unfold year_text.
  destruct (Z.ltb_spec (year d) 10); [|destruct (Z.ltb_spec (year d) 100);
    [|destruct (Z.ltb_spec (year d) 1000); [|lia]]];
    cbv beta iota zeta fix delta [digits String.append];
    unfold directive; cbn [read_digits];
    repeat (rewrite digit_of_mod10; cbn [read_digits]);
    change (digit_of "-") with (@None Z); reflexivity.
Qed.

Lemma format_ms_truncated (d : datetime) :
  format_ms (truncated d) = format_ms d.
Proof.
  rewrite !format_ms_explicit. unfold truncated.
  cbn [year month day hour minute second microsecond].
  set (us := microsecond d).
  replace (us / 1000 * 1000 / 10 / 10 / 10 / 10 / 10)%Z
    with (us / 10 / 10 / 10 / 10 / 10)%Z
    by (Z.to_euclidean_division_equations; lia).
  replace (us / 1000 * 1000 / 10 / 10 / 10 / 10)%Z
    with (us / 10 / 10 / 10 / 10)%Z
    by (Z.to_euclidean_division_equations; lia).
  replace (us / 1000 * 1000 / 10 / 10 / 10)%Z with (us / 10 / 10 / 10)%Z
    by (Z.to_euclidean_division_equations; lia).
  reflexivity.
Qed.

Lemma no_linebreak_app (a b : string) :
  no_linebreak (a +:+ b) = no_linebreak a && no_linebreak b.
Proof.
  induction a as [|c a IH]; [done|]. simpl. rewrite IH. apply andb_assoc.
Qed.

Lemma no_linebreak_year_text (y : Z) : no_linebreak (year_text y) = true.
Proof.
  unfold year_text.
  destruct (y <? 10)%Z; [|destruct (y <? 100)%Z; [|destruct (y <? 1000)%Z]];
    cbv beta iota zeta fix delta [digits String.append no_linebreak];
    rewrite !is_linebreak_digit; reflexivity.
Qed.

Lemma no_linebreak_format_ms (d : datetime) : no_linebreak (format_ms d) = true.
Proof.
  rewrite format_ms_explicit, no_linebreak_app, no_linebreak_year_text.
  cbn [no_linebreak andb]. rewrite !is_linebreak_digit. reflexivity.
Qed.

Lemma format_ms_not_empty (d : datetime) : format_ms d <> "".
Proof. rewrite format_ms_explicit. by destruct (year_text (year d)). Qed.

Lemma splitlines_one_line (s : string) :
  s <> "" -> no_linebreak s = true -> splitlines s = [s].
Proof.
  induction s as [|c s IH]; [done|]. intros _ H. cbn [no_linebreak] in H.
  apply andb_true_iff in H as [Hc Hs]. apply negb_true_iff in Hc.
  cbn [splitlines]. rewrite Hc.
  destruct s as [|c' s']; [done|]. by rewrite IH.
Qed.

Lemma parse_valid (s : string) (d : datetime) :
  parse s = Some d -> valid_datetime d = true.
Proof.
  unfold parse. intros H.
  repeat match type of H with
  | (?m ≫= _) = Some _ =>
      let E := fresh "E" in
      destruct m as [[[? ?] ?]|] eqn:E; [cbn [mbind option_bind] in H | discriminate]
  | (?m ≫= _) = Some _ =>
      let E := fresh "E" in
      destruct m as [?|] eqn:E; [cbn [mbind option_bind] in H | discriminate]
  end.
  match type of H with
  | match ?s with EmptyString => _ | String _ _ => _ end = _ =>
      destruct s; [|discriminate]
  end.
  match type of H with
  | (if ?b then _ else _) = _ => destruct b eqn:Hb; [|discriminate]
  end.
  by injection H as <-.
Qed.

Lemma mapM_strptime_valid (lines : list string) (dates : list datetime) :
  mapM strptime lines = Ok dates -> Forall (fun d => valid_datetime d = true) dates.
Proof.
  revert dates. induction lines as [|l lines IH]; intros dates H; cbn [mapM] in H.
  - injection H as <-. constructor.
  - apply bind_Ok in H as (d & Hd & H). apply bind_Ok in H as (ds & Hds & H).
    injection H as <-. constructor; [|by apply IH].
    unfold strptime in Hd. destruct (parse l) eqn:Hp; [|discriminate].
    injection Hd as <-. by eapply parse_valid.
Qed.

Lemma handle_one_formatted (field_name : string) (d : datetime) :
  valid_datetime d = true -> (1000 <= year d)%Z ->
  Mitre.handle_multiple_dates_in_one_field field_name (JStr (format_ms d))
    = Ok (format_ms d).
Proof.
  intros Hd Hyear. unfold Mitre.handle_multiple_dates_in_one_field.
  cbn [as_str mbind result_bind].
  rewrite splitlines_one_line;
    [|apply format_ms_not_empty|apply no_linebreak_format_ms].
  cbn [mapM]. unfold strptime. rewrite parse_format_ms by done.
  cbn [mbind result_bind mret result_ret min_of max_of fold_left].
  fold (format_ms (truncated d)). rewrite format_ms_truncated.
  by destruct (String.eqb field_name "created").
Qed.

Lemma handle_one_short (field_name : string) (d : datetime) :
  (0 <= year d < 1000)%Z ->
  Mitre.handle_multiple_dates_in_one_field field_name (JStr (format_ms d))
    = Raise ValueError.
Proof.
  intros Hyear. unfold Mitre.handle_multiple_dates_in_one_field.
  cbn [as_str mbind result_bind].
  rewrite splitlines_one_line;
    [|apply format_ms_not_empty|apply no_linebreak_format_ms].
  cbn [mapM]. unfold strptime. by rewrite parse_short_year.
Qed.

(** X10.  [handle_multiple_dates_in_one_field] is idempotent from the
    year 1000 on, in both copies: what it returns is the text of one of
    the dates of the field, and when the year of that date has four
    digits the function accepts this text and returns it unchanged.  The
    text of a date of an earlier year is written with a shorter year, and
    the function raises [ValueError] when it is given it back. *)
Theorem dates_idempotent_from_year_1000 (field_name : string) (v : json)
    (r : string) :
  Mitre.handle_multiple_dates_in_one_field field_name v = Ok r ->
  exists s dates d,
    v = JStr s /\
    mapM strptime (splitlines s) = Ok dates /\
    In d dates /\
    r = format_ms d /\
    ((1000 <= year d)%Z ->
       Mitre.handle_multiple_dates_in_one_field field_name (JStr r) = Ok r /\
       Unit42.handle_multiple_dates_in_one_field field_name (JStr r) = Ok r) /\
    ((year d < 1000)%Z ->
       Mitre.handle_multiple_dates_in_one_field field_name (JStr r)
         = Raise ValueError /\
       Unit42.handle_multiple_dates_in_one_field field_name (JStr r)
         = Raise ValueError).
Proof.
  intros H. unfold Mitre.handle_multiple_dates_in_one_field in H.
  apply bind_Ok in H as (s & Hs & H). apply bind_Ok in H as (dates & Hdates & H).
  assert (v = JStr s) as -> by (destruct v; try discriminate; by injection Hs as ->).
  pose proof (mapM_strptime_valid _ _ Hdates) as Hvalid.
  rewrite Forall_forall in Hvalid.
  assert (exists d, In d dates /\ r = format_ms d) as (d & Hin & ->).
  { destruct (String.eqb field_name "created").
    - apply bind_Ok in H as (d & Hmin & H). injection H as <-.
      apply min_of_spec in Hmin as [Hin _]. by exists d.
    - apply bind_Ok in H as (d & Hmax & H). injection H as <-.
      apply max_of_spec in Hmax as [Hin _]. by exists d. }
  assert (valid_datetime d = true) as Hd by (by apply Hvalid, list_elem_of_In).
  exists s, dates, d. repeat split; try done.
  - by apply handle_one_formatted.
  - by apply handle_one_formatted.
  - apply handle_one_short. apply valid_datetime_iff in Hd. lia.
  - apply handle_one_short. apply valid_datetime_iff in Hd. lia.
Qed.

End DateRoundTrip.

Lemma dates_idempotent_from_year_1000_witness :
  (Mitre.handle_multiple_dates_in_one_field "created" (JStr Samples.two_dates)
     = Ok "2019-01-01T00:00:00.000Z" /\
   Mitre.handle_multiple_dates_in_one_field "created"
     (JStr "2019-01-01T00:00:00.000Z") = Ok "2019-01-01T00:00:00.000Z") /\
  (Mitre.handle_multiple_dates_in_one_field "created"
     (JStr "0999-06-01T00:00:00.000Z") = Ok "999-06-01T00:00:00.000Z" /\
   Mitre.handle_multiple_dates_in_one_field "created"
     (JStr "999-06-01T00:00:00.000Z") = Raise ValueError).
Proof.
  split; (split; [vm_compute; reflexivity|]).
  - destruct (dates_idempotent_from_year_1000 "created" (JStr Samples.two_dates)
                "2019-01-01T00:00:00.000Z" ltac:(vm_compute; reflexivity))
      as (s & dates & d & Hs & Hdates & Hin & Hr & Hlong & _).
    injection Hs as <-. vm_compute in Hdates. injection Hdates as <-.
    apply Hlong. destruct Hin as [<-|[<-|[]]]; vm_compute; discriminate.
  - destruct (dates_idempotent_from_year_1000 "created"
                (JStr "0999-06-01T00:00:00.000Z")
                "999-06-01T00:00:00.000Z" ltac:(vm_compute; reflexivity))
      as (s & dates & d & Hs & Hdates & Hin & Hr & _ & Hshort).
    injection Hs as <-. vm_compute in Hdates. injection Hdates as <-.
    apply Hshort. destruct Hin as [<-|[]]; vm_compute; reflexivity.
Defined.

(** ** The MITRE relationship builder *)

Section MitreRelationship.
Import Mitre.

Lemma mitre_prefix_resolves (k v rest : string) :
  In (k, v) MITRE_TYPE_TO_DEMISTO_TYPE ->
  assoc (before_dashes (k +:+ "--" +:+ rest)) MITRE_TYPE_TO_DEMISTO_TYPE = Some v.
Proof.
  intros Hin. repeat (destruct Hin as [Hin|Hin]; [by injection Hin as <- <-|]).
  destruct Hin.
Qed.

Lemma assoc_None {A} (k : string) (l : list (string * A)) :
  (forall v, ~ In (k, v) l) -> assoc k l = None.
Proof.
  induction l as [|[k' v'] l IH]; intros H; [done|]. cbn [assoc].
  destruct (String.eqb_spec k k') as [->|Hne].
  - destruct (H v'). by left.
  - apply IH. intros v Hin. apply (H v). by right.
Qed.

(** X11.  [create_relationship] fails only for a reference that is not a
    string, with [AttributeError] (also when the reference is absent).
    For every two references that are strings it returns the relation
    from the one to the other, with the relationship type as name, with
    the description, [modified] as [lastseenbysource] and [created] as
    [firstseenbysource] for fields, and with the entity types that
    [MITRE_TYPE_TO_DEMISTO_TYPE] gives to what stands before the first
    [--] of each reference: the value of the table for a reference that
    starts with one of its STIX types followed by [--], and [None], not
    an exception, for a reference that starts with nothing the table
    knows. *)
Theorem create_relationship_resolves_types :
  (forall item,
      (forall s, get "source_ref" item <> JStr s) \/
      (forall s, get "target_ref" item <> JStr s) ->
      create_relationship item = Raise AttributeError) /\
  (forall item a b,
      get "source_ref" item = JStr a ->
      get "target_ref" item = JStr b ->
      create_relationship item =
      Ok (CommonServer.mk_relation (get "relationship_type" item)
            (JStr a) (assoc (before_dashes a) MITRE_TYPE_TO_DEMISTO_TYPE)
            (JStr b) (assoc (before_dashes b) MITRE_TYPE_TO_DEMISTO_TYPE)
            [("description", get "description" item);
             ("lastseenbysource", get "modified" item);
             ("firstseenbysource", get "created" item)])) /\
  (forall k v rest,
      In (k, v) MITRE_TYPE_TO_DEMISTO_TYPE ->
      assoc (before_dashes (k +:+ "--" +:+ rest)) MITRE_TYPE_TO_DEMISTO_TYPE
        = Some v) /\
  (forall s,
      (forall v, ~ In (before_dashes s, v) MITRE_TYPE_TO_DEMISTO_TYPE) ->
      assoc (before_dashes s) MITRE_TYPE_TO_DEMISTO_TYPE = None).
Proof.
  split; [|split; [|split]].
  - intros item H. unfold create_relationship.
    destruct (get "source_ref" item) eqn:Hs; try done.
    destruct H as [H|H]; [by destruct (H s)|].
    cbn [as_str mbind result_bind].
    destruct (get "target_ref" item) eqn:Ht; try done. by destruct (H s0).
  - intros item a b Ha Hb. unfold create_relationship.
    rewrite Ha, Hb. reflexivity.
  - intros k v rest Hin. by apply mitre_prefix_resolves.
  - intros s Hs. by apply assoc_None.
Qed.

Lemma create_relationship_resolves_types_witness :
  create_relationship [("source_ref", JStr "malware--1")] = Raise AttributeError /\
  (exists rel,
     create_relationship
       (Samples.relationship_object "relationship--9" "tool--7" "attack-pattern--3")
       = Ok rel /\
     CommonServer.entity_a_type rel = Some "STIX Tool" /\
     CommonServer.entity_b_type rel = Some "STIX Attack Pattern") /\
  (exists rel,
     create_relationship
       (Samples.relationship_object "relationship--10" "campaign--1" "x-mitre-tactic--2")
       = Ok rel /\
     CommonServer.entity_a_type rel = None /\
     CommonServer.entity_b_type rel = None).
Proof.
  destruct create_relationship_resolves_types as (Hraise & Hok & Hknown & Hunknown).
  split; [|split].
  - apply Hraise. right. intros s. discriminate.
  - eexists. split.
    + apply (Hok (Samples.relationship_object "relationship--9" "tool--7"
                    "attack-pattern--3") "tool--7" "attack-pattern--3");
        reflexivity.
    + cbn [CommonServer.entity_a_type CommonServer.entity_b_type]. split.
      * apply (Hknown "tool" "STIX Tool" "7"). do 4 right. by left.
      * apply (Hknown "attack-pattern" "STIX Attack Pattern" "3"). by left.
  - eexists. split.
    + apply (Hok (Samples.relationship_object "relationship--10" "campaign--1"
                    "x-mitre-tactic--2") "campaign--1" "x-mitre-tactic--2");
        reflexivity.
    + cbn [CommonServer.entity_a_type CommonServer.entity_b_type]. split.
      * apply (Hunknown "campaign--1"). intros v Hin.
        repeat (destruct Hin as [Hin|Hin]; [discriminate|]). destruct Hin.
      * apply (Hunknown "x-mitre-tactic--2"). intros v Hin.
        repeat (destruct Hin as [Hin|Hin]; [discriminate|]). destruct Hin.
Defined.

End MitreRelationship.

(** ** What the Unit42 client fetches *)

Section Unit42Fetch.
Import Unit42.

Lemma pages_loop_app_any (test : bool) (data : list json)
    (p1 p2 : list (result obj)) :
  pages_loop test data (p1 ++ p2) =
  pages_loop test data p1 ≫= fun r =>
    match r with
    | Next data => pages_loop test data p2
    | Return data => Ok (Return data)
    end.
Proof.
  revert data. induction p1 as [|page p1 IH]; intros data; [done|].
  cbn [app pages_loop]. destruct page as [bundle|e]; [|done].
  cbn [mbind result_bind].
  destruct (iter (get "objects" bundle)) as [objects|e]; [|done].
  cbn [mbind result_bind]. destruct test; [done | apply IH].
Qed.

Lemma collections_loop_pages_any (test : bool) (type_ : string)
    (cols : list Collection) (data : list json) :
  collections_loop test type_ data cols =
  pages_loop test data (flat_map (fun c => get_objects c type_) cols).
Proof.
  revert data. induction cols as [|c cols IH]; intros data; [done|].
  cbn [collections_loop flat_map]. rewrite pages_loop_app_any.
  destruct (pages_loop test data (get_objects c type_)) as [[d|d]|e];
    simpl; [apply IH | done | done].
Qed.

Lemma roots_loop_pages_any (test : bool) (type_ : string)
    (roots : list ApiRoot) (data : list json) :
  roots_loop test type_ data roots =
  pages_loop test data
    (flat_map (fun r => flat_map (fun c => get_objects c type_) (collections r))
       roots).
Proof.
  revert data. induction roots as [|r roots IH]; intros data; [done|].
  cbn [roots_loop flat_map]. rewrite pages_loop_app_any, collections_loop_pages_any.
  destruct (pages_loop test data _) as [[d|d]|e];
    simpl; [apply IH | done | done].
Qed.

Lemma fetch_as_pages (self : Client) (test : bool) (type_ : string) :
  fetch_stix_objects_from_api self test type_ =
  pages_loop test [] (all_pages (server self) type_) ≫= fun r =>
    match r with
    | Return data => Ok (Some data, self)
    | Next data =>
        Ok (None, mk_client (server self) (<[type_ := data]> (objects_data self)))
    end.
Proof.
  unfold fetch_stix_objects_from_api. by rewrite roots_loop_pages_any.
Qed.

Lemma pages_loop_all (data : list json) (bundles : list obj)
    (objects : list (list json)) :
  mapM bundle_objects bundles = Ok objects ->
  pages_loop false data (map Ok bundles) = Ok (Next (data ++ concat objects)).
Proof.
  revert data objects. induction bundles as [|b bundles IH];
    intros data objects H; cbn [mapM] in H.
  - injection H as <-. simpl. by rewrite app_nil_r.
  - inv_bind_as H objs Hobjs. inv_bind_as H rest Hrest. injection H as <-.
    cbn [map pages_loop mbind result_bind]. unfold bundle_objects in Hobjs.
    rewrite Hobjs. cbn [mbind result_bind]. rewrite (IH _ rest Hrest).
    cbn [concat]. by rewrite app_assoc.
Qed.

(** X12.  When every page that the server has for a type arrives and
    holds objects that can be read, [fetch_stix_objects_from_api] without
    the test flag returns [None] and leaves the client with the objects of
    all pages, over all API roots and collections and in the order of the
    requests, stored under that type; what is stored under the other
    types stays. *)
Theorem fetch_stores_all_pages (self : Client) (type_ : string)
    (bundles : list obj) (objects : list (list json)) :
  all_pages (server self) type_ = map Ok bundles ->
  mapM bundle_objects bundles = Ok objects ->
  exists self',
    fetch_stix_objects_from_api self false type_ = Ok (None, self') /\
    server self' = server self /\
    objects_of self' type_ = Ok (concat objects) /\
    forall other, other <> type_ ->
      objects_data self' !! other = objects_data self !! other.
Proof.
  intros Hpages Hobjects. eexists. rewrite fetch_as_pages, Hpages.
  rewrite (pages_loop_all [] bundles objects Hobjects).
  cbn [mbind result_bind app]. split; [reflexivity|]. split; [reflexivity|].
  split.
  - unfold objects_of. cbn [objects_data]. by rewrite lookup_insert_eq.
  - intros other Hne. cbn [objects_data]. by rewrite lookup_insert_ne.
Qed.

Lemma fetch_stores_all_pages_witness :
  exists self',
    fetch_stix_objects_from_api Samples.unit42_client false "indicator"
      = Ok (None, self') /\
    objects_of self' "indicator"
      = Ok [JObj (Samples.unit42_indicator "indicator--1"
                    "[url:value = 'http://example.org/a']");
            JObj (Samples.unit42_indicator "indicator--2"
                    "[ipv4-addr:value = '192.0.2.1']")].
Proof.
  destruct (fetch_stores_all_pages Samples.unit42_client "indicator"
              [Samples.bundle [Samples.unit42_indicator "indicator--1"
                                 "[url:value = 'http://example.org/a']"];
               Samples.bundle [Samples.unit42_indicator "indicator--2"
                                 "[ipv4-addr:value = '192.0.2.1']"]]
              _ ltac:(vm_compute; reflexivity) ltac:(vm_compute; reflexivity))
    as (self' & Hfetch & _ & Hobjects & _).
  exists self'. split; [exact Hfetch | exact Hobjects].
Defined.

(** X13.  With the test flag, [fetch_stix_objects_from_api] looks at the
    first page only: it returns the objects of that page and leaves the
    client as it was, or raises what the page raises; no later page is
    requested, so none can make it fail.  Only when the server has no page
    at all for the type does it return [None], and then it stores the
    empty list under the type. *)
Theorem fetch_test_reads_first_page (self : Client) (type_ : string) :
  match all_pages (server self) type_ with
  | [] =>
      fetch_stix_objects_from_api self true type_ =
      Ok (None, mk_client (server self) (<[type_ := []]> (objects_data self)))
  | page :: _ =>
      fetch_stix_objects_from_api self true type_ =
      page ≫= fun bundle =>
      bundle_objects bundle ≫= fun objects => Ok (Some objects, self)
  end.
Proof.
  rewrite fetch_as_pages. destruct (all_pages (server self) type_) as [|page rest].
  - reflexivity.
  - cbn [pages_loop]. destruct page as [bundle|e]; [|done].
    cbn [mbind result_bind]. unfold bundle_objects.
    by destruct (iter (get "objects" bundle)).
Qed.

Lemma fetch_false_next (self self' : Client) (type_ : string)
    (r : option (list json)) :
  fetch_stix_objects_from_api self false type_ = Ok (r, self') ->
  exists data,
    roots_loop false type_ [] (api_roots (server self)) = Ok (Next data) /\
    self' = mk_client (server self) (<[type_ := data]> (objects_data self)).
Proof.
  unfold fetch_stix_objects_from_api. intros H. inv_bind H.
  destruct x as [data|data].
  - exists data. split; [done|]. by injection H as <- <-.
  - exfalso. rewrite roots_loop_pages_any in Hx.
    clear H. revert Hx. generalize (@nil json).
    induction (flat_map _ _) as [|page pages IH]; intros d Hx; [done|].
    cbn [pages_loop] in Hx. inv_bind Hx. inv_bind Hx. by eapply IH.
Qed.

(** X14.  When [get_stix_objects] without the test flag returns, the
    client holds, for every type that was asked for, the objects that the
    server delivers for that type; what it held for the other types
    stays.  So a look-up of a type that was fetched cannot fail. *)
Theorem get_stix_objects_stores_every_type (items_types : list string)
    (self self' : Client) :
  get_stix_objects self false items_types = Ok self' ->
  server self' = server self /\
  (forall type_, In type_ items_types ->
     exists data,
       roots_loop false type_ [] (api_roots (server self)) = Ok (Next data) /\
       objects_of self' type_ = Ok data) /\
  (forall type_, ~ In type_ items_types ->
     objects_data self' !! type_ = objects_data self !! type_).
Proof.
  revert self. induction items_types as [|t ts IH]; intros self H.
  - injection H as <-. by repeat split.
  - cbn [get_stix_objects] in H. inv_bind H. destruct x as [r self1].
    apply fetch_false_next in Hx as (data & Hdata & ->).
    apply IH in H as (Hserver & Hin & Hout). cbn [server objects_data] in *.
    split; [done|]. split.
    + intros type_ Htype.
      destruct (in_dec String.string_dec type_ ts) as [Hts|Hts]; [by apply Hin|].
      destruct Htype as [<-|Htype]; [|done].
      exists data. split; [done|]. unfold objects_of.
      by rewrite (Hout t Hts), lookup_insert_eq.
    + intros type_ Htype. rewrite Hout by (intros ?; apply Htype; by right).
      apply lookup_insert_ne. intros <-. apply Htype. by left.
Qed.

Lemma get_stix_objects_stores_every_type_witness :
  exists self',
    get_stix_objects Samples.unit42_client false item_types_to_fetch_from_api
      = Ok self' /\
    forall type_, In type_ item_types_to_fetch_from_api ->
      exists data, objects_of self' type_ = Ok data.
Proof.
  eexists. split; [vm_compute; reflexivity|]. intros type_ Hin.
  destruct (proj1 (proj2 (get_stix_objects_stores_every_type
                            item_types_to_fetch_from_api Samples.unit42_client _
                            ltac:(vm_compute; reflexivity))) type_ Hin)
    as (data & _ & Hdata).
  by exists data.
Defined.

Lemma fetch_test_ok (self : Client) (type_ : string) :
  (exists r, fetch_stix_objects_from_api self true type_ = Ok r) <->
  first_page_ok (server self) type_.
Proof.
  rewrite fetch_as_pages.
  unfold first_page_ok. destruct (all_pages (server self) type_) as [|page rest].
  - split; [done|]. intros _. eauto.
  - cbn [pages_loop]. unfold good_bundle. destruct page as [bundle|e]; simpl.
    + destruct (iter (get "objects" bundle)) eqn:Hiter; simpl.
      * split; [|eauto]. intros _. exists bundle. by rewrite Hiter.
      * split; [by intros [r Hr]|]. intros (b & Hb & Hgood).
        injection Hb as <-. rewrite Hiter in Hgood. discriminate.
    + split; [by intros [r Hr]|]. by intros (b & Hb & _).
Qed.

(** X15.  [test_module] answers ['ok'] exactly when, for indicators and
    for reports, the first page of the server (if it has one) arrives and
    holds objects that can be read; otherwise it raises.  Later pages play
    no part. *)
Theorem test_module_ok_iff (client : Client) :
  Unit42Commands.test_module client = Ok "ok" <->
  first_page_ok (server client) "indicator" /\
  first_page_ok (server client) "report".
Proof.
  unfold Unit42Commands.test_module. cbn [get_stix_objects].
  rewrite <- !fetch_test_ok. split.
  - intros H. inv_bind H. clear H. inv_bind Hx. destruct x0 as [r1 self1].
    inv_bind Hx. destruct x0 as [r2 self2]. split; [eauto|].
    pose proof (fetch_server _ _ _ _ _ Hx0) as Hserver.
    pose proof (proj1 (fetch_test_ok self1 "report") (ex_intro _ _ Hx1)) as Hok.
    rewrite Hserver in Hok. by apply fetch_test_ok.
  - intros [[[r1 self1] H1] H2]. rewrite H1. cbn [mbind result_bind].
    pose proof (fetch_server _ _ _ _ _ H1) as Hserver.
    apply fetch_test_ok in H2. rewrite <- Hserver in H2.
    apply fetch_test_ok in H2 as [[r2 self2] H2]. by rewrite H2.
Qed.

Lemma test_module_ok_iff_witness :
  Unit42Commands.test_module Samples.unit42_client = Ok "ok" /\
  ~ first_page_ok (server Samples.failing_client) "report" /\
  Unit42Commands.test_module Samples.failing_client <> Ok "ok".
Proof.
  split; [|split].
  - apply (proj2 (test_module_ok_iff Samples.unit42_client)).
    split; (eexists; split; [vm_compute; reflexivity | vm_compute; reflexivity]).
  - intros (b & Hb & _). vm_compute in Hb. discriminate.
  - intros H. apply (proj1 (test_module_ok_iff Samples.failing_client)) in H
      as [_ (b & Hb & _)].
    vm_compute in Hb. discriminate.
Defined.

End Unit42Fetch.

(** ** What the Unit42 parsers emit *)

Section Unit42Parsers.
Import Unit42.

Variable FeedIndicatorType : CommonServer.FeedIndicatorType.
Variable format_value : json -> string.
Variable feed_tags : list string.
Variable tlp_color : option string.

Lemma keys_loop_sound (o : obj) (pattern : json)
    (table : list (string * string)) (acc out : list indicator) :
  keys_loop o pattern feed_tags tlp_color acc table = Ok out ->
  exists new,
    out = acc ++ new /\
    Forall (fun i => exists key ty p tags,
              In (key, ty) table /\ pattern = JStr p /\
              starts_with ("[" +:+ key) p = true /\
              union_tags (get "labels" o) feed_tags = Ok tags /\
              i = parsed_indicator tlp_color o ty tags) new.
Proof.
  revert acc. induction table as [|[key ty] table IH]; intros acc H;
    cbn [keys_loop] in H.
  - injection H as <-. exists []. by rewrite app_nil_r.
  - inv_bind_as H p Hp. destruct pattern; try discriminate. injection Hp as ->.
    destruct (starts_with ("[" +:+ key) p) eqn:Hstart.
    + inv_bind_as H tags Htags. apply IH in H as (new & -> & Hnew).
      eexists (_ :: new). split; [by rewrite <- app_assoc|].
      constructor.
      * exists key, ty, p, tags. repeat split; try done. by left.
      * eapply Forall_impl; [exact Hnew|].
        intros i (k & t & p' & tg & Hin & ?). exists k, t, p', tg.
        split; [by right | done].
    + apply IH in H as (new & -> & Hnew). exists new. split; [done|].
      eapply Forall_impl; [exact Hnew|].
      intros i (k & t & p' & tg & Hin & ?). exists k, t, p', tg.
      split; [by right | done].
Qed.

Lemma parse_indicators_loop_sound (objs : list json) (acc out : list indicator) :
  parse_indicators_loop FeedIndicatorType objs feed_tags tlp_color acc = Ok out ->
  exists new,
    out = acc ++ new /\
    Forall (fun i => exists o key ty p tags,
              In (JObj o) objs /\
              In (key, ty) (UNIT42_TYPES_TO_DEMISTO_TYPES FeedIndicatorType) /\
              get "pattern" o = JStr p /\
              starts_with ("[" +:+ key) p = true /\
              union_tags (get "labels" o) feed_tags = Ok tags /\
              i = parsed_indicator tlp_color o ty tags) new.
Proof.
  revert acc. induction objs as [|obj objs IH]; intros acc H;
    cbn [parse_indicators_loop] in H.
  - injection H as <-. exists []. by rewrite app_nil_r.
  - inv_bind_as H o Ho. destruct obj; try discriminate. injection Ho as ->.
    inv_bind_as H mid Hmid.
    apply keys_loop_sound in Hmid as (new1 & -> & Hnew1).
    apply IH in H as (new2 & -> & Hnew2).
    exists (new1 ++ new2). split; [by rewrite app_assoc|].
    apply Forall_app. split.
    + eapply Forall_impl; [exact Hnew1|].
      intros i (k & t & p & tg & ? & ? & ?). exists o, k, t, p, tg.
      split; [by left | done].
    + eapply Forall_impl; [exact Hnew2|].
      intros i (o' & k & t & p & tg & ? & ?). exists o', k, t, p, tg.
      split; [by right | done].
Qed.

(** X16.  Every indicator that [parse_indicators] returns was built from
    one of the objects given, whose pattern is a string that starts with
    [[] and a key of the type table: its type is the one the table gives
    to that key, its value the object's name, its raw object the object
    itself, and its fields the [created] and [modified] dates, the id as
    [indicatoridentification], the tags and ['Unit42'] as reporter. *)
Theorem parse_indicators_sound (objs : list json) (out : list indicator) :
  parse_indicators FeedIndicatorType objs feed_tags tlp_color = Ok out ->
  Forall (fun i => exists o key ty p tags,
            In (JObj o) objs /\
            In (key, ty) (UNIT42_TYPES_TO_DEMISTO_TYPES FeedIndicatorType) /\
            get "pattern" o = JStr p /\
            starts_with ("[" +:+ key) p = true /\
            union_tags (get "labels" o) feed_tags = Ok tags /\
            i = parsed_indicator tlp_color o ty tags) out.
Proof.
  unfold parse_indicators. intros H.
  by apply parse_indicators_loop_sound in H as (new & -> & Hnew).
Qed.

Lemma keys_loop_no_match (o : obj) (p : string)
    (table : list (string * string)) (acc : list indicator) :
  matches_no_key table p = true ->
  keys_loop o (JStr p) feed_tags tlp_color acc table = Ok acc.
Proof.
  revert acc. induction table as [|[key ty] table IH]; intros acc H; [done|].
  cbn [matches_no_key forallb fst] in H. apply andb_true_iff in H as [Hk H].
  apply negb_true_iff in Hk. cbn [keys_loop as_str mbind result_bind].
  rewrite Hk. by apply IH.
Qed.

(** X17.  An object whose pattern is a string that starts with none of
    the keys of the type table is dropped by [parse_indicators] without
    a trace: the result, indicators or exception, is what it is without
    that object, whatever else the object holds. *)
Theorem parse_indicators_drops_other_patterns (before after : list json)
    (o : obj) (p : string) :
  get "pattern" o = JStr p ->
  matches_no_key (UNIT42_TYPES_TO_DEMISTO_TYPES FeedIndicatorType) p = true ->
  parse_indicators FeedIndicatorType (before ++ JObj o :: after) feed_tags tlp_color
  = parse_indicators FeedIndicatorType (before ++ after) feed_tags tlp_color.
Proof.
  intros Hp Hno. unfold parse_indicators.
  rewrite !parse_indicators_loop_app. cbn [parse_indicators_loop].
  destruct (parse_indicators_loop _ before feed_tags tlp_color []) as [acc|e];
    [|done].
  cbn [mbind result_bind as_dict]. rewrite Hp.
  by rewrite (keys_loop_no_match o p _ acc Hno).
Qed.

Lemma parse_reports_loop_spec (objs : list json) (acc out : list indicator) :
  parse_reports_loop format_value objs feed_tags tlp_color acc = Ok out ->
  exists new,
    out = acc ++ new /\
    Forall2 (fun i obj => exists o tags,
               obj = JObj o /\
               union_tags (get "labels" o) feed_tags = Ok tags /\
               i = parsed_report format_value tlp_color o tags) new objs.
Proof.
  revert acc. induction objs as [|obj objs IH]; intros acc H;
    cbn [parse_reports_loop] in H.
  - injection H as <-. exists []. rewrite app_nil_r. split; [done|constructor].
  - inv_bind_as H o Ho. destruct obj; try discriminate. injection Ho as ->.
    inv_bind_as H tags Htags. apply IH in H as (new & -> & Hnew).
    eexists (_ :: new). split; [by rewrite <- app_assoc|].
    constructor; [|done]. by exists o, tags.
Qed.

(** X18.  When [parse_reports] returns, it has built one STIX Report per
    object given, in the same order: its value is the name after
    ["[Unit42 ATOM] "], and its fields hold the id as [stixid], the
    publication date, the tags and the description, for which an absent
    one becomes the empty string, while the raw copy keeps [None]. *)
Theorem parse_reports_one_per_object (objs : list json) (out : list indicator) :
  parse_reports format_value objs feed_tags tlp_color = Ok out ->
  Forall2 (fun i obj => exists o tags,
             obj = JObj o /\
             union_tags (get "labels" o) feed_tags = Ok tags /\
             i = parsed_report format_value tlp_color o tags) out objs.
Proof.
  unfold parse_reports. intros H.
  by apply parse_reports_loop_spec in H as (new & -> & Hnew).
Qed.

End Unit42Parsers.

Lemma parse_indicators_sound_witness :
  exists out,
    Unit42.parse_indicators Samples.sdk_types Samples.repeated_indicators
      ["feed"] None = Ok out /\
    length out = 2 /\
    Forall (fun i => exists o key ty p tags,
              In (JObj o) Samples.repeated_indicators /\
              In (key, ty) (Unit42.UNIT42_TYPES_TO_DEMISTO_TYPES Samples.sdk_types) /\
              get "pattern" o = JStr p /\
              starts_with ("[" +:+ key) p = true /\
              Unit42.union_tags (get "labels" o) ["feed"] = Ok tags /\
              i = parsed_indicator None o ty tags) out.
Proof.
  eexists. split; [vm_compute; reflexivity|]. split; [reflexivity|].
  apply (parse_indicators_sound Samples.sdk_types ["feed"] None
           Samples.repeated_indicators).
  vm_compute; reflexivity.
Defined.

Lemma parse_indicators_drops_other_patterns_witness :
  Unit42.parse_indicators Samples.sdk_types
    ([JObj (Samples.unit42_indicator "indicator--1" "[url:value = 'http://example.org/a']")]
     ++ JObj [("pattern", JStr "[email-addr:value = 'a@example.org']")] :: [])
    [] None
  = Unit42.parse_indicators Samples.sdk_types
      ([JObj (Samples.unit42_indicator "indicator--1" "[url:value = 'http://example.org/a']")]
       ++ [])
      [] None.
Proof.
  apply (parse_indicators_drops_other_patterns Samples.sdk_types [] None _ _ _
           "[email-addr:value = 'a@example.org']").
  - reflexivity.
  - vm_compute; reflexivity.
Defined.

Lemma parse_reports_one_per_object_witness :
  exists out,
    Unit42.parse_reports Samples.sdk_format
      [JObj (Samples.unit42_report "report--1")] [] None = Ok out /\
    map (fun i => Unit42.fields i ≫= assoc "stixdescription") out
      = [Some (JStr "")] /\
    Forall2 (fun i obj => exists o tags,
               obj = JObj o /\
               Unit42.union_tags (get "labels" o) [] = Ok tags /\
               i = parsed_report Samples.sdk_format None o tags)
      out [JObj (Samples.unit42_report "report--1")].
Proof.
  eexists. split; [vm_compute; reflexivity|]. split; [reflexivity|].
  apply (parse_reports_one_per_object Samples.sdk_format [] None).
  vm_compute; reflexivity.
Defined.

(** ** Tags of the Unit42 indicators *)

Section Unit42Tags.
Import Unit42.

Lemma set_update_spec (items : list json) (s s' : pyset) :
  set_update items s = Ok s' -> keyed s ->
  keyed s' /\
  (forall k y, s !! k = Some y -> s' !! k = Some y) /\
  (forall x, In x items ->
     exists k y, hash_key x = Ok k /\ s' !! k = Some y) /\
  (forall k y, s' !! k = Some y -> s !! k = Some y \/ In y items).
Proof.
  revert s. induction items as [|x items IH]; intros s H Hkeyed;
    cbn [set_update] in H.
  - injection H as <-. repeat split; auto. intros x [].
  - inv_bind_as H s1 Hs1. unfold set_add in Hs1. inv_bind_as Hs1 k Hk.
    injection Hs1 as <-.
    destruct (s !! k) as [y0|] eqn:Hlookup.
    + destruct (IH _ H Hkeyed) as (Hk' & Hkeep & Hall & Hfrom).
      split; [done|]. split; [done|]. split.
      * intros x' [<-|Hx']; [|by apply Hall].
        exists k, y0. split; [done | by apply Hkeep].
      * intros k0 y Hy. destruct (Hfrom k0 y Hy) as [?|?]; [by left|].
        right. by right.
    + assert (keyed (<[k := x]> s)) as Hkeyed1.
      { intros k0 y. destruct (decide (k0 = k)) as [->|Hne].
        - rewrite lookup_insert_eq. by intros [= <-].
        - rewrite lookup_insert_ne by done. apply Hkeyed. }
      destruct (IH _ H Hkeyed1) as (Hk' & Hkeep & Hall & Hfrom).
      split; [done|]. split; [|split].
      * intros k0 y Hy. apply Hkeep. rewrite lookup_insert_ne; [done|].
        intros <-. congruence.
      * intros x' [<-|Hx']; [|by apply Hall].
        exists k, x. split; [done|]. apply Hkeep. by rewrite lookup_insert_eq.
      * intros k0 y Hy. destruct (Hfrom k0 y Hy) as [Hin|?]; [|right; by right].
        destruct (decide (k0 = k)) as [->|Hne].
        -- rewrite lookup_insert_eq in Hin. injection Hin as <-. right. by left.
        -- rewrite lookup_insert_ne in Hin by done. by left.
Qed.

Lemma to_set_spec (v : json) (s : pyset) :
  to_set v = Ok s ->
  exists items,
    iter v = Ok items /\ keyed s /\
    (forall x, In x items ->
       exists k y, hash_key x = Ok k /\ s !! k = Some y) /\
    (forall k y, s !! k = Some y -> In y items).
Proof.
  unfold to_set. intros H. inv_bind_as H items Hitems. exists items.
  split; [done|].
  destruct (set_update_spec items ∅ s H) as (Hkeyed & _ & Hall & Hfrom).
  { intros k y Hy. by rewrite lookup_empty in Hy. }
  split; [done|]. split; [done|].
  intros k y Hy. destruct (Hfrom k y Hy) as [Hempty|?]; [|done].
  by rewrite lookup_empty in Hempty.
Qed.

Lemma In_members (s : pyset) (y : json) :
  In y (members s) <-> exists k, s !! k = Some y.
Proof.
  unfold members. rewrite in_map_iff. split.
  - intros ([k y'] & <- & Hin). exists k.
    by apply list_elem_of_In, elem_of_map_to_list in Hin.
  - intros (k & Hk). exists (k, y). split; [done|].
    by apply list_elem_of_In, elem_of_map_to_list.
Qed.

Lemma members_keys (s : pyset) :
  keyed s -> mapM hash_key (members s) = Ok (map fst (map_to_list s)).
Proof.
  intros Hkeyed. unfold members.
  assert (Forall (fun p => hash_key (snd p) = Ok (fst p)) (map_to_list s)) as H.
  { apply Forall_forall. intros [k y] Hin.
    apply elem_of_map_to_list in Hin. by apply Hkeyed. }
  induction H as [|[k y] l Hp _ IH]; [done|].
  cbn [map mapM fst snd] in *. by rewrite Hp, IH.
Qed.

Lemma hash_key_string (y : json) (label : string) :
  hash_key y = Ok (KStr label) -> y = JStr label.
Proof. destruct y as [|[]| | | |]; simpl; congruence. Qed.

Lemma union_tags_merged (labels : json) (feed_tags : list string) (tags : json) :
  union_tags labels feed_tags = Ok tags ->
  exists ts, tags = JList ts /\ merged_tags labels feed_tags ts.
Proof.
  unfold union_tags. intros H. inv_bind_as H a Ha. inv_bind_as H b Hb.
  injection H as <-. eexists. split; [reflexivity|].
  apply to_set_spec in Ha as (items & Hitems & Hka & Hall_a & Hfrom_a).
  apply to_set_spec in Hb as (tags & Htags & Hkb & Hall_b & Hfrom_b).
  cbn [str_list iter] in Htags. injection Htags as <-.
  assert (keyed (set_union a b)) as Hkeyed.
  { intros k y Hy. apply lookup_union_Some_raw in Hy as [Hy|[_ Hy]];
      [by apply Hka | by apply Hkb]. }
  assert (forall k y, a !! k = Some y -> set_union a b !! k = Some y) as Hleft.
  { intros k y Hy. apply lookup_union_Some_raw. by left. }
  assert (forall x, In x items ->
            exists y k, In y (members (set_union a b)) /\ In y items /\
              hash_key x = Ok k /\ hash_key y = Ok k) as Hlabels.
  { intros x Hx. destruct (Hall_a x Hx) as (k & y & Hk & Hy).
    exists y, k. split; [apply In_members; exists k; by apply Hleft|].
    split; [by eapply Hfrom_a|]. split; [done | by apply Hka]. }
  split; [|split; [|split; [|split]]].
  - exists (map fst (map_to_list (set_union a b))).
    split; [by apply members_keys | apply NoDup_fst_map_to_list].
  - intros tag Htag.
    destruct (Hall_b (JStr tag)) as (k & y & Hk & Hy); [by apply in_map|].
    cbn [hash_key] in Hk. injection Hk as <-.
    apply In_members. exists (KStr tag).
    destruct (a !! KStr tag) as [y'|] eqn:Hlookup.
    + rewrite (hash_key_string y' tag (Hka _ _ Hlookup)) in Hlookup.
      by apply Hleft.
    + rewrite (hash_key_string y tag (Hkb _ _ Hy)) in Hy.
      apply lookup_union_Some_raw. by right.
  - intros items' x Hiter Hx. rewrite Hitems in Hiter. injection Hiter as <-.
    by apply Hlabels.
  - intros items' label Hiter Hx. rewrite Hitems in Hiter. injection Hiter as <-.
    destruct (Hlabels _ Hx) as (y & k & Hy & _ & Hk & Hyk).
    cbn [hash_key] in Hk. injection Hk as <-.
    by rewrite (hash_key_string y label Hyk) in Hy.
  - intros y Hy. apply In_members in Hy as (k & Hy).
    apply lookup_union_Some_raw in Hy as [Hy|[_ Hy]].
    + right. exists items. split; [done | by eapply Hfrom_a].
    + left. apply Hfrom_b, in_map_iff in Hy as (tag & <- & Htag). by exists tag.
Qed.

(** X19.  The tags of every indicator that [parse_indicators] returns
    are the labels of its raw object merged with the feed tags as a set
    of Python: whatever their order, no two tags are equal, every feed
    tag is there, every label is there or, where several labels are
    equal (as [True] and [1] are), one of them is, so every label that is
    a string is there, and every tag is a label or a feed tag. *)
Theorem parse_indicators_merges_tags (sdk_types : CommonServer.FeedIndicatorType)
    (objs : list json) (feed_tags : list string) (tlp_color : option string)
    (out : list indicator) :
  parse_indicators sdk_types objs feed_tags tlp_color = Ok out ->
  Forall (fun i => exists raw ts,
            rawJSON i = Some raw /\
            fields i ≫= assoc "tags" = Some (JList ts) /\
            merged_tags (get "labels" raw) feed_tags ts) out.
Proof.
  unfold parse_indicators. intros H.
  apply parse_indicators_loop_sound in H as (new & -> & H). simpl.
  eapply Forall_impl; [exact H|].
  intros i (o & key & ty & p & tags & _ & _ & _ & _ & Htags & ->).
  apply union_tags_merged in Htags as (ts & -> & Hmerged).
  exists o, ts. split; [done|]. split; [|done].
  cbn [parsed_indicator fields mbind option_bind]. by rewrite with_tlp_other.
Qed.

End Unit42Tags.

Lemma parse_indicators_merges_tags_witness :
  exists out,
    Unit42.parse_indicators Samples.sdk_types
      [JObj MoreSamples.flagged_indicator] ["feed"; "unit42"] None = Ok out /\
    Forall (fun i => exists ts,
              Unit42.fields i ≫= assoc "tags" = Some (JList ts) /\
              length ts = 4 /\ In (JBool true) ts /\ ~ In (JNum 1) ts) out /\
    Forall (fun i => exists raw ts,
              Unit42.rawJSON i = Some raw /\
              Unit42.fields i ≫= assoc "tags" = Some (JList ts) /\
              merged_tags (get "labels" raw) ["feed"; "unit42"] ts)
      out.
Proof.
  eexists. split; [vm_compute; reflexivity|]. split.
  - repeat constructor. eexists. split; [vm_compute; reflexivity|].
    split; [reflexivity|]. split; [simpl; tauto|].
    simpl. intros H. repeat (destruct H as [H|H]; [discriminate|]). done.
  - apply (parse_indicators_merges_tags Samples.sdk_types
             [JObj MoreSamples.flagged_indicator] ["feed"; "unit42"] None).
    vm_compute; reflexivity.
Defined.

(** ** Courses of action *)

Section CoursesOfAction.
Import Unit42.
Variable FeedIndicatorType : CommonServer.FeedIndicatorType.
Variable tableToMarkdown : string -> list obj -> list string -> string.
Variable format_value : json -> string.

Lemma named_courses_set (source : string) (name : string) (courses : obj) :
  name <> "" -> named_courses courses ->
  named_courses (dict_set source (JStr name) courses).
Proof.
  intros Hname. unfold named_courses.
  induction courses as [|[k v] courses IH]; intros H; cbn [dict_set].
  - repeat constructor. by exists name.
  - inversion H as [|? ? Hv Hrest]; subst.
    destruct (String.eqb source k).
    + constructor; [by exists name | done].
    + constructor; [done | by apply IH].
Qed.

Lemma dict_set_not_empty {A} (k : string) (v : A) (d : list (string * A)) :
  dict_set k v d <> [].
Proof. destruct d as [|[k' v'] d]; cbn [dict_set]; [done|]. by destruct (String.eqb k k'). Qed.

Lemma courses_loop_named (relationships : list json) (acc courses : obj) :
  (forall o, In (JObj o) relationships -> from_course_of_action o ->
     names_a_product o) ->
  named_courses acc ->
  courses_loop relationships acc = Ok courses ->
  named_courses courses.
Proof.
  revert acc. induction relationships as [|r rels IH]; intros acc Hall Hacc H;
    cbn [courses_loop] in H.
  - by injection H as <-.
  - inv_bind_as H o Ho. inv_bind_as H source Hsource.
    destruct r; try discriminate. injection Ho as ->.
    destruct (get "source_ref" o) as [| | |s| |] eqn:Hs; try discriminate.
    injection Hsource as ->.
    assert (forall o', In (JObj o') rels -> from_course_of_action o' ->
              names_a_product o') as Hall'
      by (intros o' Hin; apply Hall; by right).
    destruct (starts_with "course-of-action" source) eqn:Hstart;
      [|by apply (IH acc)].
    destruct (Hall o) as [Hfalse | (name & Hfirst & Hname)];
      [by left | by exists source | |].
    + rewrite Hfalse in H. apply (IH _ Hall') in H; [done|].
      by apply named_courses_set.
    + destruct (truthy _).
      * rewrite Hfirst in H. cbn [mbind result_bind] in H.
        apply (IH _ Hall') in H; [done|]. by apply named_courses_set.
      * apply (IH _ Hall') in H; [done|]. by apply named_courses_set.
Qed.

Lemma courses_loop_not_empty (relationships : list json) (acc courses : obj) :
  acc <> [] \/
    (exists o, In (JObj o) relationships /\ from_course_of_action o) ->
  courses_loop relationships acc = Ok courses ->
  courses <> [].
Proof.
  revert acc. induction relationships as [|r rels IH]; intros acc Hsome H;
    cbn [courses_loop] in H.
  - injection H as <-. destruct Hsome as [?|(o & [] & _)]. done.
  - inv_bind_as H o Ho. inv_bind_as H source Hsource.
    destruct r; try discriminate. injection Ho as ->.
    destruct (get "source_ref" o) as [| | |s| |] eqn:Hs; try discriminate.
    injection Hsource as ->.
    destruct (starts_with "course-of-action" source) eqn:Hstart.
    + destruct (truthy _).
      * inv_bind_as H first Hfirst. apply IH in H; [done|].
        left. apply dict_set_not_empty.
      * apply IH in H; [done|]. left. apply dict_set_not_empty.
    + apply IH in H; [done|].
      destruct Hsome as [?|(o' & [Heq|Hin] & Hfrom)]; [by left | | right; by exists o'].
      injection Heq as ->. destruct Hfrom as (s' & Hs' & Hstart').
      rewrite Hs in Hs'. injection Hs' as <-. congruence.
Qed.

Lemma rows_loop_character (product name : string) (table : list obj) :
  name <> "" ->
  exists e, rows_loop product (chars name) table = Raise e.
Proof. destruct name as [|c name]; [done|]. intros _. by exists AttributeError. Qed.

Lemma named_courses_raise (courses : obj) :
  courses <> [] -> named_courses courses ->
  exists e, create_course_of_action_field tableToMarkdown courses = Raise e.
Proof.
  destruct courses as [|[k v] courses]; [done|]. intros _ H.
  inversion H as [|? ? (name & Hv & Hname) _]; subst. simpl in Hv. subst v.
  cbn [create_course_of_action_field tables_loop iter mbind result_bind].
  destruct (rows_loop_character k name [] Hname) as (e & ->). by exists e.
Qed.

Lemma attack_patterns_loop_raises (attack_patterns : list json) (courses : obj)
    (feed_tags : list string) (tlp_color : option string)
    (acc : list indicator) :
  attack_patterns <> [] -> courses <> [] -> named_courses courses ->
  exists e,
    attack_patterns_loop tableToMarkdown attack_patterns courses feed_tags
      tlp_color acc = Raise e.
Proof.
  intros Hne Hnot Hnamed.
  destruct (named_courses_raise courses Hnot Hnamed) as (e & He).
  destruct attack_patterns as [|a rest]; [done|].
  cbn [attack_patterns_loop].
  destruct (as_dict a) as [o|e1]; [|by exists e1]. cbn [mbind result_bind].
  destruct (iter _) as [refs|e1]; [|by exists e1]. cbn [mbind result_bind].
  destruct (publications_loop _ _) as [pubs|e1]; [|by exists e1].
  cbn [mbind result_bind].
  destruct (handle_multiple_dates_in_one_field "created" _) as [c|e1];
    [|by exists e1]. cbn [mbind result_bind].
  destruct (handle_multiple_dates_in_one_field "modified" _) as [m|e1];
    [|by exists e1]. cbn [mbind result_bind].
  rewrite He. by exists e.
Qed.

(** X20.  [create_attack_pattern_indicator] cannot build the courses of
    action of an attack pattern from names.  When the client has fetched
    at least one attack pattern and at least one relationship that starts
    from a course of action, and every such relationship has no product
    or a product that starts with a name, the function raises: what it
    records for a course of action is a name, of which
    [create_course_of_action_field] takes the characters for
    dictionaries. *)
Theorem named_courses_of_action_raise (client : Client)
    (feed_tags : list string) (tlp_color : option string)
    (relationships attack_patterns : list json) :
  objects_of client "relationship" = Ok relationships ->
  objects_of client "attack-pattern" = Ok attack_patterns ->
  attack_patterns <> [] ->
  (exists o, In (JObj o) relationships /\ from_course_of_action o) ->
  (forall o, In (JObj o) relationships -> from_course_of_action o ->
     names_a_product o) ->
  exists e,
    create_attack_pattern_indicator tableToMarkdown client feed_tags tlp_color
      = Raise e.
Proof.
  intros Hrels Hpatterns Hne Hsome Hall. unfold create_attack_pattern_indicator.
  rewrite Hrels. cbn [mbind result_bind].
  destruct (courses_loop relationships []) as [courses|e] eqn:Hcourses;
    [|by exists e].
  cbn [mbind result_bind]. rewrite Hpatterns. cbn [mbind result_bind].
  apply attack_patterns_loop_raises; [done| |].
  - by apply (courses_loop_not_empty relationships []); [right|].
  - by apply (courses_loop_named relationships []); [|constructor|].
Qed.

(** X22.  So the whole fetch fails on such a feed.  When the fetch of the
    seven types succeeds and leaves at least one attack pattern and at
    least one relationship from a course of action, each with no product
    or a product that starts with a name, [fetch_indicators] raises, with
    or without relationship creation. *)
Theorem fetch_indicators_raises_on_courses (client fetched : Client)
    (feed_tags : list string) (tlp_color : option string)
    (relationships attack_patterns : list json) (create_relationships : bool) :
  get_stix_objects client false item_types_to_fetch_from_api = Ok fetched ->
  objects_of fetched "relationship" = Ok relationships ->
  objects_of fetched "attack-pattern" = Ok attack_patterns ->
  attack_patterns <> [] ->
  (exists o, In (JObj o) relationships /\ from_course_of_action o) ->
  (forall o, In (JObj o) relationships -> from_course_of_action o ->
     names_a_product o) ->
  exists e,
    fetch_indicators FeedIndicatorType tableToMarkdown format_value client
      feed_tags tlp_color create_relationships = Raise e.
Proof.
  intros Hfetched Hrels Hpatterns Hne Hsome Hall.
  assert (exists e, create_attack_pattern_indicator tableToMarkdown fetched
                      feed_tags tlp_color = Raise e) as (e & He).
  { unfold create_attack_pattern_indicator. rewrite Hrels.
    cbn [mbind result_bind].
    destruct (courses_loop relationships []) as [courses|e] eqn:Hcourses;
      [|by exists e].
    cbn [mbind result_bind]. rewrite Hpatterns. cbn [mbind result_bind].
    apply attack_patterns_loop_raises; [done| |].
    - by apply (courses_loop_not_empty relationships []); [right|].
    - by apply (courses_loop_named relationships []); [|constructor|]. }
  unfold fetch_indicators. rewrite Hfetched. cbn [mbind result_bind].
  destruct (objects_of fetched "indicator") as [io|e1]; [|by exists e1].
  cbn [mbind result_bind].
  destruct (parse_indicators _ _ _ _) as [ind|e1]; [|by exists e1].
  cbn [mbind result_bind].
  destruct (objects_of fetched "report") as [ro|e1]; [|by exists e1].
  cbn [mbind result_bind].
  destruct (parse_reports _ _ _ _) as [rep|e1]; [|by exists e1].
  cbn [mbind result_bind]. rewrite He. by exists e.
Qed.

End CoursesOfAction.

Lemma named_courses_of_action_raise_witness :
  exists e,
    Unit42.create_attack_pattern_indicator Samples.sdk_table
      MoreSamples.course_fetched ["feed"] None = Raise e.
Proof.
  apply (named_courses_of_action_raise Samples.sdk_table
           MoreSamples.course_fetched ["feed"] None
           [JObj (Samples.relationship_object "relationship--3"
                    "course-of-action--1" "attack-pattern--1")]
           [JObj (Samples.stix_object "attack-pattern" "attack-pattern--1")]).
  - vm_compute; reflexivity.
  - vm_compute; reflexivity.
  - discriminate.
  - eexists. split; [left; reflexivity|].
    exists "course-of-action--1". split; vm_compute; reflexivity.
  - intros o [H|[]] _. injection H as <-. left. vm_compute; reflexivity.
Defined.

(** ** Relationships of the Unit42 feed *)

Section Unit42Relationships.
Import Unit42.
Variable FeedIndicatorType : CommonServer.FeedIndicatorType.

Lemma entity_type_dangling (ref : json) (id_to_object : gmap key obj) :
  dangling_indicator ref id_to_object ->
  entity_type FeedIndicatorType ref id_to_object = Raise AttributeError.
Proof.
  intros (s & -> & Hbefore & Hnone). unfold entity_type.
  cbn [as_str mbind result_bind]. rewrite Hbefore.
  unfold get_ioc_type. cbn [hash_key mbind result_bind]. by rewrite Hnone.
Qed.

Lemma relationships_loop_dangling (relationships : list json)
    (id_to_object : gmap key obj) (acc : list CommonServer.EntityRelation) :
  (exists o, In (JObj o) relationships /\
     (dangling_indicator (get "source_ref" o) id_to_object \/
      dangling_indicator (get "target_ref" o) id_to_object)) ->
  exists e,
    relationships_loop FeedIndicatorType relationships id_to_object acc = Raise e.
Proof.
  revert acc. induction relationships as [|r rels IH]; intros acc (o & Hin & Hd).
  - destruct Hin.
  - cbn [relationships_loop].
    destruct (as_dict r) as [o'|e] eqn:Ho'; [|by exists e].
    cbn [mbind result_bind].
    destruct (entity_type FeedIndicatorType (get "source_ref" o') id_to_object)
      as [a|e] eqn:Ha; [|by exists e].
    cbn [mbind result_bind].
    destruct (entity_type FeedIndicatorType (get "target_ref" o') id_to_object)
      as [b|e] eqn:Hb; [|by exists e].
    cbn [mbind result_bind]. destruct Hin as [->|Hin].
    + injection Ho' as <-.
      destruct Hd as [Hd|Hd]; apply entity_type_dangling in Hd; congruence.
    + apply IH. by exists o.
Qed.

(** X21.  [create_list_relationships] raises when a fetched relationship
    starts from or ends at an indicator that [id_to_object] does not
    hold: [get_ioc_type] reads the pattern of the object it did not
    find. *)
Theorem dangling_indicator_raises (client : Client)
    (id_to_object : gmap key obj) (relationships : list json) (o : obj) :
  objects_of client "relationship" = Ok relationships ->
  In (JObj o) relationships ->
  dangling_indicator (get "source_ref" o) id_to_object \/
    dangling_indicator (get "target_ref" o) id_to_object ->
  exists e,
    create_list_relationships FeedIndicatorType client id_to_object = Raise e.
Proof.
  intros Hrels Hin Hd. unfold create_list_relationships. rewrite Hrels.
  cbn [mbind result_bind]. apply relationships_loop_dangling. by exists o.
Qed.

End Unit42Relationships.

Lemma dangling_indicator_raises_witness :
  exists e,
    Unit42.create_list_relationships Samples.sdk_types
      MoreSamples.indicator_relationship ∅ = Raise e.
Proof.
  apply (dangling_indicator_raises Samples.sdk_types
           MoreSamples.indicator_relationship ∅
           [JObj (Samples.relationship_object "relationship--4"
                    "indicator--404" "attack-pattern--1")]
           (Samples.relationship_object "relationship--4"
              "indicator--404" "attack-pattern--1")).
  - vm_compute; reflexivity.
  - left; reflexivity.
  - left. exists "indicator--404".
    split; [vm_compute; reflexivity|]. split; [vm_compute; reflexivity|].
    reflexivity.
Defined.

Lemma fetch_indicators_raises_on_courses_witness :
  exists e,
    Unit42.fetch_indicators Samples.sdk_types Samples.sdk_table Samples.sdk_format
      MoreSamples.course_client ["feed"] None false = Raise e.
Proof.
  eapply (fetch_indicators_raises_on_courses Samples.sdk_types Samples.sdk_table
            Samples.sdk_format MoreSamples.course_client).
  - vm_compute; reflexivity.
  - vm_compute; reflexivity.
  - vm_compute; reflexivity.
  - discriminate.
  - eexists. split; [left; reflexivity|].
    exists "course-of-action--1". split; vm_compute; reflexivity.
  - intros o [H|[]] _. injection H as <-. right. exists "NGFW".
    split; [vm_compute; reflexivity | discriminate].
Defined.

(** ** The Unit42 fetch with and without relationships *)

Section Unit42FetchModes.
Import Unit42.
Variable FeedIndicatorType : CommonServer.FeedIndicatorType.
Variable tableToMarkdown : string -> list obj -> list string -> string.
Variable format_value : json -> string.
Variable feed_tags : list string.
Variable tlp_color : option string.

(** X23.  Relationship creation only adds the placeholder.  When
    [fetch_indicators] succeeds with relationship creation, it succeeds
    without it too, on the same client, and returns the same list less
    the placeholder; no indicator of that list carries relationships. *)
Theorem relationships_only_add_the_placeholder (client : Client)
    (out : list indicator) :
  fetch_indicators FeedIndicatorType tableToMarkdown format_value client
    feed_tags tlp_color true = Ok out ->
  exists indicators list_relationships others,
    out = indicators ++ [dummy_indicator list_relationships] ++ others /\
    fetch_indicators FeedIndicatorType tableToMarkdown format_value client
      feed_tags tlp_color false = Ok (indicators ++ others) /\
    Forall no_relationships (indicators ++ others).
Proof.
  unfold fetch_indicators. intros H.
  inv_bind_as H fetched Hfetched.
  inv_bind_as H indicator_objects Hio. inv_bind_as H indicators Hindicators.
  inv_bind_as H report_objects Hro. inv_bind_as H reports Hreports.
  inv_bind_as H patterns Hpatterns.
  inv_bind_as H o1 Ho1. inv_bind_as H o2 Ho2. inv_bind_as H o3 Ho3.
  inv_bind_as H o4 Ho4. inv_bind_as H o5 Ho5. inv_bind_as H o6 Ho6.
  inv_bind_as H id_to_object Hids.
  inv_bind_as H dummy Hdummy. inv_bind_as Hdummy list_relationships Hrels.
  injection Hdummy as <-. injection H as <-.
  exists indicators, list_relationships, (reports ++ patterns).
  split; [by rewrite <- app_assoc|]. split.
  - rewrite Hio in Ho2. injection Ho2 as <-.
    rewrite Hro in Ho1. injection Ho1 as <-.
    rewrite Hfetched. cbn [mbind result_bind].
    rewrite Hio, Hro, Ho3, Ho4, Ho5, Ho6. cbn [mbind result_bind].
    rewrite Hindicators, Hreports, Hpatterns. cbn [mbind result_bind].
    rewrite Hids. reflexivity.
  - apply Forall_app. split.
    { eapply parse_indicators_no_relationships; [done | constructor]. }
    apply Forall_app. split.
    + eapply parse_reports_no_relationships; [done | constructor].
    + unfold create_attack_pattern_indicator in Hpatterns.
      do 3 inv_bind Hpatterns.
      eapply attack_patterns_no_relationships; [done | constructor].
Qed.

End Unit42FetchModes.

Lemma relationships_only_add_the_placeholder_witness :
  exists out indicators list_relationships others,
    Unit42.fetch_indicators Samples.sdk_types Samples.sdk_table Samples.sdk_format
      Samples.unit42_client ["feed"] None true = Ok out /\
    length out = 5 /\
    out = indicators ++ [dummy_indicator list_relationships] ++ others /\
    Unit42.fetch_indicators Samples.sdk_types Samples.sdk_table Samples.sdk_format
      Samples.unit42_client ["feed"] None false = Ok (indicators ++ others) /\
    Forall no_relationships (indicators ++ others).
Proof.
  eexists.
  destruct (relationships_only_add_the_placeholder Samples.sdk_types
              Samples.sdk_table Samples.sdk_format ["feed"] None
              Samples.unit42_client _ ltac:(vm_compute; reflexivity))
    as (indicators & rels & others & H).
  exists indicators, rels, others.
  split; [vm_compute; reflexivity|]. split; [vm_compute; reflexivity|]. exact H.
Defined.

(** ** The [unit42-get-indicators] command *)

Section Unit42GetIndicators.
Import Unit42 Unit42Commands.
Variable FeedIndicatorType : CommonServer.FeedIndicatorType.
Variable tableToMarkdown : string -> list obj -> list string -> string.
Variable format_value : json -> string.
Variable int : json -> result Z.

Lemma pages_loop_next (data data' : list json) (pages : list (result obj)) :
  pages_loop false data pages = Ok (Next data') ->
  exists more, data' = data ++ more.
Proof.
  revert data. induction pages as [|page pages IH]; intros data H;
    cbn [pages_loop] in H.
  - injection H as <-. exists []. by rewrite app_nil_r.
  - inv_bind_as H bundle Hbundle. inv_bind_as H objects Hobjects.
    apply IH in H as [more ->]. exists (objects ++ more). by rewrite app_assoc.
Qed.

Lemma pages_loop_first (data : list json) (page : result obj)
    (pages : list (result obj)) :
  pages_loop false [] (page :: pages) = Ok (Next data) ->
  exists bundle objects more,
    page = Ok bundle /\ bundle_objects bundle = Ok objects /\
    data = objects ++ more.
Proof.
  cbn [pages_loop]. intros H. inv_bind_as H bundle Hbundle.
  inv_bind_as H objects Hobjects. apply pages_loop_next in H as [more ->].
  exists bundle, objects, more. by subst page.
Qed.

Lemma get_stix_objects_unfetched (items_types : list string) (type_ : string)
    (self self' : Client) :
  get_stix_objects self false items_types = Ok self' ->
  ~ In type_ items_types ->
  objects_data self' !! type_ = objects_data self !! type_.
Proof.
  revert self. induction items_types as [|t ts IH]; intros self H Hin.
  - by injection H as <-.
  - cbn [get_stix_objects] in H. inv_bind_as H fetched Hfetched.
    destruct fetched as [r self1].
    apply fetch_false_next in Hfetched as (data & _ & ->).
    rewrite (IH _ H) by (intros ?; apply Hin; by right).
    cbn [objects_data]. apply lookup_insert_ne. intros <-. apply Hin. by left.
Qed.

Lemma get_stix_objects_holds (items_types : list string) (type_ : string)
    (self self' : Client) :
  get_stix_objects self false items_types = Ok self' ->
  In type_ items_types ->
  exists data,
    pages_loop false [] (all_pages (server self) type_) = Ok (Next data) /\
    objects_of self' type_ = Ok data.
Proof.
  revert self. induction items_types as [|t ts IH]; intros self H Hin; [done|].
  cbn [get_stix_objects] in H. inv_bind_as H fetched Hfetched.
  destruct fetched as [r self1].
  apply fetch_false_next in Hfetched as (data & Hdata & ->).
  destruct (in_dec String.string_dec type_ ts) as [Hts|Hts].
  - by apply (IH _ H).
  - destruct Hin as [->|Hin]; [|done]. exists data.
    rewrite roots_loop_pages_any in Hdata. split; [done|].
    unfold objects_of.
    rewrite (get_stix_objects_unfetched _ _ _ _ H Hts). cbn [objects_data].
    by rewrite lookup_insert_eq.
Qed.

Lemma slice_to_take {A} (limit : Z) (l : list A) :
  exists n, slice_to limit l = take n l /\
    ((0 <= limit)%Z -> n = Z.to_nat limit).
Proof.
  unfold slice_to. destruct (Z.leb_spec 0 limit).
  - by exists (Z.to_nat limit).
  - eexists. split; [reflexivity | lia].
Qed.

(** X24.  What the [unit42-get-indicators] command shows is the start of
    what the feed fetches.  Whenever [fetch_indicators] returns on a
    server and the limit of the arguments (10 when they give none) is a
    number, [get_indicators_command] returns on that server too, and the
    indicators it shows are an initial part of the fetched list, in the
    same order, of at most as many indicators as a limit that is not
    negative says. *)
Theorem get_indicators_command_shows_start_of_fetch (client : Client)
    (args : obj) (feed_tags : list string) (tlp_color : option string)
    (create_relationships : bool) (limit : Z) (out : list indicator) :
  fetch_indicators FeedIndicatorType tableToMarkdown format_value client
    feed_tags tlp_color create_relationships = Ok out ->
  int (get_or "limit" (JStr "10") args) = Ok limit ->
  exists results rest,
    get_indicators_command FeedIndicatorType tableToMarkdown int client args
      feed_tags tlp_color = Ok results /\
    out = raw_response results ++ rest /\
    ((0 <= limit)%Z -> length (raw_response results) <= Z.to_nat limit).
Proof.
  intros H Hlimit. unfold fetch_indicators in H.
  inv_bind_as H fetched Hfetched.
  inv_bind_as H indicator_objects Hio. inv_bind_as H indicators Hindicators.
  inv_bind_as H report_objects Hro. inv_bind_as H reports Hreports.
  inv_bind_as H patterns Hpatterns.
  do 6 inv_bind H. inv_bind_as H id_to_object Hids.
  inv_bind_as H dummy Hdummy. injection H as <-.
  destruct (get_stix_objects_holds _ "indicator" _ _ Hfetched) as (data & Hdata & Hheld);
    [cbn; tauto|].
  rewrite Hio in Hheld. injection Hheld as ->.
  assert (exists first_page client' parsed later,
            fetch_stix_objects_from_api client true "indicator"
              = Ok (first_page, client') /\
            parse_indicators FeedIndicatorType (default [] first_page)
              feed_tags tlp_color = Ok parsed /\
            indicators = parsed ++ later)
    as (first_page & client' & parsed & later & Hfirst & Hparsed & ->).
  { rewrite fetch_as_pages.
    destruct (all_pages (server client) "indicator") as [|page pages].
    - injection Hdata as <-. eexists _, _, indicators, []. split; [reflexivity|].
      split; [exact Hindicators | by rewrite app_nil_r].
    - apply pages_loop_first in Hdata
        as (bundle & objects & more & -> & Hobjects & ->).
      rewrite parse_indicators_app in Hindicators.
      inv_bind_as Hindicators parsed Hparsed.
      inv_bind_as Hindicators later Hlater. injection Hindicators as <-.
      exists (Some objects), client, parsed, later.
      cbn [pages_loop mbind result_bind]. unfold bundle_objects in Hobjects.
      rewrite Hobjects. by repeat split. }
  unfold get_indicators_command. rewrite Hlimit. cbn [mbind result_bind].
  rewrite Hfirst. cbn [mbind result_bind]. rewrite Hparsed.
  cbn [mbind result_bind].
  destruct (slice_to_take limit parsed) as (n & Hslice & Hn).
  eexists _, (drop n parsed ++ later ++
                match dummy with Some d => [d] | None => [] end ++
                reports ++ patterns).
  split; [reflexivity|]. cbn [raw_response]. rewrite Hslice. split.
  - rewrite (app_assoc (take n parsed)), (app_assoc (_ ++ _) later).
    rewrite take_drop. destruct dummy; by rewrite <- ?app_assoc.
  - intros Hpos. rewrite length_take, (Hn Hpos). lia.
Qed.

End Unit42GetIndicators.

Lemma get_indicators_command_shows_start_of_fetch_witness :
  exists out results rest,
    Unit42.fetch_indicators Samples.sdk_types Samples.sdk_table Samples.sdk_format
      MoreSamples.paged_client ["feed"] None false = Ok out /\
    length out = 3 /\
    Unit42Commands.get_indicators_command Samples.sdk_types Samples.sdk_table
      MoreSamples.sdk_int MoreSamples.paged_client [("limit", JStr "1")]
      ["feed"] None = Ok results /\
    length (Unit42Commands.raw_response results) = 1 /\
    out = Unit42Commands.raw_response results ++ rest /\
    ((0 <= 1)%Z -> length (Unit42Commands.raw_response results) <= Z.to_nat 1).
Proof.
  eexists.
  destruct (get_indicators_command_shows_start_of_fetch Samples.sdk_types
              Samples.sdk_table Samples.sdk_format MoreSamples.sdk_int
              MoreSamples.paged_client [("limit", JStr "1")] ["feed"] None
              false 1%Z _
              ltac:(vm_compute; reflexivity) ltac:(vm_compute; reflexivity))
    as (results & rest & Hcommand & Hout & Hbound).
  exists results, rest.
  split; [vm_compute; reflexivity|]. split; [vm_compute; reflexivity|].
  split; [exact Hcommand|]. split; [|split; [exact Hout | exact Hbound]].
  vm_compute in Hcommand. injection Hcommand as <-. reflexivity.
Defined.
